(** * Caption acquisition pipeline: a shallow embedding and its properties

    The development follows the three scripts of the repository:
    - [youtube_transcriber.py]: the subtitle parser (module [Subtitles]),
      then the rate limiter, the status file and the per-item state
      machine (module [Transcriber]);
    - [main.py]: the notebook variant of the same pipeline, with a retry
      loop and a plain-text writer (module [Notebook]);
    - [process_failed_videos.py]: the iteration planner (module [Planner]).

    Conventions.
    - A Python [str] is a [string]; its characters are read as code points
      below 256.
    - Python exceptions are values of [exn]; a computation that may raise
      has type [result A]; [try_except] is the [try: ... except ...:] block.
    - Python floats are kept abstract behind the class [PyFloat]; rational
      numbers give an instance that runs.
    - The file system, the clock, the random generator and the upstream
      service are explicit: [World] is threaded through every function
      that touches them, [Env] holds what the outside answers.
    - The libraries the scripts call (BeautifulSoup, [json.loads], yt-dlp,
      the transcript API) are parameters of the functions that call them.

    The definitions come first, the properties after them. *)

From Stdlib Require Import ZArith QArith Lqa Ascii String List Lia Bool.
From stdpp Require Import base strings pretty list gmap.
Import ListNotations.
Open Scope string_scope.

(** ** Exceptions *)

Inductive exn : Type :=
| KeyError
| ValueError
| OverflowError
| IndexError
| TypeError
| AttributeError
| JSONDecodeError
| FileNotFoundError
| HTTPError (status_code : Z) (msg : string)
| TranscriptsDisabled (msg : string)
| NoTranscriptFound (msg : string)
| VideoUnavailable (msg : string)
| Exception (msg : string)
| Wrapped (prefix : string) (cause : exn).

Inductive result (A : Type) : Type :=
| Ok (a : A)
| Raise (e : exn).
Arguments Ok {A} a.
Arguments Raise {A} e.

Definition bind {A B} (c : result A) (k : A -> result B) : result B :=
  match c with
  | Ok a => k a
  | Raise e => Raise e
  end.

Notation "'let*' x := c 'in' k" := (bind c (fun x => k))
  (at level 10, x name, c at level 100, k at level 200).
Notation "'let*' ' pat := c 'in' k" :=
  (bind c (fun x => match x with pat => k end))
  (at level 10, pat pattern, c at level 100, k at level 200).

(** [try: c  except <handled>: h e]; an exception outside [handled]
    propagates. *)
Definition try_except {A} (c : result A) (handled : exn -> bool)
    (h : exn -> result A) : result A :=
  match c with
  | Ok a => Ok a
  | Raise e => if handled e then h e else Raise e
  end.

(** A bare [except:] and [except Exception:] catch everything here. *)
Definition any_exn (_ : exn) : bool := true.

(** [for x in xs: s = body s x], stopping at the first exception. *)
Fixpoint for_each {A S} (body : S -> A -> result S) (xs : list A) (s : S)
    : result S :=
  match xs with
  | [] => Ok s
  | x :: xs' => let* s' := body s x in for_each body xs' s'
  end.

(** ** Python strings *)

Module Py.

(** [str.isspace] on one character, for code points below 256. *)
Definition is_space (c : ascii) : bool :=
  let n := nat_of_ascii c in
  (((9 <=? n) && (n <=? 13)) || ((28 <=? n) && (n <=? 32))
   || (n =? 133) || (n =? 160))%nat.

Definition nonempty (s : string) : bool :=
  match s with EmptyString => false | String _ _ => true end.

Fixpoint lstrip (s : string) : string :=
  match s with
  | EmptyString => EmptyString
  | String c s' => if is_space c then lstrip s' else s
  end.

Fixpoint rstrip (s : string) : string :=
  match s with
  | EmptyString => EmptyString
  | String c s' =>
      let r := rstrip s' in
      if is_space c && negb (nonempty r) then EmptyString else String c r
  end.

(** [s.strip()] *)
Definition strip (s : string) : string := rstrip (lstrip s).

(** [s.startswith(p)] *)
Fixpoint starts_with (p s : string) : bool :=
  match p, s with
  | EmptyString, _ => true
  | String _ _, EmptyString => false
  | String a p', String b s' => Ascii.eqb a b && starts_with p' s'
  end.

(** [p in s] *)
Fixpoint contains (p s : string) : bool :=
  starts_with p s ||
  match s with
  | EmptyString => false
  | String _ s' => contains p s'
  end.

(** [s.split(sep)] for a non-empty [sep]: the text is cut at every
    occurrence of [sep], scanning from the left; [skip] counts the
    characters of a matched separator still to be passed. *)
Fixpoint split_go (sep : string) (skip : nat) (s : string) : list string :=
  match s with
  | EmptyString => [EmptyString]
  | String c s' =>
      match skip with
      | S k => split_go sep k s'
      | O =>
          if starts_with sep s
          then EmptyString :: split_go sep (String.length sep - 1) s'
          else match split_go sep 0 s' with
               | [] => [String c EmptyString]
               | w :: ws => String c w :: ws
               end
      end
  end.

Definition split (sep s : string) : list string := split_go sep 0 s.

(** [x in xs] for a list of strings *)
Definition mem (x : string) (xs : list string) : bool :=
  existsb (String.eqb x) xs.

(** [xs.remove(x)]: the first occurrence goes; the callers test
    membership first, so the [ValueError] of an absent [x] is not
    modelled. *)
Fixpoint remove_first (x : string) (xs : list string) : list string :=
  match xs with
  | [] => []
  | y :: ys => if String.eqb x y then ys else y :: remove_first x ys
  end.

(** [xs[i]], with its [IndexError] *)
Definition index {A} (xs : list A) (i : nat) : result A :=
  match nth_error xs i with
  | Some a => Ok a
  | None => Raise IndexError
  end.

(** [a, b = xs]: unpacking into exactly two names *)
Definition unpack2 {A} (xs : list A) : result (A * A) :=
  match xs with
  | [a; b] => Ok (a, b)
  | _ => Raise ValueError
  end.

End Py.

(** ** Floats

    [float] values are abstract: the parser and the writers only read
    numerals, add, subtract, multiply, divide by a constant and compare
    for equality.  [feqb] is Python's [==]: symmetric and transitive; it
    is not asked to hold between a value and itself, as it does not for
    NaN. *)

Class PyFloat (F : Type) : Type := {
  float_of_str : string -> option F;   (* [float(s)]; [None] is ValueError *)
  float_of_int : Z -> F;
  fadd : F -> F -> F;
  fsub : F -> F -> F;
  fmul : F -> F -> F;
  fdiv : F -> F -> F;
  feqb : F -> F -> bool;
  feqb_sym : forall x y, feqb x y = feqb y x;
  feqb_trans : forall x y z, feqb x y = true -> feqb y z = true -> feqb x z = true
}.

(** One caption: the dict [{'text': .., 'start': .., 'duration': ..}]. *)
Record Entry (F : Type) : Type := mkEntry {
  text : string;
  start : F;
  duration : F
}.
Arguments mkEntry {F} text start duration.
Arguments text {F} e.
Arguments start {F} e.
Arguments duration {F} e.

(** A [<text>] element as BeautifulSoup hands it over: its [start] and
    [dur] attributes when present, and [get_text()]. *)
Record TextTag : Type := mkTextTag {
  attr_start : option string;
  attr_dur : option string;
  get_text : string
}.

(** What [json.loads] returns; an object lists each key once. *)
#[local] Set Warnings "-register-all".
Inductive json (F : Type) : Type :=
| JNull
| JBool (b : bool)
| JInt (z : Z)
| JFloat (f : F)
| JStr (s : string)
| JArr (xs : list (json F))
| JObj (kvs : list (string * json F)).
Arguments JNull {F}.
Arguments JBool {F} b.
Arguments JInt {F} z.
Arguments JFloat {F} f.
Arguments JStr {F} s.
Arguments JArr {F} xs.
Arguments JObj {F} kvs.

(** The operations of Python objects the parser applies to decoded JSON,
    each with the exception it raises on the wrong kind of value. *)
Module PyObj.
Section Ops.
Context {F : Type} `{PyFloat F}.

Fixpoint lookup_key (k : string) (kvs : list (string * json F))
    : option (json F) :=
  match kvs with
  | [] => None
  | (k', v) :: kvs' => if String.eqb k k' then Some v else lookup_key k kvs'
  end.

(** [bool(v)] *)
Definition truthy (v : json F) : bool :=
  match v with
  | JNull => false
  | JBool b => b
  | JInt z => negb (Z.eqb z 0)
  | JFloat f => negb (feqb f (float_of_int 0))
  | JStr s => Py.nonempty s
  | JArr xs => match xs with [] => false | _ => true end
  | JObj kvs => match kvs with [] => false | _ => true end
  end.

(** [v[k]] for a string key *)
Definition getitem (v : json F) (k : string) : result (json F) :=
  match v with
  | JObj kvs => match lookup_key k kvs with
                | Some x => Ok x
                | None => Raise KeyError
                end
  | _ => Raise TypeError
  end.

Definition is_str (k : string) (v : json F) : bool :=
  match v with JStr s => String.eqb k s | _ => false end.

(** [k in v] for a string [k] *)
Definition contains (k : string) (v : json F) : result bool :=
  match v with
  | JObj kvs => Ok (match lookup_key k kvs with Some _ => true | None => false end)
  | JArr xs => Ok (existsb (is_str k) xs)
  | JStr s => Ok (Py.contains k s)
  | _ => Raise TypeError
  end.

Fixpoint chars (s : string) : list (json F) :=
  match s with
  | EmptyString => []
  | String c s' => JStr (String c EmptyString) :: chars s'
  end.

(** [for x in v] *)
Definition iterate (v : json F) : result (list (json F)) :=
  match v with
  | JArr xs => Ok xs
  | JObj kvs => Ok (map (fun kv => JStr (fst kv)) kvs)
  | JStr s => Ok (chars s)
  | _ => Raise TypeError
  end.

(** [v.get(k, default)] *)
Definition get (v : json F) (k : string) (default : json F)
    : result (json F) :=
  match v with
  | JObj kvs => Ok (match lookup_key k kvs with Some x => x | None => default end)
  | _ => Raise AttributeError
  end.

(** [v / 1000] *)
Definition div1000 (v : json F) : result F :=
  match v with
  | JInt z => Ok (fdiv (float_of_int z) (float_of_int 1000))
  | JFloat f => Ok (fdiv f (float_of_int 1000))
  | JBool b => Ok (fdiv (float_of_int (if b then 1 else 0)) (float_of_int 1000))
  | _ => Raise TypeError
  end.

Definition as_str (v : json F) : result string :=
  match v with JStr s => Ok s | _ => Raise TypeError end.

Fixpoint map_result {A B} (f : A -> result B) (xs : list A)
    : result (list B) :=
  match xs with
  | [] => Ok []
  | x :: xs' =>
      let* y := f x in
      let* ys := map_result f xs' in
      Ok (y :: ys)
  end.

Fixpoint join_with (sep : string) (xs : list string) : string :=
  match xs with
  | [] => EmptyString
  | [x] => x
  | x :: xs' => x ++ sep ++ join_with sep xs'
  end.

(** [sep.join(xs)]: the items are collected first, then each must be a
    [str]. *)
Definition join (sep : string) (xs : list (json F)) : result string :=
  let* strs := map_result as_str xs in
  Ok (join_with sep strs).

End Ops.
End PyObj.

(** ** [youtube_transcriber.py]: the subtitle parser *)

Module Subtitles.
Section Parser.
Context {F : Type} `{PyFloat F}.

(** The two libraries the parser calls: BeautifulSoup's
    [find_all('text')] on the parsed payload, and [json.loads] ([None] is
    [JSONDecodeError]). *)
Variable find_all_text : string -> list TextTag.
Variable json_loads : string -> option (json F).

Definition float (s : string) : result F :=
  match float_of_str s with
  | Some x => Ok x
  | None => Raise ValueError
  end.

Definition key_or_value_error (e : exn) : bool :=
  match e with KeyError | ValueError => true | _ => false end.
Definition key_or_type_error (e : exn) : bool :=
  match e with KeyError | TypeError => true | _ => false end.
Definition index_or_value_error (e : exn) : bool :=
  match e with IndexError | ValueError => true | _ => false end.
Definition json_decode_error (e : exn) : bool :=
  match e with JSONDecodeError => true | _ => false end.

(** [subtitles.append({...})] guarded by [if content:] *)
Definition append_if_content (subtitles : list (Entry F)) (content : string)
    (start duration : F) : list (Entry F) :=
  if Py.nonempty content
  then subtitles ++ [mkEntry content start duration]
  else subtitles.

(** *** XML captions *)

Definition xml_body (subtitles : list (Entry F)) (tag : TextTag)
    : result (list (Entry F)) :=
  let* s := match attr_start tag with
            | Some v => Ok v
            | None => Raise KeyError
            end in
  let* start := float s in
  let* duration := match attr_dur tag with
                   | Some v => float v
                   | None => Ok (float_of_int 0)
                   end in
  let content := Py.strip (get_text tag) in
  Ok (append_if_content subtitles content start duration).

Definition xml_branch (sub_data : string) : result (list (Entry F)) :=
  for_each
    (fun subtitles tag =>
       try_except (xml_body subtitles tag) key_or_value_error
         (fun _ => Ok subtitles))
    (find_all_text sub_data) [].

(** *** JSON captions *)

Definition json_body (subtitles : list (Entry F)) (event : json F)
    : result (list (Entry F)) :=
  let* t := PyObj.get event "tStartMs" (JInt 0) in
  let* start := PyObj.div1000 t in
  let* d := PyObj.get event "dDurationMs" (JInt 0) in
  let* duration := PyObj.div1000 d in
  let* segs := PyObj.getitem event "segs" in
  let* items := PyObj.iterate segs in
  let* texts := PyObj.map_result
                  (fun seg => PyObj.get seg "utf8" (JStr "")) items in
  let* joined := PyObj.join " " texts in
  let content := Py.strip joined in
  Ok (append_if_content subtitles content start duration).

Definition json_event (subtitles : list (Entry F)) (event : json F)
    : result (list (Entry F)) :=
  let* has := PyObj.contains "segs" event in
  let* guard := if has
                then let* segs := PyObj.getitem event "segs" in
                     Ok (PyObj.truthy segs)
                else Ok false in
  if guard
  then try_except (json_body subtitles event) key_or_type_error
         (fun _ => Ok subtitles)
  else Ok subtitles.

Definition json_branch (sub_data : string) : result (list (Entry F)) :=
  try_except
    (let* data := match json_loads sub_data with
                  | Some v => Ok v
                  | None => Raise JSONDecodeError
                  end in
     let* events := PyObj.getitem data "events" in
     let* items := PyObj.iterate events in
     for_each json_event items [])
    json_decode_error (fun _ => Ok []).

(** *** SRT captions *)

Definition srt_time_body (time_str : string) : result F :=
  let* '(time_part, ms) :=
    if Py.contains "," time_str then
      let* '(time_part, ms_part) := Py.unpack2 (Py.split "," time_str) in
      let* ms := float ms_part in
      Ok (time_part, ms)
    else if Py.contains "." time_str then
      let* '(time_part, ms_part) := Py.unpack2 (Py.split "." time_str) in
      let* ms := float ms_part in
      Ok (time_part, ms)
    else Ok (time_str, float_of_int 0) in
  let* time_parts := PyObj.map_result float (Py.split ":" time_part) in
  let frac := fdiv ms (float_of_int 1000) in
  match time_parts with
  | [h; m; s] =>
      Ok (fadd (fadd (fadd (fmul h (float_of_int 3600))
                           (fmul m (float_of_int 60))) s) frac)
  | [m; s] => Ok (fadd (fadd (fmul m (float_of_int 60)) s) frac)
  | _ => let* s := Py.index time_parts 0 in Ok (fadd s frac)
  end.

(** [srt_time_to_seconds]: every failure is turned into 0. *)
Definition srt_time_to_seconds (time_str : string) : F :=
  match try_except (srt_time_body time_str) any_exn
          (fun _ => Ok (float_of_int 0)) with
  | Ok x => x
  | Raise _ => float_of_int 0
  end.

(** The body of the [try] for the timecode line [lines[i]]; [rest] is
    [lines[i+1:]]. *)
Definition srt_block (line : string) (rest : list string)
    (subtitles : list (Entry F)) : result (list (Entry F)) :=
  let times := Py.split "-->" line in
  let* t0 := Py.index times 0 in
  let start := srt_time_to_seconds (Py.strip t0) in
  let* t1 := Py.index times 1 in
  let end_ := srt_time_to_seconds (Py.strip t1) in
  let duration := fsub end_ start in
  match rest with
  | next :: _ =>
      let content := Py.strip next in
      Ok (append_if_content subtitles content start duration)
  | [] => Ok subtitles
  end.

(** The [while i < len(lines)] loop, on the lines from index [i] on. *)
Fixpoint srt_loop (lines : list string) (subtitles : list (Entry F))
    : result (list (Entry F)) :=
  match lines with
  | [] => Ok subtitles
  | line :: rest =>
      if Py.contains "-->" line then
        match srt_block line rest subtitles with
        | Ok subtitles' =>
            (* i += 2 *)
            match rest with
            | [] => Ok subtitles'
            | _ :: rest' => srt_loop rest' subtitles'
            end
        | Raise e =>
            if index_or_value_error e
            then srt_loop rest subtitles   (* i += 1 *)
            else Raise e
        end
      else srt_loop rest subtitles
  end.

(** [[line.strip() for line in sub_data.split('\n') if line.strip()]] *)
Definition srt_lines (sub_data : string) : list string :=
  map Py.strip
    (filter (fun line => Py.nonempty (Py.strip line) = true)
       (Py.split (String "010"%char EmptyString) sub_data)).

Definition srt_branch (sub_data : string) : result (list (Entry F)) :=
  srt_loop (srt_lines sub_data) [].

(** *** Duplicate removal *)

Definition same_identifier (a b : F * string) : bool :=
  feqb (fst a) (fst b) && String.eqb (snd a) (snd b).

Definition identifier (sub : Entry F) : F * string := (start sub, text sub).

(** The loop over [subtitles] with the set [seen]. *)
Fixpoint unique_loop (seen : list (F * string)) (subtitles : list (Entry F))
    : list (Entry F) :=
  match subtitles with
  | [] => []
  | sub :: rest =>
      if existsb (same_identifier (identifier sub)) seen
      then unique_loop seen rest
      else sub :: unique_loop (identifier sub :: seen) rest
  end.

(** The entries gathered by the branch that matches the payload. *)
Definition parsed_entries (sub_data : string) : result (list (Entry F)) :=
  if Py.contains "<text start=" sub_data then xml_branch sub_data
  else if Py.contains "events" sub_data then json_branch sub_data
  else if Py.contains "-->" sub_data then srt_branch sub_data
  else Ok [].

Definition parse_subtitles (sub_data : string) : result (list (Entry F)) :=
  try_except
    (let* subtitles := parsed_entries sub_data in
     match subtitles with
     | [] => Raise (Exception "No valid subtitles found in the data")
     | _ => Ok (unique_loop [] subtitles)
     end)
    any_exn
    (fun e => Raise (Wrapped "Subtitle parsing error: " e)).

End Parser.
End Subtitles.

(** ** Rational numbers as floats, to run the parser *)

Module Rational.

Definition digit (c : ascii) : option Z :=
  let n := nat_of_ascii c in
  if ((48 <=? n) && (n <=? 57))%nat then Some (Z.of_nat (n - 48)) else None.

Fixpoint digits (acc : Z) (s : string) : option Z :=
  match s with
  | EmptyString => Some acc
  | String c s' =>
      match digit c with
      | Some d => digits (10 * acc + d) s'
      | None => None
      end
  end.

(** Plain decimal numerals: [12], [1.5], [000].  Everything else is
    rejected, which is what [float] does with the other strings used in
    this file. *)
Definition numeral (s : string) : option Q :=
  match Py.split "." s with
  | [i] =>
      if Py.nonempty i then option_map inject_Z (digits 0 i) else None
  | [i; f] =>
      if Py.nonempty i && Py.nonempty f then
        match digits 0 i, digits 0 f with
        | Some a, Some b =>
            Some (Qred (inject_Z a
                        + Qmake b (Pos.pow 10 (Pos.of_nat (String.length f)))))
        | _, _ => None
        end
      else None
  | _ => None
  end.

#[export] Instance Q_float : PyFloat Q := {|
  float_of_str := numeral;
  float_of_int := inject_Z;
  fadd := fun x y => Qred (Qplus x y);
  fsub := fun x y => Qred (Qminus x y);
  fmul := fun x y => Qred (Qmult x y);
  fdiv := fun x y => Qred (Qdiv x y);
  feqb := Qeq_bool;
  feqb_sym := Qeq_bool_comm;
  feqb_trans := Qeq_bool_trans
|}.

End Rational.

(** ** The outside world

    The scripts share one shape of state on disk: the status file, the
    failed-videos file, the error log and the per-item transcripts.

    The pipeline is followed on status files as the scripts leave them:
    the file holds the document of a status (kept as the status it
    denotes), or text that [json.load] rejects (empty, cut short, not
    JSON), or it does not exist.  A file with a JSON document of another
    shape, which no save of the scripts writes, is not among these; what
    [load_status] answers on any content, this one included, is
    [StatusFile.load_status] below, and [StatusFile.denotes] relates the
    two views. *)

Inductive file (A : Type) : Type :=
| Absent
| Unreadable (raw : string)
| Holds (a : A).
Arguments Absent {A}.
Arguments Unreadable {A} raw.
Arguments Holds {A} a.

(** [load_status] of either script, on what the status file holds.
    [content] is what [open(STATUS_FILE, 'r')] and the reading give: the
    text of the file, or the exception raised ([FileNotFoundError] when
    there is none); [json_load] is the decoder, which raises on a text
    that is no JSON document and answers any document as it is; the bare
    [except:] catches every exception and answers [default]. *)
Module StatusFile.
Section Raw.
Context {F : Type}.
Variable json_load : string -> result (json F).

Definition load_status (default : json F) (content : result string)
    : result (json F) :=
  try_except (let* text := content in json_load text) any_exn
    (fun _ => Ok default).

(** The content of a file of the pipeline: a missing file, a text the
    decoder rejects, or a text it decodes to the document of a status. *)
Definition denotes {S : Type} (document_of : S -> json F) (f : file S)
    (content : result string) : Prop :=
  match f with
  | Absent => content = Raise FileNotFoundError
  | Unreadable raw => content = Ok raw /\ json_load raw = Raise JSONDecodeError
  | Holds st =>
      exists text, content = Ok text /\ json_load text = Ok (document_of st)
  end.

End Raw.
End StatusFile.

Record World (S : Type) : Type := mkWorld {
  status_file : file S;                      (* processing_status.json *)
  failed_file : option (list string);        (* failed_videos.txt, by line *)
  error_log : option (list string);          (* error_log.txt, by line *)
  output_files : list (string * list string);(* <video_id>.txt, newest first *)
  clock : Q;                                 (* time.time(), in seconds *)
  draws : nat;                               (* calls of random.uniform *)
  requests : list (Q * string);              (* upstream calls: when, for which id *)
  cookies_available : bool;                  (* scraper.cookies_available *)
  saves : list S                             (* every document written to the status file *)
}.
Arguments mkWorld {S}.
Arguments status_file {S} w.
Arguments failed_file {S} w.
Arguments error_log {S} w.
Arguments output_files {S} w.
Arguments clock {S} w.
Arguments draws {S} w.
Arguments requests {S} w.
Arguments cookies_available {S} w.
Arguments saves {S} w.

(** A computation that reads and writes the world and may raise; what it
    wrote before raising stays written. *)
Definition M (S A : Type) : Type := World S -> result A * World S.

Definition ret {S A} (a : A) : M S A := fun w => (Ok a, w).
Definition raise {S A} (e : exn) : M S A := fun w => (Raise e, w).
Definition lift {S A} (c : result A) : M S A := fun w => (c, w).

Definition mbind {S A B} (c : M S A) (k : A -> M S B) : M S B :=
  fun w =>
    match c w with
    | (Ok a, w') => k a w'
    | (Raise e, w') => (Raise e, w')
    end.

Notation "'let!' x := c 'in' k" := (mbind c (fun x => k))
  (at level 10, x name, c at level 100, k at level 200).
Notation "c ;;; k" := (mbind c (fun _ => k))
  (at level 100, k at level 200, right associativity).

(** [try: c  except Exception as e: h e] *)
Definition try_catch {S A} (c : M S A) (h : exn -> M S A) : M S A :=
  fun w =>
    match c w with
    | (Ok a, w') => (Ok a, w')
    | (Raise e, w') => h e w'
    end.

Definition Qlt_bool (a b : Q) : bool := negb (Qle_bool b a).

Section WorldOps.
Context {S : Type}.

Definition set_status_file (f : file S) (w : World S) : World S :=
  mkWorld f (failed_file w) (error_log w) (output_files w) (clock w)
    (draws w) (requests w) (cookies_available w) (saves w).

Definition record_save (st : S) (w : World S) : World S :=
  mkWorld (status_file w) (failed_file w) (error_log w) (output_files w)
    (clock w) (draws w) (requests w) (cookies_available w)
    (saves w ++ [st])%list.

Definition set_failed_file (f : option (list string)) (w : World S) : World S :=
  mkWorld (status_file w) f (error_log w) (output_files w) (clock w)
    (draws w) (requests w) (cookies_available w) (saves w).

Definition set_error_log (f : option (list string)) (w : World S) : World S :=
  mkWorld (status_file w) (failed_file w) f (output_files w) (clock w)
    (draws w) (requests w) (cookies_available w) (saves w).

Definition set_output_files (f : list (string * list string)) (w : World S)
    : World S :=
  mkWorld (status_file w) (failed_file w) (error_log w) f (clock w)
    (draws w) (requests w) (cookies_available w) (saves w).

Definition set_clock (t : Q) (w : World S) : World S :=
  mkWorld (status_file w) (failed_file w) (error_log w) (output_files w) t
    (draws w) (requests w) (cookies_available w) (saves w).

Definition set_draws (n : nat) (w : World S) : World S :=
  mkWorld (status_file w) (failed_file w) (error_log w) (output_files w)
    (clock w) n (requests w) (cookies_available w) (saves w).

Definition set_requests (r : list (Q * string)) (w : World S) : World S :=
  mkWorld (status_file w) (failed_file w) (error_log w) (output_files w)
    (clock w) (draws w) r (cookies_available w) (saves w).

Definition set_cookies_available (b : bool) (w : World S) : World S :=
  mkWorld (status_file w) (failed_file w) (error_log w) (output_files w)
    (clock w) (draws w) (requests w) b (saves w).

(** [open(path, 'a')] then [write(line + "\n")] *)
Definition append_line (f : option (list string)) (line : string)
    : option (list string) :=
  match f with
  | None => Some [line]
  | Some lines => Some (lines ++ [line])%list
  end.

(** [time.time()] *)
Definition time : M S Q := fun w => (Ok (clock w), w).

(** [time.sleep(d)] *)
Definition sleep (d : Q) : M S unit :=
  fun w => (Ok tt, set_clock (Qred (clock w + d)) w).

(** [open(STATUS_FILE, 'r')] followed by [json.load], on a file of the
    pipeline *)
Definition read_status_file : M S S :=
  fun w =>
    match status_file w with
    | Absent => (Raise FileNotFoundError, w)
    | Unreadable _ => (Raise JSONDecodeError, w)
    | Holds st => (Ok st, w)
    end.

(** [save_status] is two writes to the disk: [open(STATUS_FILE, 'w')]
    empties the file, [json.dump] then writes the document. *)
Definition open_truncate (w : World S) : World S :=
  set_status_file (Unreadable EmptyString) w.

Definition json_dump (status : S) (w : World S) : World S :=
  record_save status (set_status_file (Holds status) w).

Definition save_status_steps (status : S) : list (World S -> World S) :=
  [open_truncate; json_dump status].

Definition run_steps (steps : list (World S -> World S)) (w : World S)
    : World S :=
  fold_left (fun w step => step w) steps w.

Definition save_status (status : S) : M S unit :=
  fun w => (Ok tt, run_steps (save_status_steps status) w).

(** The process stops after the first [n] writes of a save. *)
Definition save_status_interrupted (n : nat) (status : S) (w : World S)
    : World S :=
  run_steps (firstn n (save_status_steps status)) w.

(** [log_failed_video] *)
Definition log_failed_video (video_id : string) : M S unit :=
  fun w => (Ok tt, set_failed_file (append_line (failed_file w) video_id) w).

(** [is_video_failed] *)
Definition is_video_failed (video_id : string) : M S bool :=
  fun w =>
    match failed_file w with
    | None => (Ok false, w)
    | Some lines => (Ok (Py.mem video_id (map Py.strip lines)), w)
    end.

End WorldOps.

(** ** Files as text

    A transcript file is kept as the items its writer wrote, each followed
    by a line feed.  [file_text] is the text this leaves on disk, and
    [read_lines] the lines of a text as a reader gets them: a line ends
    at a line feed, at a carriage return, or at the pair of both. *)

Definition line_feed : string := String "010"%char EmptyString.

Fixpoint file_text (items : list string) : string :=
  match items with
  | [] => EmptyString
  | item :: rest => item ++ line_feed ++ file_text rest
  end.

Fixpoint read_lines (text : string) : list string :=
  match text with
  | EmptyString => []
  | String c rest =>
      if Ascii.eqb c "010"%char then EmptyString :: read_lines rest
      else if Ascii.eqb c "013"%char then
        match rest with
        | String c' rest' =>
            if Ascii.eqb c' "010"%char
            then EmptyString :: read_lines rest'
            else EmptyString :: read_lines rest
        | EmptyString => [EmptyString]
        end
      else
        match read_lines rest with
        | [] => [String c EmptyString]
        | line :: more => String c line :: more
        end
  end.

(** A line feed or a carriage return somewhere in [s]. *)
Fixpoint has_line_break (s : string) : bool :=
  match s with
  | EmptyString => false
  | String c s' =>
      Ascii.eqb c "010"%char || Ascii.eqb c "013"%char || has_line_break s'
  end.

(** What the outside answers: the random generator, the clock format of
    the log, the upstream service. *)
Record Env (Payload : Type) : Type := mkEnv {
  uniform : nat -> Q -> Q -> Q;       (* the n-th [random.uniform(a, b)] *)
  strftime : Q -> string;             (* the log's timestamp *)
  format_1f : Q -> string;            (* the format [:.1f] *)
  upstream : nat -> string -> result Payload;  (* the n-th upstream call *)
  latency : nat -> Q                  (* how long the n-th call takes *)
}.
Arguments uniform {Payload} e.
Arguments strftime {Payload} e.
Arguments format_1f {Payload} e.
Arguments upstream {Payload} e.
Arguments latency {Payload} e.
Arguments mkEnv {Payload}.

Section EnvOps.
Context {S Payload : Type} (env : Env Payload).

(** [random.uniform(a, b)] *)
Definition random_uniform (a b : Q) : M S Q :=
  fun w => (Ok (uniform env (draws w) a b), set_draws (Datatypes.S (draws w)) w).

(** [log_error] *)
Definition log_error (message : string) : M S unit :=
  fun w =>
    (Ok tt,
     set_error_log
       (append_line (error_log w)
          ("[" ++ strftime env (clock w) ++ "] " ++ message)) w).

(** One call of the upstream service for [video_id]: it is issued now,
    and answers after its latency. *)
Definition call_upstream (video_id : string) : M S Payload :=
  fun w =>
    let n := length (requests w) in
    (upstream env n video_id,
     set_clock (Qred (clock w + latency env n))
       (set_requests (requests w ++ [(clock w, video_id)])%list w)).

End EnvOps.

(** [str(e)]; the built-in exceptions are shown by their name. *)
Fixpoint exn_str (e : exn) : string :=
  match e with
  | KeyError => "KeyError"
  | ValueError => "ValueError"
  | OverflowError => "OverflowError"
  | IndexError => "IndexError"
  | TypeError => "TypeError"
  | AttributeError => "AttributeError"
  | JSONDecodeError => "JSONDecodeError"
  | FileNotFoundError => "FileNotFoundError"
  | HTTPError _ msg => msg
  | TranscriptsDisabled msg => msg
  | NoTranscriptFound msg => msg
  | VideoUnavailable msg => msg
  | Exception msg => msg
  | Wrapped prefix cause => prefix ++ exn_str cause
  end.

(** [c.isalnum()] for code points below 256 *)
Definition is_alnum (c : ascii) : bool :=
  let n := nat_of_ascii c in
  (((48 <=? n) && (n <=? 57)) || ((65 <=? n) && (n <=? 90))
   || ((97 <=? n) && (n <=? 122))
   || (n =? 170) || (n =? 178) || (n =? 179) || (n =? 181) || (n =? 185)
   || (n =? 186) || ((188 <=? n) && (n <=? 190))
   || ((192 <=? n) && (n <=? 214)) || ((216 <=? n) && (n <=? 246))
   || ((248 <=? n) && (n <=? 255)))%nat.

Fixpoint all_chars (p : ascii -> bool) (s : string) : bool :=
  match s with
  | EmptyString => true
  | String c s' => p c && all_chars p s'
  end.

(** [s[:n]] *)
Fixpoint take_chars (n : nat) (s : string) : string :=
  match n, s with
  | O, _ => EmptyString
  | _, EmptyString => EmptyString
  | Datatypes.S n', String c s' => String c (take_chars n' s')
  end.

Definition id_char (c : ascii) : bool :=
  is_alnum c || Ascii.eqb c "-"%char || Ascii.eqb c "_"%char.

(** [get_video_id] of [youtube_transcriber.py] and [main.py] *)
Definition get_video_id (url : string) : option string :=
  let url := Py.strip url in
  if Py.contains "youtube.com/watch" url && Py.contains "v=" url then
    Some (take_chars 11
            (hd EmptyString (Py.split "&" (nth 1 (Py.split "v=" url) EmptyString))))
  else if Py.contains "youtu.be/" url then
    Some (take_chars 11
            (hd EmptyString
               (Py.split "?" (nth 1 (Py.split "youtu.be/" url) EmptyString))))
  else if (String.length url =? 11)%nat && all_chars id_char url then Some url
  else None.

(** ** [youtube_transcriber.py]: the pipeline *)

Module Transcriber.

Definition BASE_DELAY : Q := 60.
Definition MAX_RETRIES : nat := 1.
Definition BATCH_SIZE : Z := 50.

(** The status dict. *)
Record JobStatus : Type := mkStatus {
  completed : list string;
  pending : list string;
  last_request_time : option Q;
  batch_count : Z;
  processed_count : Z
}.

Definition default_status : JobStatus := mkStatus [] [] None 0 0.

(** The dict of a status as a JSON document, and the dict that
    [load_status] and [initialize] spell out. *)
Definition document_of (st : JobStatus) : json Q :=
  JObj [("completed", JArr (map JStr (completed st)));
        ("pending", JArr (map JStr (pending st)));
        ("last_request_time",
         match last_request_time st with
         | Some t => JFloat t
         | None => JNull
         end);
        ("batch_count", JInt (batch_count st));
        ("processed_count", JInt (processed_count st))].

Definition default_document {F : Type} : json F :=
  JObj [("completed", JArr []); ("pending", JArr []);
        ("last_request_time", JNull); ("batch_count", JInt 0);
        ("processed_count", JInt 0)].

Definition set_completed (c : list string) (st : JobStatus) : JobStatus :=
  mkStatus c (pending st) (last_request_time st) (batch_count st)
    (processed_count st).
Definition set_pending (p : list string) (st : JobStatus) : JobStatus :=
  mkStatus (completed st) p (last_request_time st) (batch_count st)
    (processed_count st).
Definition set_last_request_time (t : option Q) (st : JobStatus) : JobStatus :=
  mkStatus (completed st) (pending st) t (batch_count st) (processed_count st).
Definition set_processed_count (n : Z) (st : JobStatus) : JobStatus :=
  mkStatus (completed st) (pending st) (last_request_time st) (batch_count st) n.

(** What [ydl.extract_info] found for the target language, each caption
    track with what [requests.get(sub_url).text] then returns. *)
Record Info : Type := mkInfo {
  subtitles : option (result string);
  automatic_captions : option (result string)
}.

Section Pipeline.
Context {F : Type} `{PyFloat F}.
Variable find_all_text : string -> list TextTag.
Variable json_loads : string -> option (json F).
(** [format_timestamp]: [str(timedelta(seconds=seconds))] raises
    [ValueError] for a NaN and [OverflowError] for an infinite or too
    large number of seconds. *)
Variable format_timestamp : F -> result string.
Variable env : Env (option Info).

Abbreviation Job := (M JobStatus).

(** [initialize] *)
Definition initialize : Job unit :=
  fun w =>
    let w1 := match status_file w with
              | Absent => run_steps (save_status_steps default_status) w
              | _ => w
              end in
    let w2 := match error_log w1 with
              | None => set_error_log (Some []) w1
              | Some _ => w1
              end in
    let w3 := match failed_file w2 with
              | None => set_failed_file (Some []) w2
              | Some _ => w2
              end in
    (Ok tt, w3).

(** [load_status] *)
Definition load_status : Job JobStatus :=
  try_catch read_status_file (fun _ => ret default_status).

(** [status.get('last_request_time')] as a condition *)
Definition has_last_request (status : JobStatus) : option Q :=
  match last_request_time status with
  | Some t => if Qeq_bool t 0 then None else Some t
  | None => None
  end.

(** [enforce_rate_limit]; the dict it updates is returned. *)
Definition enforce_rate_limit (status : JobStatus) : Job JobStatus :=
  (match has_last_request status with
   | Some last =>
       let! now := time in
       let elapsed := (now - last)%Q in
       let! delay :=
         if (processed_count status mod 10 =? 0)%Z
            && (processed_count status >? 0)%Z
         then let! r := random_uniform env 30 60 in ret (BASE_DELAY * 2 + r)%Q
         else let! r := random_uniform env 10 20 in ret (BASE_DELAY + r)%Q in
       if Qlt_bool elapsed delay
       then sleep (delay - elapsed)%Q
       else ret tt
   | None => ret tt
   end) ;;;
  let! now := time in
  let status := set_last_request_time (Some now) status in
  save_status status ;;;
  ret status.

(** The [try] body of [get_transcript_ytdlp]. *)
Definition get_transcript_ytdlp_body (video_id : string) : Job (list (Entry F)) :=
  let! info := call_upstream env video_id in
  match info with
  | None => raise (Exception "No video info found")
  | Some info =>
      match subtitles info with
      | Some response =>
          let! sub_data := lift response in
          lift (Subtitles.parse_subtitles find_all_text json_loads sub_data)
      | None =>
          match automatic_captions info with
          | Some response =>
              let! sub_data := lift response in
              lift (Subtitles.parse_subtitles find_all_text json_loads sub_data)
          | None =>
              raise (Exception "No subtitles found for the specified language")
          end
      end
  end.

(** [get_transcript_ytdlp] once the cookies are given up. *)
Definition get_transcript_ytdlp_without_cookies (video_id : string)
    : Job (list (Entry F)) :=
  try_catch (get_transcript_ytdlp_body video_id)
    (fun e => raise (Wrapped "yt-dlp error: " e)).

(** [get_transcript_ytdlp]: one more try without cookies when the
    service asks to sign in. *)
Definition get_transcript_ytdlp (video_id : string) : Job (list (Entry F)) :=
  try_catch (get_transcript_ytdlp_body video_id)
    (fun e w =>
       if Py.contains "Sign in to confirm you're not a bot" (exn_str e)
          && cookies_available w
       then get_transcript_ytdlp_without_cookies video_id
              (set_cookies_available false w)
       else (Raise (Wrapped "yt-dlp error: " e), w)).

(** [extract_transcript]; [None] is Python's [None]. *)
Definition extract_transcript (video_id : string)
    : Job (option (list (Entry F))) :=
  let! failed := is_video_failed video_id in
  if (failed : bool) then ret None
  else
    try_catch
      (let! status := load_status in
       enforce_rate_limit status ;;;
       let! transcript := get_transcript_ytdlp video_id in
       match transcript with
       | [] => raise (Exception "No transcript found using any method")
       | _ => ret (Some transcript)
       end)
      (fun e =>
         match e with
         | HTTPError status_code _ =>
             (if (status_code =? 429)%Z
              then log_error env ("[" ++ video_id ++ "] Failed: 429 Too Many Requests")
              else log_error env ("[" ++ video_id ++ "] HTTP Error "
                                  ++ pretty status_code ++ ": " ++ exn_str e)) ;;;
             log_failed_video video_id ;;;
             ret None
         | _ =>
             log_error env ("[" ++ video_id ++ "] Failed: " ++ exn_str e) ;;;
             log_failed_video video_id ;;;
             ret None
         end).

(** The loop of [save_individual_transcript] with its test
    [current_text != previous_text], for timestamps that are all made:
    the pairs of timestamp and text written, in order. *)
Fixpoint written_records (stamp : F -> string)
    (previous_text : option string) (transcript : list (Entry F))
    : list (string * string) :=
  match transcript with
  | [] => []
  | entry :: rest =>
      let current_text := Py.strip (text entry) in
      if match previous_text with
         | Some p => negb (String.eqb current_text p)
         | None => true
         end
      then (stamp (start entry), current_text)
           :: written_records stamp (Some current_text) rest
      else written_records stamp previous_text rest
  end.

(** The same loop with [format_timestamp] as it is: the records written,
    and how the loop ends.  The timestamp is asked for only when the text
    differs from the previous one; the first one that cannot be made ends
    the loop, with what was written before it. *)
Fixpoint write_records (previous_text : option string)
    (transcript : list (Entry F))
    : list (string * string) * result unit :=
  match transcript with
  | [] => ([], Ok tt)
  | entry :: rest =>
      let current_text := Py.strip (text entry) in
      if match previous_text with
         | Some p => negb (String.eqb current_text p)
         | None => true
         end
      then match format_timestamp (start entry) with
           | Ok timestamp =>
               let more := write_records (Some current_text) rest in
               ((timestamp, current_text) :: fst more, snd more)
           | Raise e => ([], Raise e)
           end
      else write_records previous_text rest
  end.

(** [f"[{timestamp}] {current_text}"]; the writer adds the line feed. *)
Definition record_line (r : string * string) : string :=
  "[" ++ fst r ++ "] " ++ snd r.

(** [save_individual_transcript]: [open(output_path, 'w')] makes the
    file, in the folder [initialize] made; the [with] block closes it
    with what was written when the loop raises. *)
Definition save_individual_transcript (transcript : list (Entry F))
    (video_id : string) : Job unit :=
  fun w =>
    let written := write_records None transcript in
    (snd written,
     set_output_files
       ((video_id, map record_line (fst written)) :: output_files w) w).

Definition falsy (transcript : option (list (Entry F))) : bool :=
  match transcript with
  | None | Some [] => true
  | Some (_ :: _) => false
  end.

(** [process_video] *)
Definition process_video (video_url : string) : Job bool :=
  match get_video_id video_url with
  | None => log_error env ("[Invalid URL] " ++ video_url) ;;; ret false
  | Some EmptyString => log_error env ("[Invalid URL] " ++ video_url) ;;; ret false
  | Some video_id =>
      let! status := load_status in
      if Py.mem video_id (completed status) then ret true
      else
        (* Mark as pending if not already *)
        let! status :=
          if negb (Py.mem video_id (pending status))
          then let status := set_pending (pending status ++ [video_id]) status in
               save_status status ;;; ret status
          else ret status in
        (* Extract transcript *)
        let! transcript := extract_transcript video_id in
        if falsy transcript then
          let status :=
            if Py.mem video_id (pending status)
            then set_pending (Py.remove_first video_id (pending status)) status
            else status in
          save_status status ;;;
          ret false
        else
          (* Update status *)
          let status := set_completed (completed status ++ [video_id]) status in
          let status := set_processed_count (processed_count status + 1) status in
          let status :=
            if Py.mem video_id (pending status)
            then set_pending (Py.remove_first video_id (pending status)) status
            else status in
          save_status status ;;;
          save_individual_transcript (default [] transcript) video_id ;;;
          (if (processed_count status mod BATCH_SIZE =? 0)%Z
           then let! d := random_uniform env 30 90 in sleep d
           else ret tt) ;;;
          ret true
  end.

(** The selection of [main]: ids not completed and not failed. *)
Definition is_new (status : JobStatus) (url : string) : Job bool :=
  match get_video_id url with
  | None | Some EmptyString => ret false
  | Some video_id =>
      if Py.mem video_id (completed status) then ret false
      else let! failed := is_video_failed video_id in ret (negb failed)
  end.

Fixpoint select_new (status : JobStatus) (urls : list string)
    : Job (list string) :=
  match urls with
  | [] => ret []
  | url :: rest =>
      let! keep := is_new status url in
      let! more := select_new status rest in
      ret (if (keep : bool) then url :: more else more)
  end.

(** The [except Exception as e] clause of the loop of [main]: the
    exception is logged and the id leaves [pending]. *)
Definition main_except (url : string) (e : exn) : Job unit :=
  log_error env ("Error processing " ++ url ++ ": " ++ exn_str e) ;;;
  match get_video_id url with
  | None | Some EmptyString => ret tt
  | Some video_id =>
      let! status := load_status in
      let status :=
        if Py.mem video_id (pending status)
        then set_pending (Py.remove_first video_id (pending status)) status
        else status in
      save_status status
  end.

(** One turn of that loop: [future.result()] in its [try]. *)
Definition run_one (url : string) : Job unit :=
  try_catch (process_video url ;;; ret tt) (main_except url).

(** The pool of [main], with its single worker: the urls in turn. *)
Fixpoint run_pool (urls : list string) : Job unit :=
  match urls with
  | [] => ret tt
  | url :: rest => run_one url ;;; run_pool rest
  end.

(** [main], from the urls read from the input file. *)
Definition main (video_urls : list string) : Job unit :=
  initialize ;;;
  match video_urls with
  | [] => ret tt
  | _ =>
      let! status := load_status in
      let! new_urls := select_new status video_urls in
      run_pool new_urls
  end.

End Pipeline.
End Transcriber.

(** ** [main.py]: the notebook variant *)

Module Notebook.

Definition BASE_DELAY : Q := 15.
Definition MAX_RETRIES : nat := 1.

(** The status dict of this script has three keys. *)
Record JobStatus : Type := mkStatus {
  completed : list string;
  pending : list string;
  last_request_time : option Q
}.

Definition default_status : JobStatus := mkStatus [] [] None.

(** The dict of a status as a JSON document, and the dict that
    [load_status] and [initialize] spell out. *)
Definition document_of (st : JobStatus) : json Q :=
  JObj [("completed", JArr (map JStr (completed st)));
        ("pending", JArr (map JStr (pending st)));
        ("last_request_time",
         match last_request_time st with
         | Some t => JFloat t
         | None => JNull
         end)].

Definition default_document {F : Type} : json F :=
  JObj [("completed", JArr []); ("pending", JArr []);
        ("last_request_time", JNull)].

Definition set_completed (c : list string) (st : JobStatus) : JobStatus :=
  mkStatus c (pending st) (last_request_time st).
Definition set_pending (p : list string) (st : JobStatus) : JobStatus :=
  mkStatus (completed st) p (last_request_time st).
Definition set_last_request_time (t : option Q) (st : JobStatus) : JobStatus :=
  mkStatus (completed st) (pending st) t.

Section Pipeline.
Context {F : Type}.
(** The upstream call is [YouTubeTranscriptApi.get_transcript]. *)
Variable env : Env (list (Entry F)).

Abbreviation Job := (M JobStatus).

(** [initialize] *)
Definition initialize : Job unit :=
  fun w =>
    let w1 := match status_file w with
              | Absent => run_steps (save_status_steps default_status) w
              | _ => w
              end in
    let w2 := match error_log w1 with
              | None => set_error_log (Some []) w1
              | Some _ => w1
              end in
    let w3 := match failed_file w2 with
              | None => set_failed_file (Some []) w2
              | Some _ => w2
              end in
    (Ok tt, w3).

(** [load_status] *)
Definition load_status : Job JobStatus :=
  try_catch read_status_file (fun _ => ret default_status).

Definition has_last_request (status : JobStatus) : option Q :=
  match last_request_time status with
  | Some t => if Qeq_bool t 0 then None else Some t
  | None => None
  end.

(** [enforce_rate_limit] *)
Definition enforce_rate_limit (status : JobStatus) : Job JobStatus :=
  (match has_last_request status with
   | Some last =>
       let! now := time in
       let elapsed := (now - last)%Q in
       if Qlt_bool elapsed BASE_DELAY
       then let! r := random_uniform env 0 5 in
            sleep (BASE_DELAY - elapsed + r)%Q
       else ret tt
   | None => ret tt
   end) ;;;
  let! now := time in
  let status := set_last_request_time (Some now) status in
  save_status status ;;;
  ret status.

(** One turn of [for attempt in range(MAX_RETRIES)]: what the turn
    returns, or [None] for [continue]. *)
Definition attempt_once (max_retries : nat) (video_id : string) (attempt : nat)
    : Job (option (option (list (Entry F)))) :=
  try_catch
    (let! status := load_status in
     enforce_rate_limit status ;;;
     let! transcript := call_upstream env video_id in
     ret (Some (Some transcript)))
    (fun e =>
       match e with
       | HTTPError status_code _ =>
           if (status_code =? 429)%Z then
             let! r := random_uniform env 5 15 in
             let wait_time := (inject_Z (2 ^ Z.of_nat attempt) + r)%Q in
             log_error env
               ("[" ++ video_id ++ "] Attempt " ++ pretty (attempt + 1)%nat
                ++ " failed: 429 Too Many Requests. Waiting "
                ++ format_1f env wait_time ++ "s") ;;;
             sleep wait_time ;;;
             ret None
           else
             log_error env
               ("[" ++ video_id ++ "] HTTP Error " ++ pretty status_code
                ++ ": " ++ exn_str e) ;;;
             log_failed_video video_id ;;;
             ret (Some None)
       | TranscriptsDisabled _ | NoTranscriptFound _ | VideoUnavailable _ =>
           log_error env ("[" ++ video_id ++ "] " ++ exn_str e) ;;;
           log_failed_video video_id ;;;
           ret (Some None)
       | _ =>
           log_error env
             ("[" ++ video_id ++ "] Attempt " ++ pretty (attempt + 1)%nat
              ++ " failed: " ++ exn_str e) ;;;
           (if (attempt =? max_retries - 1)%nat
            then log_failed_video video_id
            else ret tt) ;;;
           (if (attempt <? max_retries - 1)%nat
            then let! r := random_uniform env 0 5 in
                 sleep (BASE_DELAY * inject_Z (Z.of_nat attempt + 1) + r)%Q
            else ret tt) ;;;
           ret None
       end).

(** The loop over the attempts still to make; falling out of it is the
    final [return None]. *)
Fixpoint attempts (max_retries : nat) (video_id : string) (todo : list nat)
    : Job (option (list (Entry F))) :=
  match todo with
  | [] => ret None
  | attempt :: rest =>
      let! outcome := attempt_once max_retries video_id attempt in
      match outcome with
      | Some returned => ret returned
      | None => attempts max_retries video_id rest
      end
  end.

(** [extract_transcript], for a given attempt budget *)
Definition extract_transcript_with (max_retries : nat) (video_id : string)
    : Job (option (list (Entry F))) :=
  let! failed := is_video_failed video_id in
  if (failed : bool) then ret None
  else attempts max_retries video_id (seq 0 max_retries).

Definition extract_transcript (video_id : string)
    : Job (option (list (Entry F))) :=
  extract_transcript_with MAX_RETRIES video_id.

(** The lines [save_transcript_to_file] writes. *)
Definition written_lines (transcript : list (Entry F)) : list string :=
  map (fun entry => text entry) transcript.

(** [save_transcript_to_file] *)
Definition save_transcript_to_file (transcript : list (Entry F))
    (video_id : string) : Job unit :=
  fun w =>
    (Ok tt,
     set_output_files ((video_id, written_lines transcript) :: output_files w) w).

Definition falsy (transcript : option (list (Entry F))) : bool :=
  match transcript with
  | None | Some [] => true
  | Some (_ :: _) => false
  end.

(** [process_video], for a given attempt budget *)
Definition process_video_with (max_retries : nat) (video_url : string)
    : Job bool :=
  match get_video_id video_url with
  | None => log_error env ("[Invalid URL] " ++ video_url) ;;; ret false
  | Some EmptyString => log_error env ("[Invalid URL] " ++ video_url) ;;; ret false
  | Some video_id =>
      let! status := load_status in
      if Py.mem video_id (completed status) then ret true
      else
        let! status :=
          if negb (Py.mem video_id (pending status))
          then let status := set_pending (pending status ++ [video_id]) status in
               save_status status ;;; ret status
          else ret status in
        let! transcript := extract_transcript_with max_retries video_id in
        if falsy transcript then
          let status :=
            if Py.mem video_id (pending status)
            then set_pending (Py.remove_first video_id (pending status)) status
            else status in
          save_status status ;;;
          ret false
        else
          save_transcript_to_file (default [] transcript) video_id ;;;
          let status := set_completed (completed status ++ [video_id]) status in
          let status :=
            if Py.mem video_id (pending status)
            then set_pending (Py.remove_first video_id (pending status)) status
            else status in
          save_status status ;;;
          ret true
  end.

Definition process_video (video_url : string) : Job bool :=
  process_video_with MAX_RETRIES video_url.

End Pipeline.
End Notebook.

(** ** [process_failed_videos.py]: the iteration planner *)

Module Planner.

(** The files the planner reads, by line; the output folder by the names
    of its files. *)
Record Files : Type := mkFiles {
  yt_file : option (list string);        (* yt.txt *)
  output_folder : option (list string);  (* os.listdir(OUTPUT_FOLDER) *)
  error_log : option (list string);      (* error_log.txt *)
  failed_file : option (list string)     (* failed_videos.txt *)
}.

(** [[a-zA-Z0-9_-]] *)
Definition id_class (c : ascii) : bool :=
  let n := nat_of_ascii c in
  (((48 <=? n) && (n <=? 57)) || ((65 <=? n) && (n <=? 90))
   || ((97 <=? n) && (n <=? 122)) || (n =? 95) || (n =? 45))%nat.

(** [s[n:]] *)
Fixpoint drop_chars (n : nat) (s : string) : string :=
  match n, s with
  | O, _ => s
  | _, EmptyString => EmptyString
  | S n', String _ s' => drop_chars n' s'
  end.

(** The pattern [before ([a-zA-Z0-9_-]{11}) after] matched at the start
    of [s]: the group. *)
Definition match_here (before after s : string) : option string :=
  if Py.starts_with before s then
    let rest := drop_chars (String.length before) s in
    let group := take_chars 11 rest in
    if (String.length group =? 11)%nat && all_chars id_class group
       && Py.starts_with after (drop_chars 11 rest)
    then Some group
    else None
  else None.

(** [re.search]: the leftmost match. *)
Fixpoint search (before after s : string) : option string :=
  match match_here before after s with
  | Some group => Some group
  | None =>
      match s with
      | EmptyString => None
      | String _ s' => search before after s'
      end
  end.

Definition patterns : list string :=
  ["youtube.com/watch?v="; "youtu.be/"; "v="; "embed/"].

Fixpoint first_match (ps : list string) (url : string) : option string :=
  match ps with
  | [] => None
  | p :: ps' =>
      match search p EmptyString url with
      | Some group => Some group
      | None => first_match ps' url
      end
  end.

(** [get_video_id] of this script *)
Definition get_video_id (url : string) : option string :=
  if negb (Py.nonempty url) then None
  else if (String.length url =? 11)%nat && all_chars id_char url then Some url
  else first_match patterns url.

(** The non-blank lines, stripped: [line = line.strip(); if not line: continue] *)
Definition stripped_lines (lines : list string) : list string :=
  filter (fun line => Py.nonempty line = true) (map Py.strip lines).

(** [get_all_original_videos] *)
Definition get_all_original_videos (fs : Files) : gset string :=
  match yt_file fs with
  | None => ∅
  | Some lines =>
      fold_left
        (fun video_ids line =>
           match get_video_id line with
           | Some video_id =>
               if Py.nonempty video_id then video_ids ∪ {[video_id]} else video_ids
           | None => video_ids
           end)
        (stripped_lines lines) ∅
  end.

Definition ends_with (suffix s : string) : bool :=
  Py.starts_with (String.rev suffix) (String.rev s).

(** [get_downloaded_videos] *)
Definition get_downloaded_videos (fs : Files) : gset string :=
  match output_folder fs with
  | None => ∅
  | Some names =>
      fold_left
        (fun downloaded filename =>
           if ends_with ".txt" filename
              && negb (String.eqb filename "error_log.txt")
           then
             let video_id := take_chars (String.length filename - 4) filename in
             if (String.length video_id =? 11)%nat
             then downloaded ∪ {[video_id]}
             else downloaded
           else downloaded)
        names ∅
  end.

(** [get_failed_videos] *)
Definition get_failed_videos (fs : Files) : gset string :=
  match failed_file fs with
  | None => ∅
  | Some lines =>
      list_to_set
        (filter (fun line => (String.length line =? 11)%nat = true)
           (stripped_lines lines))
  end.

Record Categories : Type := mkCategories {
  no_subtitles : gset string;
  rate_limited : gset string;
  unavailable : gset string;
  other : gset string
}.

(** One line of the error log. *)
Definition classify (cats : Categories) (line : string) : Categories :=
  match search "[" "]" line with
  | None => cats
  | Some video_id =>
      if Py.contains "No subtitles found" line
         || Py.contains "No transcript available" line
      then mkCategories (no_subtitles cats ∪ {[video_id]}) (rate_limited cats)
             (unavailable cats) (other cats)
      else if Py.contains "rate-limit" line || Py.contains "429" line
              || Py.contains "too many requests" line
      then mkCategories (no_subtitles cats) (rate_limited cats ∪ {[video_id]})
             (unavailable cats) (other cats)
      else if Py.contains "unavailable" line || Py.contains "not available" line
              || Py.contains "private" line
      then mkCategories (no_subtitles cats) (rate_limited cats)
             (unavailable cats ∪ {[video_id]}) (other cats)
      else mkCategories (no_subtitles cats) (rate_limited cats)
             (unavailable cats) (other cats ∪ {[video_id]})
  end.

(** [analyze_errors] *)
Definition analyze_errors (fs : Files) : Categories :=
  match error_log fs with
  | None => mkCategories ∅ ∅ ∅ ∅
  | Some lines => fold_left classify lines (mkCategories ∅ ∅ ∅ ∅)
  end.

Record Report : Type := mkReport {
  original_video_count : nat;
  downloaded_count : nat;
  missing_count : nat;
  retrying_count : nat;
  skipped_no_subtitles : nat;
  skipped_unavailable : nat;
  skipped_failed : nat;
  new_file : string
}.

(** What a run that returns leaves behind: the lines of the new
    iteration file and the report (its date aside). *)
Record Iteration : Type := mkIteration {
  iteration_lines : list string;
  report : Report
}.

(** The dict from id to source line; a later line of the same id wins. *)
Definition video_id_to_url (lines : list string) : gmap string string :=
  fold_left
    (fun m line =>
       match get_video_id line with
       | Some video_id =>
           if Py.nonempty video_id then <[video_id := line]> m else m
       | None => m
       end)
    (stripped_lines lines) ∅.

(** [create_new_iteration_file]; a set is walked in the order of
    [elements].  The answer is the new iteration file, by lines, when the
    call came to write it, and how the call ends: [open(YT_FILE, 'r')]
    raises when the input file is missing, before anything is written;
    the report is saved inside the output folder after the iteration
    file is written, and [open(report_file, 'w')] raises when that folder
    is missing. *)
Definition create_new_iteration_file (iteration : nat) (fs : Files)
    : option (list string) * result Iteration :=
  let original_videos := get_all_original_videos fs in
  let downloaded_videos := get_downloaded_videos fs in
  let failed_videos := get_failed_videos fs in
  let error_categories := analyze_errors fs in
  let missing_videos := original_videos ∖ downloaded_videos in
  let skip_videos := no_subtitles error_categories ∪ unavailable error_categories in
  let videos_to_retry := missing_videos ∖ skip_videos in
  match yt_file fs with
  | None => (None, Raise FileNotFoundError)
  | Some lines =>
      let urls := video_id_to_url lines in
      let new_filename := "yt_iteration_" ++ pretty iteration ++ ".txt" in
      let written :=
        flat_map
          (fun video_id =>
             match urls !! video_id with
             | Some url => if Py.nonempty url then [url] else []
             | None => []
             end)
          (elements videos_to_retry) in
      (Some written,
       match output_folder fs with
       | None => Raise FileNotFoundError
       | Some _ =>
           Ok (mkIteration written
                 (mkReport (size original_videos) (size downloaded_videos)
                    (size missing_videos) (size videos_to_retry)
                    (size (no_subtitles error_categories))
                    (size (unavailable error_categories))
                    (size failed_videos) new_filename))
       end)
  end.

End Planner.

(** ** The plan of an iteration, in the words of its description

    What the planner is to compute, said of the files themselves: which
    ids were asked for, which have their transcript, which the error log
    puts in a category, and from these the ids that are missing, skipped
    and to retry.  [count P n] says that [n] ids satisfy [P]. *)

Module Plan.
Import Planner.

(** A line of the input file bears the id. *)
Definition asked (fs : Files) (id : string) : Prop :=
  exists lines line,
    yt_file fs = Some lines /\ line ∈ lines
    /\ get_video_id (Py.strip line) = Some id.

(** The output folder has the transcript file of the id. *)
Definition downloaded (fs : Files) (id : string) : Prop :=
  exists names,
    output_folder fs = Some names
    /\ String.length id = 11%nat /\ (id ++ ".txt")%string ∈ names.

(** The failed-videos file has the id on a line. *)
Definition failed (fs : Files) (id : string) : Prop :=
  exists lines line,
    failed_file fs = Some lines /\ line ∈ lines
    /\ Py.strip line = id /\ String.length id = 11%nat.

(** A line of the error log about the id: the first bracketed group of
    eleven id characters. *)
Definition logged (fs : Files) (id line : string) : Prop :=
  exists lines,
    error_log fs = Some lines /\ line ∈ lines
    /\ search "[" "]" line = Some id.

Definition says_no_subtitles (line : string) : bool :=
  Py.contains "No subtitles found" line
  || Py.contains "No transcript available" line.

Definition says_rate_limited (line : string) : bool :=
  Py.contains "rate-limit" line || Py.contains "429" line
  || Py.contains "too many requests" line.

Definition says_unavailable (line : string) : bool :=
  Py.contains "unavailable" line || Py.contains "not available" line
  || Py.contains "private" line.

(** The two categories that are skipped; a line counts for the first
    category whose words it has. *)
Definition classified_no_subtitles (fs : Files) (id : string) : Prop :=
  exists line, logged fs id line /\ says_no_subtitles line = true.

Definition classified_unavailable (fs : Files) (id : string) : Prop :=
  exists line,
    logged fs id line /\ says_no_subtitles line = false
    /\ says_rate_limited line = false /\ says_unavailable line = true.

(** missing = original − downloaded *)
Definition missing (fs : Files) (id : string) : Prop :=
  asked fs id /\ ~ downloaded fs id.

(** skip = no-subtitles ∪ unavailable *)
Definition skip (fs : Files) (id : string) : Prop :=
  classified_no_subtitles fs id \/ classified_unavailable fs id.

(** retryBatch = missing − skip *)
Definition retry (fs : Files) (id : string) : Prop :=
  missing fs id /\ ~ skip fs id.

Definition count (P : string -> Prop) (n : nat) : Prop :=
  exists ids : list string,
    NoDup ids /\ (forall id, id ∈ ids <-> P id) /\ length ids = n.

End Plan.

(** ** The vocabulary of the properties *)

Module Spec.
Section Captions.
Context {F : Type} `{PyFloat F}.

(** Two entries with the same pair (start, text): equal starts, as
    floats compare, and the same text. *)
Definition share_identifier (a b : Entry F) : bool :=
  feqb (start a) (start b) && String.eqb (text a) (text b).

(** The entries whose pair does not occur earlier in the sequence, in
    their order; [earlier] holds the entries already passed. *)
Fixpoint first_occurrences_from (earlier entries : list (Entry F))
    : list (Entry F) :=
  match entries with
  | [] => []
  | e :: rest =>
      if existsb (share_identifier e) earlier
      then first_occurrences_from (e :: earlier) rest
      else e :: first_occurrences_from (e :: earlier) rest
  end.

Definition first_occurrences (entries : list (Entry F)) : list (Entry F) :=
  first_occurrences_from [] entries.

(** An entry as the parser appends it: its text is a trimmed, non-empty
    string. *)
Definition trimmed (e : Entry F) : Prop :=
  Py.nonempty (text e) = true /\ Py.strip (text e) = text e.

(** [seen] stands for the entries passed so far: a pair is in [seen]
    exactly when an earlier entry has it. *)
Definition stands_for (seen : list (F * string)) (earlier : list (Entry F))
    : Prop :=
  forall x : Entry F,
    existsb (Subtitles.same_identifier (Subtitles.identifier x)) seen
    = existsb (share_identifier x) earlier.

(** No entry is empty once trimmed. *)
Definition no_empty_text (entries : list (Entry F)) : Prop :=
  Forall (fun e => Py.strip (text e) <> EmptyString) entries.

(** No two entries share their pair. *)
Definition distinct_identifiers (entries : list (Entry F)) : Prop :=
  ForallOrdPairs (fun a b => share_identifier a b = false) entries.

End Captions.

(** Each text differs from the one before it; [previous] is the one
    before the first. *)
Fixpoint each_differs (previous : option string) (texts : list string)
    : Prop :=
  match texts with
  | [] => True
  | a :: rest => previous <> Some a /\ each_differs (Some a) rest
  end.

(** No two neighbours of a sequence of texts are equal once trimmed. *)
Definition no_repeated_neighbour (texts : list string) : Prop :=
  forall (i : nat) (a b : string),
    texts !! i = Some a -> texts !! (S i) = Some b ->
    Py.strip a <> Py.strip b.

End Spec.

(** ** Reasoning about computations on the world *)

(** [triple P c Q]: from a world in [P], [c] ends, with a result or an
    exception, in a world that [Q] accepts together with that outcome. *)
Definition triple {S A : Type} (P : World S -> Prop) (c : M S A)
    (Q : result A -> World S -> Prop) : Prop :=
  forall w, P w -> Q (fst (c w)) (snd (c w)).

Module Invariants.

(** *** [youtube_transcriber.py] *)
Module T.
Import Transcriber.

Definition disjoint (st : JobStatus) : Prop :=
  forall id : string, id ∈ completed st -> id ∈ pending st -> False.

(** A status the pipeline can go on from: disjoint lists, and no id
    twice in [pending]. *)
Definition sound (st : JobStatus) : Prop :=
  disjoint st /\ NoDup (pending st).

(** The status file, when it holds a document, holds a sound one, and
    every document written so far had disjoint lists. *)
Definition consistent (w : World JobStatus) : Prop :=
  match status_file w with
  | Holds st => sound st
  | _ => True
  end /\ Forall disjoint (saves w).

(** The status file holds a document with the lists [c] and [p], and
    every document written so far had disjoint lists. *)
Definition holds_lists (c p : list string) (w : World JobStatus) : Prop :=
  (exists st, status_file w = Holds st /\ completed st = c /\ pending st = p)
  /\ Forall disjoint (saves w).

(** The worlds the pipeline reaches from a folder without a status file
    by calls of [process_video], whatever the outside answers. *)
Inductive reachable {F : Type} `{PyFloat F} : World JobStatus -> Prop :=
| reach_initialize (w0 : World JobStatus) :
    status_file w0 = Absent -> saves w0 = [] ->
    reachable (snd (initialize w0))
| reach_process_video (find_all_text : string -> list TextTag)
    (json_loads : string -> option (json F))
    (format_timestamp : F -> result string)
    (env : Env (option Info)) (video_url : string) (w : World JobStatus) :
    reachable w ->
    reachable
      (snd (process_video find_all_text json_loads format_timestamp env
              video_url w)).

End T.

(** *** [main.py] *)
Module N.
Import Notebook.

Definition disjoint (st : JobStatus) : Prop :=
  forall id : string, id ∈ completed st -> id ∈ pending st -> False.

Definition sound (st : JobStatus) : Prop :=
  disjoint st /\ NoDup (pending st).

Definition consistent (w : World JobStatus) : Prop :=
  match status_file w with
  | Holds st => sound st
  | _ => True
  end /\ Forall disjoint (saves w).

Definition holds_lists (c p : list string) (w : World JobStatus) : Prop :=
  (exists st, status_file w = Holds st /\ completed st = c /\ pending st = p)
  /\ Forall disjoint (saves w).

(** An exception that falls to the last [except] clause of the retry
    loop. *)
Definition transient (e : exn) : Prop :=
  match e with
  | HTTPError _ _ | TranscriptsDisabled _ | NoTranscriptFound _
  | VideoUnavailable _ => False
  | _ => True
  end.

Inductive reachable {F : Type} : World JobStatus -> Prop :=
| reach_initialize (w0 : World JobStatus) :
    status_file w0 = Absent -> saves w0 = [] ->
    reachable (snd (initialize w0))
| reach_process_video (env : Env (list (Entry F))) (max_retries : nat)
    (video_url : string) (w : World JobStatus) :
    reachable w ->
    reachable (snd (process_video_with env max_retries video_url w)).

End N.

End Invariants.

(** [keeps proj c]: [c] leaves the part [proj] of the world as it was. *)
Definition keeps {S A X : Type} (proj : World S -> X) (c : M S A) : Prop :=
  forall w, proj (snd (c w)) = proj w.

(** The status file and the history of its documents. *)
Definition store {S : Type} (w : World S) : file S * list S :=
  (status_file w, saves w).

(** ** Sample inputs *)

Module Samples.

Definition nl : string := String "010"%char EmptyString.

(** Stand-ins for the two libraries, for payloads that are neither XML
    nor JSON. *)
Definition no_tags (_ : string) : list TextTag := [].
Definition no_json (_ : string) : option (json Q) := None.

(** An XML payload and the elements BeautifulSoup finds in it. *)
Definition xml_payload : string :=
  "<transcript><text start=0 dur=1.5>a</text>"
  ++ "<text start=0 dur=1>b</text>"
  ++ "<text start=0 dur=2>a</text>"
  ++ "<text start=2 dur=1>b</text>"
  ++ "<text start=3 dur=1> </text></transcript>".

Definition xml_tags (sub_data : string) : list TextTag :=
  if String.eqb sub_data xml_payload
  then [mkTextTag (Some "0") (Some "1.5") "a";
        mkTextTag (Some "0") (Some "1") "b";
        mkTextTag (Some "0") (Some "2") "a";
        mkTextTag (Some "2") (Some "1") "b";
        mkTextTag (Some "3") (Some "1") " "]
  else [].

(** A JSON payload, by the value [json.loads] decodes it to: an event
    with two segments, one without segments, one whose start is a string,
    one whose text is blank. *)
Definition json_payload : string := "{events: [4 events]}".

Definition json_value : json Q :=
  JObj [("events",
         JArr [JObj [("tStartMs", JInt 1000); ("dDurationMs", JInt 500);
                     ("segs", JArr [JObj [("utf8", JStr "hi")];
                                    JObj [("utf8", JStr "there")]])];
               JObj [("tStartMs", JInt 2000)];
               JObj [("tStartMs", JStr "x");
                     ("segs", JArr [JObj [("utf8", JStr "lost")]])];
               JObj [("segs", JArr [JObj [("utf8", JStr " ")]])]])].

(** The same with a number among the events. *)
Definition json_payload_number : string := "{events: [5]}".

(** A decoder of status files that knows the empty list. *)
Definition decode_list (text : string) : result (json Q) :=
  if String.eqb text "[]" then Ok (JArr []) else Raise JSONDecodeError.

Definition decode (sub_data : string) : option (json Q) :=
  if String.eqb sub_data json_payload then Some json_value
  else if String.eqb sub_data json_payload_number
  then Some (JObj [("events", JArr [JInt 5])])
  else None.

(** Two well-formed SRT blocks. *)
Definition srt_payload : string :=
  "00:00:01,000 --> 00:00:02,500" ++ nl ++ "hello" ++ nl ++ nl
  ++ "00:00:02,500 --> 00:00:03,000" ++ nl ++ "hello" ++ nl.

(** A timecode line that does not parse, followed by a well-formed
    block. *)
Definition srt_malformed_payload : string :=
  "xx:yy --> zz" ++ nl
  ++ "00:00:01,000 --> 00:00:02,500" ++ nl ++ "hello" ++ nl.

End Samples.

(** ** Sample runs *)

Module Runs.
Import Samples.

Definition video_a : string := "AAAAAAAAAAA".
Definition video_b : string := "BBBBBBBBBBB".
Definition video_c : string := "CCCCCCCCCCC".
Definition video_d : string := "DDDDDDDDDDD".

(** A folder before the first run, at clock [t]. *)
Definition fresh_world {S : Type} (t : Q) : World S :=
  mkWorld Absent None None [] t 0 [] false [].

(** An outside that always answers the same, takes one second to do so,
    and draws the lower end of every range. *)
Definition always {Payload : Type} (answer : result Payload) : Env Payload :=
  mkEnv (fun _ a _ => a) (fun _ => EmptyString) (fun _ => EmptyString)
    (fun _ _ => answer) (fun _ => 1%Q).

(** A stand-in for [format_timestamp] that makes every timestamp, and
    one that makes none. *)
Definition show_seconds (_ : Q) : result string := Ok EmptyString.

(** Captions are found for every id. *)
Definition with_captions : Env (option Transcriber.Info) :=
  always (Ok (Some (Transcriber.mkInfo (Some (Ok srt_payload)) None))).

(** Every call is answered with HTTP 429. *)
Definition rate_limited : Env (list (Entry Q)) :=
  always (Raise (HTTPError 429 "429 Client Error: Too Many Requests")).

(** The folder of the planner's example: four ids asked for, one
    transcript written, one id without subtitles, one rate limited. *)
Definition abcd : Planner.Files :=
  Planner.mkFiles
    (Some ["https://www.youtube.com/watch?v=AAAAAAAAAAA";
           "https://youtu.be/BBBBBBBBBBB";
           "CCCCCCCCCCC";
           "https://www.youtube.com/watch?v=DDDDDDDDDDD&t=10s"])
    (Some ["AAAAAAAAAAA.txt"; "error_log.txt"; "failed_videos.txt";
           "processing_status.json"])
    (Some ["[2024-05-01 10:00:00] [BBBBBBBBBBB] Failed: yt-dlp error: No subtitles found for the specified language";
           "[2024-05-01 10:02:00] [CCCCCCCCCCC] Failed: 429 Too Many Requests"])
    (Some ["BBBBBBBBBBB"; "CCCCCCCCCCC"]).

(** A status file with one completed id, and the status of the next
    save. *)
Definition one_done : Transcriber.JobStatus :=
  Transcriber.mkStatus [video_a] [] None 0 1.
Definition two_done : Transcriber.JobStatus :=
  Transcriber.mkStatus [video_a; video_b] [] None 0 2.
Definition world_one_done : World Transcriber.JobStatus :=
  mkWorld (Holds one_done) (Some []) (Some []) [] 1000 0 [] false [one_done].

End Runs.

(** ** The vocabulary of further properties *)

Module Steps.


(** The three updates [process_video] makes to the status dict it
    loaded, in [youtube_transcriber.py]. *)
Module T.
Import Transcriber.

(** The status the file holds, as [load_status] answers it. *)
Definition loaded (w : World JobStatus) : JobStatus :=
  match status_file w with Holds st => st | _ => default_status end.

(** Mark as pending if not already. *)
Definition claim (video_id : string) (st : JobStatus) : JobStatus :=
  if Py.mem video_id (pending st) then st
  else set_pending (pending st ++ [video_id]) st.

(** Clear from pending. *)
Definition release (video_id : string) (st : JobStatus) : JobStatus :=
  if Py.mem video_id (pending st)
  then set_pending (Py.remove_first video_id (pending st)) st
  else st.

(** Completed, counted, cleared from pending. *)
Definition complete (video_id : string) (st : JobStatus) : JobStatus :=
  release video_id
    (set_processed_count (processed_count st + 1)
       (set_completed (completed st ++ [video_id]) st)).

(** The count of processed items is the length of the completed list,
    which has no id twice, and no batch is counted. *)
Definition counted (st : JobStatus) : Prop :=
  NoDup (completed st)
  /\ processed_count st = Z.of_nat (length (completed st))
  /\ batch_count st = 0%Z.

End T.

(** The same for [main.py]. *)
Module N.
Import Notebook.

Definition loaded (w : World JobStatus) : JobStatus :=
  match status_file w with Holds st => st | _ => default_status end.

Definition claim (video_id : string) (st : JobStatus) : JobStatus :=
  if Py.mem video_id (pending st) then st
  else set_pending (pending st ++ [video_id]) st.

Definition release (video_id : string) (st : JobStatus) : JobStatus :=
  if Py.mem video_id (pending st)
  then set_pending (Py.remove_first video_id (pending st)) st
  else st.

Definition complete (video_id : string) (st : JobStatus) : JobStatus :=
  release video_id (set_completed (completed st ++ [video_id]) st).

(** An exception after which the retry loop returns at once: an HTTP
    error other than 429, or one of the three that say there is no
    transcript to get. *)
Definition permanent (e : exn) : Prop :=
  match e with
  | HTTPError status_code _ => status_code <> 429%Z
  | TranscriptsDisabled _ | NoTranscriptFound _ | VideoUnavailable _ => True
  | _ => False
  end.

End N.

End Steps.

(** * Properties *)

(** ** Strings *)

Module PyFacts.
Import Py.

Lemma rstrip_idempotent (s : string) : rstrip (rstrip s) = rstrip s.
Proof.
  induction s as [|c s IH]; simpl; [reflexivity|].
  destruct (is_space c && negb (nonempty (rstrip s))) eqn:E; simpl.
  - reflexivity.
  - rewrite IH, E. reflexivity.
Qed.

Lemma lstrip_head (s : string) :
  lstrip s = EmptyString \/
  exists c r, lstrip s = String c r /\ is_space c = false.
Proof.
  induction s as [|c s IH]; simpl; [now left|].
  destruct (is_space c) eqn:E; [exact IH|].
  right. exists c, s. split; [reflexivity | exact E].
Qed.

Lemma lstrip_fixed (c : ascii) (r : string) :
  is_space c = false -> lstrip (String c r) = String c r.
Proof. intros E. simpl. rewrite E. reflexivity. Qed.

Lemma strip_idempotent (s : string) : strip (strip s) = strip s.
Proof.
  unfold strip.
  destruct (lstrip_head s) as [E | (c & r & E & Hc)]; rewrite E.
  - reflexivity.
  - assert (Hr : rstrip (String c r) = String c (rstrip r))
      by (simpl; rewrite Hc; reflexivity).
    rewrite Hr, (lstrip_fixed c (rstrip r) Hc), <- Hr.
    apply rstrip_idempotent.
Qed.

Lemma split_go_nonempty (sep : string) (k : nat) (s : string) :
  split_go sep k s <> [].
Proof.
  revert k. induction s as [|c s IH]; intros k; simpl; [discriminate|].
  destruct k as [|k]; [|apply IH].
  destruct (starts_with sep (String c s)); [discriminate|].
  destruct (split_go sep 0 s); discriminate.
Qed.

(** A text that contains the separator splits into at least two parts. *)
Lemma split_contains (sep s : string) :
  sep <> EmptyString ->
  contains sep s = true -> (2 <= length (split sep s))%nat.
Proof.
  intros Hsep. unfold split. induction s as [|c s IH]; intros Hc.
  - destruct sep; [congruence | discriminate].
  - cbn [contains] in Hc. cbn [split_go].
    destruct (starts_with sep (String c s)) eqn:E.
    + pose proof (split_go_nonempty sep (String.length sep - 1) s) as Hne.
      destruct (split_go sep (String.length sep - 1) s); [congruence|].
      simpl. lia.
    + simpl in Hc. specialize (IH Hc).
      destruct (split_go sep 0 s) as [|w ws]; simpl in *; lia.
Qed.

Example split_arrow : split "-->" "a --> b" = ["a "; " b"].
Proof. reflexivity. Qed.

Example split_comma : split "," "1,2,,3" = ["1"; "2"; ""; "3"].
Proof. reflexivity. Qed.

Example split_adjacent : split "-->" "-->-->" = [""; ""; ""].
Proof. reflexivity. Qed.

Example strip_both_ends : strip "  a b  " = "a b".
Proof. reflexivity. Qed.

End PyFacts.

(** ** The subtitle parser *)

Module SubtitleFacts.
Import Py Subtitles Spec.

Section Facts.
Context {F : Type} `{PyFloat F}.
Variable find_all_text : string -> list TextTag.
Variable json_loads : string -> option (json F).

Lemma for_each_invariant {A St : Type} (P : St -> Prop)
    (body : St -> A -> result St) (xs : list A) :
  (forall s x s', P s -> body s x = Ok s' -> P s') ->
  forall s s', P s -> for_each body xs s = Ok s' -> P s'.
Proof.
  intros Hbody. induction xs as [|x xs IH]; intros s s' Hs Hrun; simpl in Hrun.
  - injection Hrun as <-. exact Hs.
  - destruct (body s x) as [s1|e] eqn:E; simpl in Hrun; [|discriminate].
    eapply IH; [|exact Hrun]. eapply Hbody; eauto.
Qed.

Lemma append_if_content_trimmed (subtitles : list (Entry F)) (raw : string)
    (st d : F) :
  Forall trimmed subtitles ->
  Forall trimmed (append_if_content subtitles (strip raw) st d).
Proof.
  intros Hs. unfold append_if_content.
  destruct (nonempty (strip raw)) eqn:E; [|exact Hs].
  apply Forall_app. split; [exact Hs|].
  constructor; [|constructor]. split; simpl.
  - exact E.
  - apply PyFacts.strip_idempotent.
Qed.

Lemma xml_branch_trimmed (sub_data : string) (subs : list (Entry F)) :
  xml_branch find_all_text sub_data = Ok subs -> Forall trimmed subs.
Proof.
  unfold xml_branch. apply for_each_invariant; [|constructor].
  intros s tag s' Hs Hb. unfold try_except in Hb.
  destruct (xml_body s tag) as [s1|e] eqn:E.
  - injection Hb as <-. unfold xml_body in E.
    destruct (attr_start tag); simpl in E; [|discriminate].
    destruct (float s0); simpl in E; [|discriminate].
    destruct (match attr_dur tag with Some v => float v | None => Ok (float_of_int 0) end);
      simpl in E; [|discriminate].
    injection E as <-. now apply append_if_content_trimmed.
  - destruct (key_or_value_error e); [|discriminate].
    injection Hb as <-. exact Hs.
Qed.

Lemma json_body_trimmed (s : list (Entry F)) (event : json F)
    (s' : list (Entry F)) :
  Forall trimmed s -> json_body s event = Ok s' -> Forall trimmed s'.
Proof.
  intros Hs E. unfold json_body in E.
  repeat match type of E with
         | bind ?c _ = Ok _ => destruct c; simpl in E; [|discriminate]
         end.
  injection E as <-. now apply append_if_content_trimmed.
Qed.

Lemma json_branch_trimmed (sub_data : string) (subs : list (Entry F)) :
  json_branch json_loads sub_data = Ok subs -> Forall trimmed subs.
Proof.
  unfold json_branch, try_except. intros Hrun.
  destruct (json_loads sub_data) as [data|]; simpl in Hrun.
  2:{ injection Hrun as <-. constructor. }
  destruct (PyObj.getitem data "events") as [events|e] eqn:Eg; simpl in Hrun.
  2:{ destruct (json_decode_error e); [|discriminate].
      injection Hrun as <-. constructor. }
  destruct (PyObj.iterate events) as [items|e] eqn:Ei; simpl in Hrun.
  2:{ destruct (json_decode_error e); [|discriminate].
      injection Hrun as <-. constructor. }
  destruct (for_each json_event items []) as [out|e] eqn:Ef.
  2:{ destruct (json_decode_error e); [|discriminate].
      injection Hrun as <-. constructor. }
  injection Hrun as <-.
  revert Ef. apply for_each_invariant; [|constructor].
  intros s event s' Hs Hb. unfold json_event in Hb.
  destruct (PyObj.contains "segs" event) as [has|]; simpl in Hb; [|discriminate].
  destruct (if has then _ else _) as [guard|]; simpl in Hb; [|discriminate].
  destruct guard.
  - unfold try_except in Hb.
    destruct (json_body s event) as [s1|e] eqn:E.
    + injection Hb as <-. eapply json_body_trimmed; eauto.
    + destruct (key_or_type_error e); [|discriminate].
      injection Hb as <-. exact Hs.
  - injection Hb as <-. exact Hs.
Qed.

(** The [try] body for a timecode line cannot raise: the line contains
    the arrow, so both sides of the split exist, and the conversion of a
    side to seconds swallows every failure. *)
Lemma srt_block_ok (line : string) (rest : list string)
    (subtitles : list (Entry F)) :
  contains "-->" line = true ->
  exists t0 t1 more,
    split "-->" line = t0 :: t1 :: more /\
    srt_block line rest subtitles =
      Ok (match rest with
          | next :: _ =>
              append_if_content subtitles (strip next)
                (srt_time_to_seconds (strip t0))
                (fsub (srt_time_to_seconds (strip t1))
                      (srt_time_to_seconds (strip t0)))
          | [] => subtitles
          end).
Proof.
  intros Hc. apply PyFacts.split_contains in Hc; [|discriminate].
  unfold srt_block.
  destruct (split "-->" line) as [|t0 [|t1 more]]; simpl in Hc; try lia.
  exists t0, t1, more. split; [reflexivity|].
  simpl. destruct rest; reflexivity.
Qed.

Lemma srt_loop_trimmed (lines : list string) :
  Forall (fun l => strip l = l) lines ->
  forall subtitles subs,
    Forall trimmed subtitles ->
    srt_loop lines subtitles = Ok subs -> Forall trimmed subs.
Proof.
  induction lines as [lines IH] using (induction_ltof1 _ (@length string)).
  unfold ltof in IH. intros Hl subtitles subs Hs Hrun.
  destruct lines as [|line rest]; simpl in Hrun.
  - injection Hrun as <-. exact Hs.
  - inversion Hl as [|? ? _ Hrest]; subst.
    destruct (contains "-->" line) eqn:Ec.
    + destruct (srt_block_ok line rest subtitles Ec) as (t0 & t1 & more & _ & Hb).
      rewrite Hb in Hrun.
      destruct rest as [|next rest'].
      * injection Hrun as <-. exact Hs.
      * inversion Hrest; subst.
        eapply (IH rest'); [simpl; lia | assumption | | exact Hrun].
        now apply append_if_content_trimmed.
    + eapply (IH rest); [simpl; lia | assumption | exact Hs | exact Hrun].
Qed.

Lemma srt_lines_stripped (sub_data : string) :
  Forall (fun l => strip l = l) (srt_lines sub_data).
Proof.
  unfold srt_lines.
  induction (filter _ _) as [|x xs IH]; simpl; constructor.
  - apply PyFacts.strip_idempotent.
  - exact IH.
Qed.

Lemma parsed_entries_trimmed (sub_data : string) (subs : list (Entry F)) :
  parsed_entries find_all_text json_loads sub_data = Ok subs ->
  Forall trimmed subs.
Proof.
  unfold parsed_entries.
  destruct (contains "<text start=" sub_data); [apply xml_branch_trimmed|].
  destruct (contains "events" sub_data); [apply json_branch_trimmed|].
  destruct (contains "-->" sub_data).
  - unfold srt_branch. intros Hrun.
    eapply srt_loop_trimmed; [apply srt_lines_stripped | constructor | exact Hrun].
  - intros Hrun. injection Hrun as <-. constructor.
Qed.

End Facts.
End SubtitleFacts.

Module DedupFacts.
Import Py Subtitles Spec.

Section Facts.
Context {F : Type} `{PyFloat F}.

Lemma same_identifier_sym (a b : F * string) :
  same_identifier a b = same_identifier b a.
Proof.
  unfold same_identifier. rewrite feqb_sym, String.eqb_sym. reflexivity.
Qed.

Lemma same_identifier_trans (a b c : F * string) :
  same_identifier a b = true -> same_identifier b c = true ->
  same_identifier a c = true.
Proof.
  unfold same_identifier. intros Hab Hbc.
  apply andb_true_iff in Hab as [Hf1 Hs1].
  apply andb_true_iff in Hbc as [Hf2 Hs2].
  apply andb_true_iff. split.
  - eapply feqb_trans; eauto.
  - apply String.eqb_eq in Hs1, Hs2. apply String.eqb_eq. congruence.
Qed.

(** The key of the loop tells the pairs apart: two keys are the same
    exactly when the entries have equal starts and the same text. *)
Lemma share_identifier_key (a b : Entry F) :
  share_identifier a b = same_identifier (identifier a) (identifier b).
Proof. reflexivity. Qed.

Lemma share_identifier_sym (a b : Entry F) :
  share_identifier a b = share_identifier b a.
Proof. rewrite !share_identifier_key. apply same_identifier_sym. Qed.

Lemma share_identifier_trans (a b c : Entry F) :
  share_identifier a b = true -> share_identifier b c = true ->
  share_identifier a c = true.
Proof. rewrite !share_identifier_key. apply same_identifier_trans. Qed.

Lemma share_identifier_spec (a b : Entry F) :
  share_identifier a b = true <->
  feqb (start a) (start b) = true /\ text a = text b.
Proof.
  unfold share_identifier. rewrite andb_true_iff, String.eqb_eq. reflexivity.
Qed.

(** The loop keeps a part of its input, in order. *)
Lemma unique_loop_sublist (subtitles : list (Entry F)) :
  forall seen, unique_loop seen subtitles `sublist_of` subtitles.
Proof.
  induction subtitles as [|sub rest IH]; intros seen; simpl.
  - constructor.
  - destruct (existsb _ seen).
    + apply sublist_cons, IH.
    + apply sublist_skip, IH.
Qed.

(** What the loop keeps was not in [seen]. *)
Lemma unique_loop_fresh (subtitles : list (Entry F)) :
  forall seen,
    Forall (fun e => existsb (same_identifier (identifier e)) seen = false)
      (unique_loop seen subtitles).
Proof.
  induction subtitles as [|sub rest IH]; intros seen; simpl; [constructor|].
  destruct (existsb _ seen) eqn:E; [apply IH|].
  constructor; [exact E|].
  eapply Forall_impl; [apply (IH (identifier sub :: seen))|].
  intros e He. simpl in He. apply orb_false_iff in He. tauto.
Qed.

Lemma unique_loop_distinct (subtitles : list (Entry F)) :
  forall seen, distinct_identifiers (unique_loop seen subtitles).
Proof.
  unfold distinct_identifiers.
  induction subtitles as [|sub rest IH]; intros seen; simpl; [constructor|].
  destruct (existsb _ seen); [apply IH|].
  constructor; [|apply IH].
  eapply Forall_impl; [apply (unique_loop_fresh rest (identifier sub :: seen))|].
  intros e He. simpl in He. apply orb_false_iff in He as [He _].
  rewrite share_identifier_key, same_identifier_sym. exact He.
Qed.

Lemma unique_loop_first_occurrences (subtitles : list (Entry F)) :
  forall seen earlier,
    stands_for seen earlier ->
    unique_loop seen subtitles = first_occurrences_from earlier subtitles.
Proof.
  induction subtitles as [|sub rest IH]; intros seen earlier Hs; simpl;
    [reflexivity|].
  rewrite <- (Hs sub).
  destruct (existsb (same_identifier (identifier sub)) seen) eqn:E.
  - apply IH. intros x. simpl. rewrite <- (Hs x).
    rewrite share_identifier_key.
    destruct (same_identifier (identifier x) (identifier sub)) eqn:Ex;
      [|reflexivity].
    simpl. apply existsb_exists in E as (s & Hin & Hsame).
    apply existsb_exists. exists s. split; [exact Hin|].
    eapply same_identifier_trans; [exact Ex | exact Hsame].
  - f_equal. apply IH. intros x. simpl. rewrite <- (Hs x).
    rewrite share_identifier_key. reflexivity.
Qed.

(** Nothing but a repetition is left out: an entry that is not among the
    first occurrences shares its pair with one that is, or with an
    earlier entry. *)
Lemma first_occurrences_cover (entries : list (Entry F)) :
  forall earlier e,
    e ∈ entries ->
    e ∈ first_occurrences_from earlier entries
    \/ (exists e', e' ∈ first_occurrences_from earlier entries
                   /\ share_identifier e e' = true)
    \/ existsb (share_identifier e) earlier = true.
Proof.
  induction entries as [|x rest IH]; intros earlier e He.
  - now apply not_elem_of_nil in He.
  - simpl. apply elem_of_cons in He as [->|He].
    + destruct (existsb (share_identifier x) earlier) eqn:E.
      * right. right. reflexivity.
      * left. apply list_elem_of_here.
    + assert (Hkeep :
        forall y, y ∈ first_occurrences_from (x :: earlier) rest ->
                  y ∈ (if existsb (share_identifier x) earlier
                       then first_occurrences_from (x :: earlier) rest
                       else x :: first_occurrences_from (x :: earlier) rest)).
      { intros y Hy. destruct (existsb (share_identifier x) earlier);
          [exact Hy | now apply list_elem_of_further]. }
      destruct (IH (x :: earlier) e He) as [Hin|[(e' & Hin & Hs)|Hex]].
      * left. now apply Hkeep.
      * right. left. exists e'. split; [now apply Hkeep | exact Hs].
      * simpl in Hex. apply orb_true_iff in Hex as [Hx|Hex];
          [|right; right; exact Hex].
        destruct (existsb (share_identifier x) earlier) eqn:E.
        -- right. right. apply existsb_exists in E as (y & Hy & Hxy).
           apply existsb_exists. exists y. split; [exact Hy|].
           eapply share_identifier_trans; eassumption.
        -- right. left. exists x. split; [apply list_elem_of_here | exact Hx].
Qed.

End Facts.
End DedupFacts.

Module CaptionTheorems.
Import Py Subtitles Spec.

Section Parser.
Context {F : Type} `{PyFloat F}.
Variable find_all_text : string -> list TextTag.
Variable json_loads : string -> option (json F).

(** C6. Whenever [parse_subtitles] returns, what it returns is the
    sequence of parsed entries restricted to the first occurrence of each
    pair (start, text), in the order of parsing: no entry has an empty
    trimmed text, no two entries have both equal starts and the same
    text, and a parsed entry that is left out has the start and the text
    of one that is returned. *)
Theorem parse_subtitles_output (sub_data : string) (out : list (Entry F)) :
  parse_subtitles find_all_text json_loads sub_data = Ok out ->
  exists parsed,
    parsed_entries find_all_text json_loads sub_data = Ok parsed /\
    out = first_occurrences parsed /\
    out `sublist_of` parsed /\
    no_empty_text out /\
    distinct_identifiers out /\
    forall e, e ∈ parsed ->
      e ∈ out \/ exists e', e' ∈ out /\ feqb (start e) (start e') = true
                                    /\ text e = text e'.
Proof.
  unfold parse_subtitles, try_except. intros Hrun.
  destruct (parsed_entries find_all_text json_loads sub_data)
    as [parsed|e] eqn:Ep; simpl in Hrun; [|discriminate].
  assert (Hout : out = unique_loop [] parsed).
  { destruct parsed; simpl in Hrun; [discriminate|].
    injection Hrun as <-. reflexivity. }
  exists parsed. split; [reflexivity|]. subst out.
  assert (Hfo : unique_loop [] parsed = first_occurrences parsed).
  { apply DedupFacts.unique_loop_first_occurrences. intros x. reflexivity. }
  split; [exact Hfo|]. split; [|split; [|split]].
  - apply DedupFacts.unique_loop_sublist.
  - unfold no_empty_text.
    assert (Ht : Forall trimmed (unique_loop [] parsed)).
    { pose proof (SubtitleFacts.parsed_entries_trimmed _ _ _ _ Ep) as Hp.
      rewrite Forall_forall in Hp. apply Forall_forall. intros e He.
      apply Hp. eapply elem_of_sublist; [exact He|].
      apply DedupFacts.unique_loop_sublist. }
    eapply Forall_impl; [exact Ht|].
    intros e [Hne Hst] Hempty. rewrite Hst in Hempty.
    rewrite Hempty in Hne. discriminate.
  - apply DedupFacts.unique_loop_distinct.
  - intros e He. rewrite Hfo.
    destruct (DedupFacts.first_occurrences_cover parsed [] e He)
      as [Hin|[(e' & Hin & Hs)|Hex]].
    + now left.
    + right. exists e'. split; [exact Hin|].
      now apply DedupFacts.share_identifier_spec.
    + discriminate.
Qed.

End Parser.

(** A timecode line followed by any line takes both: the loop goes on
    two lines further, whatever stands on either side of the arrow. *)
Lemma srt_timecode_line_takes_two {F : Type} `{PyFloat F}
    (line next : string) (rest : list string) (subtitles : list (Entry F)) :
  contains "-->" line = true ->
  exists start duration,
    srt_loop (line :: next :: rest) subtitles
    = srt_loop rest (append_if_content subtitles (strip next) start duration).
Proof.
  intros Hc.
  destruct (SubtitleFacts.srt_block_ok line (next :: rest) subtitles Hc)
    as (t0 & t1 & more & _ & Hb).
  eexists _, _. cbn [srt_loop]. rewrite Hc, Hb. reflexivity.
Qed.

End CaptionTheorems.

Module CaptionExamples.
Import Py Subtitles Spec Samples Rational.

(** C6 at the XML sample: five elements at the starts 0, 0, 0, 2 and 3;
    the second differs from the first in its text only and stays, the
    third repeats the first and goes, the last one is blank. *)
Lemma parse_subtitles_output_witness :
  let out := [mkEntry "a" 0%Q (3 # 2)%Q; mkEntry "b" 0%Q 1%Q;
              mkEntry "b" 2%Q 1%Q] in
  parse_subtitles xml_tags no_json xml_payload = Ok out
  /\ exists parsed,
       parsed_entries xml_tags no_json xml_payload = Ok parsed /\
       out = first_occurrences parsed /\
       out `sublist_of` parsed /\
       no_empty_text out /\
       distinct_identifiers out /\
       forall e, e ∈ parsed ->
         e ∈ out \/ exists e', e' ∈ out /\ feqb (start e) (start e') = true
                                       /\ text e = text e'.
Proof.
  cbv zeta.
  assert (Hrun : parse_subtitles xml_tags no_json xml_payload
                 = Ok [mkEntry "a" 0%Q (3 # 2)%Q; mkEntry "b" 0%Q 1%Q;
                       mkEntry "b" 2%Q 1%Q])
    by (vm_compute; reflexivity).
  split; [exact Hrun|].
  exact (CaptionTheorems.parse_subtitles_output xml_tags no_json xml_payload
           _ Hrun).
Defined.

(** The two SRT blocks of the sample differ in their start: both stay. *)
Example parse_srt_payload :
  parse_subtitles no_tags no_json srt_payload
  = Ok [mkEntry "hello" 1%Q (3 # 2)%Q; mkEntry "hello" (5 # 2)%Q (1 # 2)%Q].
Proof. vm_compute. reflexivity. Qed.

(** JSON events: the segments of an event are joined; an event without
    segments, with a start that is not a number, or with a blank text
    contributes nothing. *)
Example parse_json_payload :
  parse_subtitles no_tags decode json_payload
  = Ok [mkEntry "hi there" 1%Q (1 # 2)%Q].
Proof. vm_compute. reflexivity. Qed.

(** An event that is a number stops the whole parse. *)
Example parse_json_number :
  parse_subtitles no_tags decode json_payload_number
  = Raise (Wrapped "Subtitle parsing error: " TypeError).
Proof. vm_compute. reflexivity. Qed.

(** A payload without a known marker, or one that does not decode, has
    no subtitles. *)
Example parse_unknown_payload :
  parse_subtitles no_tags no_json "hello"
  = Raise (Wrapped "Subtitle parsing error: "
             (Exception "No valid subtitles found in the data"))
  /\ parse_subtitles no_tags no_json "events?"
     = Raise (Wrapped "Subtitle parsing error: "
                (Exception "No valid subtitles found in the data")).
Proof. split; vm_compute; reflexivity. Qed.

Example srt_times :
  srt_time_to_seconds "01:02:03.500" = (7447 # 2)%Q
  /\ srt_time_to_seconds "02:03" = 123%Q
  /\ srt_time_to_seconds "7" = 7%Q
  /\ srt_time_to_seconds "00:00:01,000" = 1%Q
  /\ srt_time_to_seconds "soon" = 0%Q
  /\ srt_time_to_seconds "" = 0%Q.
Proof. repeat split; vm_compute; reflexivity. Qed.

(** C8. A timecode line that does not parse is not skipped: its times
    become 0, the next line is taken as its text, and the loop goes on
    two lines further.  Here the next line is the timecode of a
    well-formed block, which is lost: the only entry returned has that
    timecode line as its text, and "hello" is in no entry. *)
Theorem srt_malformed_timecode_takes_next_line :
  parse_subtitles no_tags no_json srt_malformed_payload
  = Ok [mkEntry "00:00:01,000 --> 00:00:02,500" 0%Q 0%Q].
Proof. vm_compute. reflexivity. Qed.

End CaptionExamples.

(** ** The writers *)

Module WriterFacts.
Import Py Spec.

Lemma each_differs_neighbours (texts : list string) :
  forall previous,
    each_differs previous texts ->
    forall (i : nat) (a b : string),
      texts !! i = Some a -> texts !! (S i) = Some b -> a <> b.
Proof.
  induction texts as [|t rest IH]; intros previous Hd i a b Ha Hb.
  - discriminate.
  - destruct Hd as [_ Hd]. destruct i as [|i]; simpl in Ha, Hb.
    + injection Ha as ->. destruct rest as [|t' rest']; [discriminate|].
      simpl in Hb. injection Hb as ->. destruct Hd as [Hd _]. congruence.
    + eapply IH; eauto.
Qed.

Section Timestamped.
Context {F : Type}.
Variable format_timestamp : F -> string.

Lemma written_records_differ (transcript : list (Entry F)) :
  forall previous_text,
    each_differs previous_text
      (map snd (Transcriber.written_records format_timestamp previous_text
                  transcript)).
Proof.
  induction transcript as [|entry rest IH]; intros previous_text; simpl;
    [exact I|].
  destruct previous_text as [p|].
  - destruct (String.eqb (strip (text entry)) p) eqn:E; simpl.
    + apply IH.
    + split; [|apply IH]. apply String.eqb_neq in E. congruence.
  - simpl. split; [discriminate | apply IH].
Qed.

Lemma written_records_trimmed (transcript : list (Entry F)) :
  forall previous_text,
    Forall (fun t => strip t = t)
      (map snd (Transcriber.written_records format_timestamp previous_text
                  transcript)).
Proof.
  induction transcript as [|entry rest IH]; intros previous_text; simpl;
    [constructor|].
  destruct (match previous_text with
            | Some p => negb (String.eqb (strip (text entry)) p)
            | None => true
            end); simpl.
  - constructor; [apply PyFacts.strip_idempotent | apply IH].
  - apply IH.
Qed.

End Timestamped.

Section Raising.
Context {F : Type}.
Variable format_timestamp : F -> result string.

Abbreviation write_records := (Transcriber.write_records format_timestamp).

Lemma write_records_differ (transcript : list (Entry F)) :
  forall previous_text,
    each_differs previous_text
      (map snd (fst (write_records previous_text transcript))).
Proof.
  induction transcript as [|entry rest IH]; intros previous_text; simpl;
    [exact I|].
  assert (Hstep :
    previous_text <> Some (strip (text entry)) ->
    each_differs previous_text
      (map snd
         (fst match format_timestamp (start entry) with
              | Ok timestamp =>
                  ((timestamp, strip (text entry))
                   :: fst (write_records (Some (strip (text entry))) rest),
                   snd (write_records (Some (strip (text entry))) rest))
              | Raise e => ([], Raise e)
              end))).
  { intros Hp. destruct (format_timestamp (start entry)); simpl;
      [split; [exact Hp | apply IH] | exact I]. }
  destruct previous_text as [p|].
  - destruct (String.eqb (strip (text entry)) p) eqn:E; simpl.
    + apply IH.
    + apply Hstep. apply String.eqb_neq in E. congruence.
  - apply Hstep. discriminate.
Qed.

(** Every record written is the timestamp and the trimmed text of an
    entry. *)
Lemma write_records_from (transcript : list (Entry F)) :
  forall previous_text,
    Forall (fun r => exists e, e ∈ transcript
                      /\ format_timestamp (start e) = Ok (fst r)
                      /\ snd r = strip (text e))
      (fst (write_records previous_text transcript)).
Proof.
  induction transcript as [|entry rest IH]; intros previous_text; simpl;
    [constructor|].
  assert (Hrest : forall p,
    Forall (fun r => exists e, e ∈ entry :: rest
                      /\ format_timestamp (start e) = Ok (fst r)
                      /\ snd r = strip (text e))
      (fst (write_records p rest))).
  { intros p. eapply Forall_impl; [apply IH|].
    intros r (e & He & Hr). exists e.
    split; [now apply list_elem_of_further | exact Hr]. }
  destruct (match previous_text with
            | Some p => negb (String.eqb (strip (text entry)) p)
            | None => true
            end); [|apply Hrest].
  destruct (format_timestamp (start entry)) as [timestamp|e] eqn:Et; simpl;
    [|constructor].
  constructor; [|apply Hrest].
  exists entry. split; [apply list_elem_of_here|]. split; [exact Et | reflexivity].
Qed.

(** A loop that comes to its end has passed every entry: the trimmed
    text of each is among the records, or is the previous text. *)
Lemma write_records_cover (transcript : list (Entry F)) :
  forall previous_text e,
    snd (write_records previous_text transcript) = Ok tt ->
    e ∈ transcript ->
    strip (text e) ∈ map snd (fst (write_records previous_text transcript))
    \/ previous_text = Some (strip (text e)).
Proof.
  induction transcript as [|entry rest IH]; intros previous_text e Hok He.
  - now apply not_elem_of_nil in He.
  - simpl in Hok |- *.
    destruct (match previous_text with
              | Some p => negb (String.eqb (strip (text entry)) p)
              | None => true
              end) eqn:Hw.
    + destruct (format_timestamp (start entry)) as [timestamp|x];
        [|discriminate].
      simpl in Hok |- *. left.
      apply elem_of_cons in He as [->|He]; [apply list_elem_of_here|].
      destruct (IH (Some (strip (text entry))) e Hok He) as [Hin|Heq].
      * now apply list_elem_of_further.
      * injection Heq as ->. apply list_elem_of_here.
    + destruct previous_text as [p|]; [|discriminate].
      apply negb_false_iff, String.eqb_eq in Hw.
      apply elem_of_cons in He as [->|He].
      * right. now rewrite Hw.
      * exact (IH (Some p) e Hok He).
Qed.



(** A loop that comes to its end has written the records of the
    collapse, with the timestamps that were made. *)
Lemma write_records_ended (transcript : list (Entry F)) :
  forall previous_text,
    snd (write_records previous_text transcript) = Ok tt ->
    exists stamp : F -> string,
      fst (write_records previous_text transcript)
      = Transcriber.written_records stamp previous_text transcript
      /\ Forall (fun r => exists e, e ∈ transcript
                           /\ format_timestamp (start e) = Ok (fst r)
                           /\ snd r = strip (text e))
           (Transcriber.written_records stamp previous_text transcript).
Proof.
  intros previous_text Hok.
  exists (fun x => match format_timestamp x with
                   | Ok timestamp => timestamp
                   | Raise _ => EmptyString
                   end).
  assert (Heq : fst (write_records previous_text transcript)
                = Transcriber.written_records
                    (fun x => match format_timestamp x with
                              | Ok timestamp => timestamp
                              | Raise _ => EmptyString
                              end) previous_text transcript).
  { revert previous_text Hok.
    induction transcript as [|entry rest IH]; intros previous_text Hok;
      simpl in Hok |- *; [reflexivity|].
    destruct (match previous_text with
              | Some p => negb (String.eqb (strip (text entry)) p)
              | None => true
              end); [|now apply IH].
    destruct (format_timestamp (start entry)) as [timestamp|x];
      [|discriminate].
    simpl in Hok |- *. f_equal. now apply IH. }
  split; [exact Heq|]. rewrite <- Heq. apply write_records_from.
Qed.

End Raising.

(** *** The lines of a file *)

Lemma append_step (c : ascii) (a b : string) :
  (String c a ++ b)%string = String c (a ++ b).
Proof. reflexivity. Qed.

Lemma has_line_break_cons (c : ascii) (s : string) :
  has_line_break (String c s) = false ->
  Ascii.eqb c "010"%char = false /\ Ascii.eqb c "013"%char = false
  /\ has_line_break s = false.
Proof.
  simpl. intros Hb. apply orb_false_iff in Hb as [Hb Hs].
  apply orb_false_iff in Hb as [Hn Hr]. auto.
Qed.

(** A written item without a line break is read back as one line. *)
Lemma read_lines_item (item rest : string) :
  has_line_break item = false ->
  read_lines (item ++ line_feed ++ rest) = item :: read_lines rest.
Proof.
  induction item as [|c item IH]; intros Hb.
  - reflexivity.
  - apply has_line_break_cons in Hb as (Hn & Hr & Hb).
    rewrite append_step. cbn [read_lines]. rewrite Hn, Hr, (IH Hb).
    reflexivity.
Qed.

Lemma read_lines_file_text (items : list string) :
  Forall (fun item => has_line_break item = false) items ->
  read_lines (file_text items) = items.
Proof.
  induction 1 as [|item rest Hb _ IH]; [reflexivity|].
  cbn [file_text]. rewrite (read_lines_item _ _ Hb), IH. reflexivity.
Qed.

Lemma has_line_break_app (a b : string) :
  has_line_break (a ++ b) = has_line_break a || has_line_break b.
Proof.
  induction a as [|c a IH]; [reflexivity|].
  rewrite append_step. cbn [has_line_break]. rewrite IH.
  now rewrite !orb_assoc.
Qed.

Lemma record_line_unbroken (timestamp caption : string) :
  has_line_break timestamp = false -> has_line_break caption = false ->
  has_line_break ("[" ++ timestamp ++ "] " ++ caption) = false.
Proof.
  intros Ht Hc. rewrite !has_line_break_app, Ht, Hc. reflexivity.
Qed.

(** C7, as the code has it.  The timestamped writer collapses repeated
    neighbours, however its loop ends: the file of the id holds the
    records written, each a bracketed timestamp and the trimmed text of
    an entry, and no two records in a row carry the same text; a loop
    that comes to its end leaves out no text.  When no timestamp and no
    text written holds a line break, the lines of the file are these
    records, one line each, so that no two lines in a row carry the same
    text.  The plain writer writes the text of every entry as it is:
    when no text holds a line break, the lines of its file are the texts
    of the entries, repetitions included. *)
Theorem writers_collapse {F : Type} (format_timestamp : F -> result string)
    (transcript : list (Entry F)) (video_id : string)
    (w : World Transcriber.JobStatus) (w' : World Notebook.JobStatus) :
  let run := Transcriber.save_individual_transcript format_timestamp
               transcript video_id w in
  let plain := Notebook.save_transcript_to_file transcript video_id w' in
  (exists (records : list (string * string)) (items : list string),
     output_files (snd run) = (video_id, items) :: output_files w
     /\ items = map (fun r => "[" ++ fst r ++ "] " ++ snd r) records
     /\ no_repeated_neighbour (map snd records)
     /\ Forall (fun r => exists e, e ∈ transcript
                          /\ format_timestamp (start e) = Ok (fst r)
                          /\ snd r = strip (text e)) records
     /\ (fst run = Ok tt ->
         forall e, e ∈ transcript -> strip (text e) ∈ map snd records)
     /\ (Forall (fun r => has_line_break (fst r) = false
                          /\ has_line_break (snd r) = false) records ->
         read_lines (file_text items) = items
         /\ forall (i : nat) (line next : string),
              read_lines (file_text items) !! i = Some line ->
              read_lines (file_text items) !! (S i) = Some next ->
              exists a b : string * string,
                line = "[" ++ fst a ++ "] " ++ snd a
                /\ next = "[" ++ fst b ++ "] " ++ snd b
                /\ snd a <> snd b))
  /\ (exists items : list string,
        output_files (snd plain) = (video_id, items) :: output_files w'
        /\ (Forall (fun e => has_line_break (text e) = false) transcript ->
            read_lines (file_text items) = map text transcript)).
Proof.
  cbv zeta. split.
  - exists (fst (Transcriber.write_records format_timestamp None transcript)),
      (map Transcriber.record_line
         (fst (Transcriber.write_records format_timestamp None transcript))).
    split; [reflexivity|]. split; [reflexivity|]. split; [|split; [|split]].
    + intros i a b Ha Hb.
      pose proof (write_records_from format_timestamp transcript None) as Hf.
      rewrite Forall_forall in Hf.
      assert (Ht : forall t,
                t ∈ map snd (fst (Transcriber.write_records format_timestamp
                                    None transcript)) -> strip t = t).
      { intros t Hin. apply list_elem_of_fmap in Hin as (r & -> & Hr).
        destruct (Hf r Hr) as (e & _ & _ & ->). apply PyFacts.strip_idempotent. }
      rewrite (Ht a) by (eapply list_elem_of_lookup_2; exact Ha).
      rewrite (Ht b) by (eapply list_elem_of_lookup_2; exact Hb).
      eapply each_differs_neighbours; [|exact Ha|exact Hb].
      apply write_records_differ.
    + apply write_records_from.
    + unfold Transcriber.save_individual_transcript. cbn [fst].
      intros Hok e He.
      destruct (write_records_cover format_timestamp transcript None e Hok He)
        as [Hin|Heq]; [exact Hin | discriminate].
    + intros Hb.
      assert (Hlines :
        read_lines
          (file_text
             (map Transcriber.record_line
                (fst (Transcriber.write_records format_timestamp None
                        transcript))))
        = map Transcriber.record_line
            (fst (Transcriber.write_records format_timestamp None
                    transcript))).
      { apply read_lines_file_text.
        apply Forall_forall. intros item Hin.
        apply list_elem_of_fmap in Hin as (r & -> & Hr).
        rewrite Forall_forall in Hb. destruct (Hb r Hr) as [Ht Hc].
        now apply record_line_unbroken. }
      split; [exact Hlines|].
      intros i line next Hline Hnext. rewrite Hlines in Hline, Hnext.
      rewrite list_lookup_fmap in Hline, Hnext.
      destruct (fst (Transcriber.write_records format_timestamp None
                       transcript) !! i) as [a|] eqn:Ea; [|discriminate].
      destruct (fst (Transcriber.write_records format_timestamp None
                       transcript) !! (S i)) as [b|] eqn:Eb; [|discriminate].
      injection Hline as <-. injection Hnext as <-.
      exists a, b. split; [reflexivity|]. split; [reflexivity|].
      eapply (each_differs_neighbours _ None
                (write_records_differ format_timestamp transcript None) i).
      * rewrite list_lookup_fmap, Ea. reflexivity.
      * rewrite list_lookup_fmap, Eb. reflexivity.
  - exists (map text transcript). split; [reflexivity|].
    intros Hb. apply read_lines_file_text.
    apply Forall_forall. intros item Hin.
    apply list_elem_of_fmap in Hin as (e & -> & He).
    rewrite Forall_forall in Hb. now apply Hb.
Qed.

(** C7 fails on the plain writer: two entries in a row with the same
    text are written as two identical lines.  It fails on the lines of
    the timestamped writer for a text with a line break inside: the one
    record of such an entry is two lines of the file, here with the same
    text after the timestamp of the first. *)
Lemma plain_writer_repeats :
  (let transcript := [mkEntry "a" 0%Q 1%Q; mkEntry "a" 1%Q 1%Q] in
   Notebook.written_lines transcript = ["a"; "a"]
   /\ ~ no_repeated_neighbour (Notebook.written_lines transcript))
  /\ (let transcript := [mkEntry ("a" ++ line_feed ++ "a") 0%Q 1%Q] in
      let w := snd (Transcriber.save_individual_transcript
                      (fun _ : Q => Ok "0:00:00") transcript "AAAAAAAAAAA"
                      (Runs.fresh_world 0)) in
      exists items,
        output_files w = [("AAAAAAAAAAA", items)]
        /\ read_lines (file_text items) = ["[0:00:00] a"; "a"]).
Proof.
  cbv zeta. split.
  - split; [reflexivity|].
    intros Hno. apply (Hno 0%nat "a" "a"); reflexivity.
  - eexists. split; reflexivity.
Qed.

End WriterFacts.

(** ** Rules for computations on the world *)

Module Logic.
Section Rules.
Context {S : Type}.

Lemma triple_conseq {A} (P P' : World S -> Prop) (c : M S A)
    (Q Q' : result A -> World S -> Prop) :
  (forall w, P' w -> P w) -> (forall r w, Q r w -> Q' r w) ->
  triple P c Q -> triple P' c Q'.
Proof. intros HP HQ Hc w Hw. apply HQ, Hc, HP, Hw. Qed.

Lemma triple_ret {A} (a : A) (P : World S -> Prop)
    (Q : result A -> World S -> Prop) :
  (forall w, P w -> Q (Ok a) w) -> triple P (ret a) Q.
Proof. intros HQ w Hw. apply HQ, Hw. Qed.

Lemma triple_raise {A} (e : exn) (P : World S -> Prop)
    (Q : result A -> World S -> Prop) :
  (forall w, P w -> Q (Raise e) w) -> triple P (raise e) Q.
Proof. intros HQ w Hw. apply HQ, Hw. Qed.

Lemma triple_bind {A B} (c : M S A) (k : A -> M S B) (P : World S -> Prop)
    (R : result A -> World S -> Prop) (Q : result B -> World S -> Prop) :
  triple P c R ->
  (forall a, triple (R (Ok a)) (k a) Q) ->
  (forall e w, R (Raise e) w -> Q (Raise e) w) ->
  triple P (mbind c k) Q.
Proof.
  intros Hc Hk He w Hw. specialize (Hc w Hw). unfold mbind.
  destruct (c w) as [[a|e] w1]; simpl in *.
  - apply Hk, Hc.
  - apply He, Hc.
Qed.

Lemma triple_catch {A} (c : M S A) (h : exn -> M S A) (P : World S -> Prop)
    (R Q : result A -> World S -> Prop) :
  triple P c R ->
  (forall a w, R (Ok a) w -> Q (Ok a) w) ->
  (forall e, triple (R (Raise e)) (h e) Q) ->
  triple P (try_catch c h) Q.
Proof.
  intros Hc Hok Hh w Hw. specialize (Hc w Hw). unfold try_catch.
  destruct (c w) as [[a|e] w1]; simpl in *.
  - apply Hok, Hc.
  - apply Hh, Hc.
Qed.

Lemma mbind_ok {A B} (c : M S A) (k : A -> M S B) (w w1 : World S) (a : A) :
  c w = (Ok a, w1) -> mbind c k w = k a w1.
Proof. intros E. unfold mbind. rewrite E. reflexivity. Qed.

(** An invariant goes through a sequence whatever is returned. *)
Lemma invariant_bind {A B} (c : M S A) (k : A -> M S B) (I : World S -> Prop) :
  triple I c (fun _ => I) -> (forall a, triple I (k a) (fun _ => I)) ->
  triple I (mbind c k) (fun _ => I).
Proof. intros Hc Hk. eapply triple_bind; eauto. Qed.

Lemma invariant_catch {A} (c : M S A) (h : exn -> M S A) (I : World S -> Prop) :
  triple I c (fun _ => I) -> (forall e, triple I (h e) (fun _ => I)) ->
  triple I (try_catch c h) (fun _ => I).
Proof. intros Hc Hh. eapply triple_catch; eauto. Qed.

Section Keeps.
Context {X : Type} (proj : World S -> X).

Lemma keeps_ret {A} (a : A) : keeps proj (ret a).
Proof. intros w. reflexivity. Qed.

Lemma keeps_raise {A} (e : exn) : keeps proj (@raise S A e).
Proof. intros w. reflexivity. Qed.

Lemma keeps_lift {A} (c : result A) : keeps proj (lift c).
Proof. intros w. reflexivity. Qed.

Lemma keeps_bind {A B} (c : M S A) (k : A -> M S B) :
  keeps proj c -> (forall a, keeps proj (k a)) -> keeps proj (mbind c k).
Proof.
  intros Hc Hk w. specialize (Hc w). unfold mbind.
  destruct (c w) as [[a|e] w1]; simpl in *.
  - rewrite Hk. exact Hc.
  - exact Hc.
Qed.

Lemma keeps_catch {A} (c : M S A) (h : exn -> M S A) :
  keeps proj c -> (forall e, keeps proj (h e)) -> keeps proj (try_catch c h).
Proof.
  intros Hc Hh w. specialize (Hc w). unfold try_catch.
  destruct (c w) as [[a|e] w1]; simpl in *.
  - exact Hc.
  - rewrite Hh. exact Hc.
Qed.

(** What depends on [proj] alone is an invariant of what keeps [proj]. *)
Lemma keeps_invariant {A} (c : M S A) (I : World S -> Prop) :
  (forall w w', proj w' = proj w -> I w -> I w') ->
  keeps proj c -> triple I c (fun _ => I).
Proof. intros HI Hc w Hw. eapply HI; [apply Hc | exact Hw]. Qed.

End Keeps.
End Rules.

(** The computations that neither save a status nor read one. *)
Section Primitives.
Context {S Payload : Type} (env : Env Payload).

Lemma time_keeps {X} (proj : World S -> X) : keeps proj time.
Proof. intros w. reflexivity. Qed.

Lemma sleep_keeps_store (d : Q) : keeps (@store S) (sleep d).
Proof. intros w. reflexivity. Qed.

Lemma random_uniform_keeps_store (a b : Q) :
  keeps (@store S) (random_uniform env a b).
Proof. intros w. reflexivity. Qed.

Lemma log_error_keeps_store (m : string) : keeps (@store S) (log_error env m).
Proof. intros w. reflexivity. Qed.

Lemma log_failed_video_keeps_store (v : string) :
  keeps (@store S) (log_failed_video v).
Proof. intros w. reflexivity. Qed.

Lemma is_video_failed_keeps {X} (proj : World S -> X) (v : string) :
  keeps proj (is_video_failed v).
Proof. intros w. unfold is_video_failed. destruct (failed_file w); reflexivity. Qed.

Lemma call_upstream_keeps_store (v : string) :
  keeps (@store S) (call_upstream env v).
Proof. intros w. reflexivity. Qed.

Lemma sleep_keeps_failed (d : Q) : keeps (@failed_file S) (sleep d).
Proof. intros w. reflexivity. Qed.

Lemma random_uniform_keeps_failed (a b : Q) :
  keeps (@failed_file S) (random_uniform env a b).
Proof. intros w. reflexivity. Qed.

Lemma log_error_keeps_failed (m : string) :
  keeps (@failed_file S) (log_error env m).
Proof. intros w. reflexivity. Qed.

Lemma call_upstream_keeps_failed (v : string) :
  keeps (@failed_file S) (call_upstream env v).
Proof. intros w. reflexivity. Qed.

Lemma save_status_keeps_failed (st : S) : keeps (@failed_file S) (save_status st).
Proof. intros w. reflexivity. Qed.

Lemma read_status_file_keeps {X} (proj : World S -> X) :
  keeps proj (@read_status_file S).
Proof. intros w. unfold read_status_file. destruct (status_file w); reflexivity. Qed.

(** A save replaces the document and extends the history. *)
Lemma save_status_store (st : S) (w : World S) :
  store (snd (save_status st w)) = (Holds st, (saves w ++ [st])%list).
Proof. reflexivity. Qed.

End Primitives.

(** The rules and the primitives above, for [eauto with keeps]. *)
Create HintDb keeps discriminated.
#[export] Hint Resolve keeps_ret keeps_raise keeps_lift keeps_bind keeps_catch
  time_keeps is_video_failed_keeps read_status_file_keeps
  sleep_keeps_store random_uniform_keeps_store log_error_keeps_store
  log_failed_video_keeps_store call_upstream_keeps_store
  sleep_keeps_failed random_uniform_keeps_failed log_error_keeps_failed
  call_upstream_keeps_failed save_status_keeps_failed : keeps.

End Logic.

Lemma mem_true (x : string) (xs : list string) : Py.mem x xs = true <-> x ∈ xs.
Proof.
  unfold Py.mem. rewrite existsb_exists. split.
  - intros (y & Hin & Heq). apply String.eqb_eq in Heq. subst y.
    apply list_elem_of_In. exact Hin.
  - intros Hin. exists x. split; [apply list_elem_of_In, Hin | apply String.eqb_refl].
Qed.

Lemma mem_false (x : string) (xs : list string) : Py.mem x xs = false <-> x ∉ xs.
Proof.
  rewrite <- mem_true. destruct (Py.mem x xs); split; congruence.
Qed.

(** [xs.remove(x)] keeps a part of [xs], without [x] when [xs] had it
    once. *)
Lemma remove_first_sub (x y : string) (xs : list string) :
  y ∈ Py.remove_first x xs -> y ∈ xs.
Proof.
  induction xs as [|z zs IH]; simpl; [tauto|].
  destruct (String.eqb x z); intros Hin.
  - now apply list_elem_of_further.
  - apply elem_of_cons in Hin as [->|Hin].
    + apply list_elem_of_here.
    + apply list_elem_of_further, IH, Hin.
Qed.

Lemma remove_first_NoDup (x : string) (xs : list string) :
  NoDup xs -> NoDup (Py.remove_first x xs) /\ x ∉ Py.remove_first x xs.
Proof.
  induction 1 as [|z zs Hz Hnd [IH1 IH2]]; simpl.
  - split; [constructor | apply not_elem_of_nil].
  - destruct (String.eqb x z) eqn:E.
    + apply String.eqb_eq in E. subst z. split; assumption.
    + apply String.eqb_neq in E. split.
      * constructor; [|exact IH1]. intros Hin. apply Hz.
        eapply remove_first_sub, Hin.
      * intros Hin. apply elem_of_cons in Hin as [->|Hin]; [congruence | tauto].
Qed.

(** ** [youtube_transcriber.py]: the pipeline *)

Module TranscriberFacts.
Import Transcriber Invariants.T Logic.

Section Facts.
Context {F : Type} `{PyFloat F}.
Variable find_all_text : string -> list TextTag.
Variable json_loads : string -> option (json F).
Variable format_timestamp : F -> result string.
Variable env : Env (option Info).

(** [load_status] never raises and never writes: it answers the document
    of the status file, or the fresh default. *)
Lemma load_status_spec (w : World JobStatus) :
  load_status w
  = (Ok match status_file w with Holds st => st | _ => default_status end, w).
Proof.
  unfold load_status, try_catch, read_status_file.
  destruct (status_file w); reflexivity.
Qed.

(** The rate limiter waits at most once, stamps the dict it was given
    and saves it. *)
Lemma enforce_rate_limit_spec (status : JobStatus) (w : World JobStatus) :
  exists t : Q,
    let status' := set_last_request_time (Some t) status in
    let w' := snd (enforce_rate_limit env status w) in
    fst (enforce_rate_limit env status w) = Ok status'
    /\ store w' = (Holds status', (saves w ++ [status'])%list)
    /\ failed_file w' = failed_file w
    /\ error_log w' = error_log w
    /\ output_files w' = output_files w
    /\ requests w' = requests w
    /\ cookies_available w' = cookies_available w
    /\ clock w' = t.
Proof.
  unfold enforce_rate_limit, mbind, time, random_uniform, ret, sleep.
  destruct (has_last_request status) as [last|]; cbn [fst snd];
    [destruct ((processed_count status mod 10 =? 0)%Z
               && (processed_count status >? 0)%Z); cbn [fst snd];
     match goal with |- context [Qlt_bool ?a ?b] => destruct (Qlt_bool a b) end|];
    eexists; cbn; repeat split.
Qed.

(** The upstream call and the parsing leave the status file, its
    history and the failed-videos file alone. *)
Lemma get_transcript_ytdlp_body_keeps {X} (proj : World JobStatus -> X)
    (video_id : string) :
  (forall v, keeps proj (call_upstream env v)) ->
  keeps proj (get_transcript_ytdlp_body find_all_text json_loads env video_id).
Proof.
  intros Hup. unfold get_transcript_ytdlp_body.
  apply keeps_bind; [apply Hup|]. intros [info|]; [|eauto with keeps].
  destruct (subtitles info) as [response|]; [eauto with keeps|].
  destruct (automatic_captions info) as [response|]; eauto with keeps.
Qed.

Lemma get_transcript_ytdlp_keeps {X} (proj : World JobStatus -> X)
    (video_id : string) :
  (forall v, keeps proj (call_upstream env v)) ->
  (forall b w, proj (set_cookies_available b w) = proj w) ->
  keeps proj (get_transcript_ytdlp find_all_text json_loads env video_id).
Proof.
  intros Hup Hck. unfold get_transcript_ytdlp.
  apply keeps_catch; [now apply get_transcript_ytdlp_body_keeps|].
  intros e w.
  destruct (Py.contains _ (exn_str e) && cookies_available w); [|reflexivity].
  unfold get_transcript_ytdlp_without_cookies.
  rewrite (keeps_catch proj _ _
             (get_transcript_ytdlp_body_keeps proj video_id Hup)
             (fun e' => keeps_raise proj _)).
  apply Hck.
Qed.

Lemma holds_lists_store (c p : list string) (w w' : World JobStatus) :
  store w' = store w -> holds_lists c p w -> holds_lists c p w'.
Proof.
  unfold store, holds_lists. intros Hs. injection Hs as -> ->. tauto.
Qed.

Lemma consistent_store (w w' : World JobStatus) :
  store w' = store w -> consistent w -> consistent w'.
Proof.
  unfold store, consistent. intros Hs. injection Hs as -> ->. tauto.
Qed.

(** An id on the failed-videos file is skipped at once: nothing is
    returned and the world is as it was. *)
Lemma extract_transcript_failed (video_id : string) (w : World JobStatus)
    (lines : list string) :
  failed_file w = Some lines ->
  Py.mem video_id (map Py.strip lines) = true ->
  extract_transcript find_all_text json_loads env video_id w = (Ok None, w).
Proof.
  intros Hf Hm. unfold extract_transcript, mbind, is_video_failed.
  rewrite Hf, Hm. reflexivity.
Qed.

(** While the lists of the stored document are disjoint,
    [extract_transcript] keeps them as they are: it only saves the stored
    document with a new request time. *)
Lemma extract_transcript_holds_lists (c p : list string) (video_id : string) :
  (forall id : string, id ∈ c -> id ∈ p -> False) ->
  triple (holds_lists c p)
    (extract_transcript find_all_text json_loads env video_id)
    (fun _ => holds_lists c p).
Proof.
  intros Hd. unfold extract_transcript.
  apply invariant_bind.
  { apply (keeps_invariant store); [apply holds_lists_store|].
    apply is_video_failed_keeps. }
  intros [|]; [apply triple_ret; auto|].
  apply invariant_catch.
  - eapply triple_bind with
      (R := fun r w => holds_lists c p w
                       /\ exists st, r = Ok st /\ completed st = c /\ pending st = p).
    + intros w Hw. rewrite load_status_spec. cbn [fst snd]. split; [exact Hw|].
      destruct Hw as [(st & -> & Hc & Hp) _]. eauto.
    + intros status.
      eapply triple_bind with (R := fun _ => holds_lists c p).
      * intros w [Hw (st & Hst & Hc & Hp)]. injection Hst as <-.
        destruct (enforce_rate_limit_spec status w) as (t & _ & Hs & _).
        cbn zeta in Hs. unfold store in Hs. injection Hs as Hfile Hsaves.
        destruct Hw as [_ Hall]. split.
        -- eexists. split; [exact Hfile|]. split; assumption.
        -- rewrite Hsaves. apply Forall_app. split; [exact Hall|].
           constructor; [|constructor].
           intros id. unfold disjoint. simpl. rewrite Hc, Hp. apply Hd.
      * intros _. apply invariant_bind.
        -- apply (keeps_invariant store); [apply holds_lists_store|].
           apply get_transcript_ytdlp_keeps; [|reflexivity].
           apply call_upstream_keeps_store.
        -- intros [|? ?]; [apply triple_raise | apply triple_ret]; auto.
      * auto.
    + intros e w [Hw _]. exact Hw.
  - intros e.
    assert (Hlog : forall m,
      triple (holds_lists c p)
        (log_error env m ;;; log_failed_video video_id ;;; ret None)
        (fun _ : result (option (list (Entry F))) => holds_lists c p)).
    { intros m. apply (keeps_invariant store); [apply holds_lists_store|].
      eauto with keeps. }
    destruct e; try apply Hlog.
    apply (keeps_invariant store); [apply holds_lists_store|].
    apply keeps_bind; [|eauto with keeps].
    destruct (status_code =? 429)%Z; eauto with keeps.
Qed.

Lemma sound_default : sound default_status.
Proof.
  split; [|constructor]. intros id Hin. simpl in Hin.
  now apply not_elem_of_nil in Hin.
Qed.

(** Marking an id pending that is neither completed nor pending. *)
Lemma sound_mark_pending (st : JobStatus) (video_id : string) :
  sound st -> video_id ∉ completed st -> video_id ∉ pending st ->
  sound (set_pending (pending st ++ [video_id]) st).
Proof.
  intros [Hd Hn] Hc Hp. split.
  - intros id Hic Hip. simpl in *. apply elem_of_app in Hip as [Hip|Hip].
    + exact (Hd id Hic Hip).
    + apply list_elem_of_singleton in Hip. subst id. exact (Hc Hic).
  - simpl. apply NoDup_app. repeat split; [exact Hn | | apply NoDup_singleton].
    intros x Hx Hx'. apply list_elem_of_singleton in Hx'. subst x. exact (Hp Hx).
Qed.

(** Clearing an id from [pending]. *)
Lemma sound_clear_pending (st : JobStatus) (video_id : string) :
  sound st ->
  sound (if Py.mem video_id (pending st)
         then set_pending (Py.remove_first video_id (pending st)) st
         else st).
Proof.
  intros [Hd Hn]. destruct (Py.mem video_id (pending st)); [|now split].
  split.
  - intros id Hic Hip. simpl in *. apply (Hd id Hic).
    eapply remove_first_sub, Hip.
  - simpl. now apply remove_first_NoDup.
Qed.

(** Completing an id and clearing it from [pending]. *)
Lemma sound_complete (st : JobStatus) (video_id : string) :
  sound st -> video_id ∈ pending st ->
  let st1 := set_completed (completed st ++ [video_id]) st in
  let st2 := set_processed_count (processed_count st1 + 1) st1 in
  sound (if Py.mem video_id (pending st2)
         then set_pending (Py.remove_first video_id (pending st2)) st2
         else st2).
Proof.
  intros [Hd Hn] Hp. cbn zeta. cbn [pending set_processed_count set_completed].
  apply mem_true in Hp. rewrite Hp.
  destruct (remove_first_NoDup video_id _ Hn) as [Hn' Hnot].
  split; [|exact Hn'].
  intros id Hic Hip. cbn in Hic, Hip.
  apply elem_of_app in Hic as [Hic|Hic].
  - apply (Hd id Hic). eapply remove_first_sub, Hip.
  - apply list_elem_of_singleton in Hic. subst id. exact (Hnot Hip).
Qed.

(** One call of [process_video] keeps the store consistent: what it
    finds sound it leaves sound, and each document it writes has disjoint
    lists. *)
Lemma process_video_consistent (video_url : string) :
  triple consistent
    (process_video find_all_text json_loads format_timestamp env video_url)
    (fun _ => consistent).
Proof.
  intros w Hw. unfold process_video.
  destruct (get_video_id video_url) as [[|ch tl]|];
    [exact Hw | | exact Hw].
  set (video_id := String ch tl).
  unfold mbind at 1. rewrite load_status_spec.
  set (st := match status_file w with Holds st => st | _ => default_status end).
  assert (Hst : sound st).
  { subst st. destruct Hw as [Hf _].
    destruct (status_file w); auto using sound_default. }
  destruct (Py.mem video_id (completed st)) eqn:Ec; [exact Hw|].
  apply mem_false in Ec.
  (* the status after the marking, and the world it is stored in *)
  assert (Hmark : exists st1 w1,
    (if negb (Py.mem video_id (pending st))
     then let status := set_pending (pending st ++ [video_id]) st in
          save_status status ;;; ret status
     else ret st) w = (Ok st1, w1)
    /\ sound st1 /\ video_id ∈ pending st1
    /\ holds_lists (completed st1) (pending st1) w1).
  { destruct (Py.mem video_id (pending st)) eqn:Ep; cbn [negb].
    - exists st, w. apply mem_true in Ep.
      split; [reflexivity|]. split; [exact Hst|]. split; [exact Ep|].
      split; [|apply Hw].
      subst st. destruct (status_file w) eqn:Ef;
        try (now apply not_elem_of_nil in Ep).
      eauto.
    - apply mem_false in Ep. eexists _, _. split; [reflexivity|].
      split; [now apply sound_mark_pending|]. split.
      + cbn. apply elem_of_app. right. apply list_elem_of_here.
      + split; [cbn; eauto|]. cbn. apply Forall_app. split; [apply Hw|].
        constructor; [|constructor]. now apply sound_mark_pending. }
  destruct Hmark as (st1 & w1 & Hrun & Hs1 & Hp1 & Hw1).
  cbv zeta in Hrun. unfold mbind at 1. rewrite Hrun. cbn iota beta.
  pose proof (extract_transcript_holds_lists _ _ video_id (proj1 Hs1) w1 Hw1) as Hext.
  unfold mbind at 1.
  destruct (extract_transcript find_all_text json_loads env video_id w1)
    as [[transcript|e] w2]; cbn [fst snd] in Hext.
  2:{ destruct Hext as [(st' & Hf & Hc' & Hp') Hall]. split; [|exact Hall].
      cbn [snd]. rewrite Hf. split; [|rewrite Hp'; apply Hs1].
      intros id. unfold disjoint. rewrite Hc', Hp'. apply Hs1. }
  destruct Hext as [_ Hall].
  destruct (falsy transcript).
  - cbn. split.
    + now apply sound_clear_pending.
    + apply Forall_app. split; [exact Hall|]. constructor; [|constructor].
      now apply sound_clear_pending.
  - pose proof (sound_complete st1 video_id Hs1 Hp1) as Hs2. cbn zeta in Hs2.
    unfold mbind, save_status, save_individual_transcript, random_uniform,
      sleep, ret. cbn [fst snd].
    destruct (write_records format_timestamp None (default [] transcript))
      as [records [[]|e]]; cbn [fst snd];
    try match goal with
    | |- context [(_ mod BATCH_SIZE =? 0)%Z] =>
        destruct (_ mod BATCH_SIZE =? 0)%Z
    end; cbn; (split; [exact Hs2|]);
      (apply Forall_app; split; [exact Hall|]);
      (constructor; [apply Hs2 | constructor]).
Qed.

(** [extract_transcript] always returns: every exception of the attempt
    is caught and logged. *)
Lemma extract_transcript_returns (video_id : string) (w : World JobStatus) :
  exists r, fst (extract_transcript find_all_text json_loads env video_id w) = Ok r.
Proof.
  unfold extract_transcript, mbind, is_video_failed.
  destruct (match failed_file w with
            | Some lines => (Ok (Py.mem video_id (map Py.strip lines)), w)
            | None => (Ok false, w)
            end) as [[[|]|e] w1] eqn:E.
  - eexists. reflexivity.
  - unfold try_catch.
    destruct ((let (r, w') := load_status w1 in _) : result _ * World _)
      as [[r|e] w2]; [eexists; reflexivity|].
    destruct e; try (eexists; reflexivity).
    destruct (status_code =? 429)%Z; eexists; reflexivity.
  - destruct (failed_file w); discriminate.
Qed.

(** The request time is lost.  [process_video] writes back the dict it
    loaded before the attempt, so the time stamped by the rate limiter in
    between is overwritten: after the call the stored request time is the
    one stored before it. *)
Lemma process_video_keeps_last_request_time (video_url : string)
    (w : World JobStatus) (st : JobStatus) :
  status_file w = Holds st ->
  exists st',
    status_file
      (snd (process_video find_all_text json_loads format_timestamp env
              video_url w)) = Holds st'
    /\ last_request_time st' = last_request_time st.
Proof.
  intros Hf. unfold process_video.
  destruct (get_video_id video_url) as [[|ch tl]|];
    [exists st; split; [exact Hf | reflexivity] |
     | exists st; split; [exact Hf | reflexivity]].
  set (video_id := String ch tl).
  unfold mbind at 1. rewrite load_status_spec, Hf.
  destruct (Py.mem video_id (completed st));
    [exists st; split; [exact Hf | reflexivity]|].
  assert (Hmark : exists st1 w1,
    (if negb (Py.mem video_id (pending st))
     then save_status (set_pending (pending st ++ [video_id]) st) ;;;
          ret (set_pending (pending st ++ [video_id]) st)
     else ret st) w = (Ok st1, w1)
    /\ last_request_time st1 = last_request_time st).
  { destruct (Py.mem video_id (pending st)); cbn [negb];
      eexists _, _; split; reflexivity. }
  destruct Hmark as (st1 & w1 & Hrun & Hl1).
  unfold mbind at 1. rewrite Hrun. cbn iota beta.
  destruct (extract_transcript_returns video_id w1) as [transcript Hret].
  unfold mbind at 1.
  destruct (extract_transcript find_all_text json_loads env video_id w1)
    as [r w2]. cbn [fst] in Hret. subst r.
  destruct (falsy transcript).
  - eexists. split; [reflexivity|]. rewrite <- Hl1.
    destruct (Py.mem video_id (pending st1)); reflexivity.
  - unfold mbind, save_status, save_individual_transcript, random_uniform,
      sleep, ret. cbn [fst snd].
    destruct (write_records format_timestamp None (default [] transcript))
      as [records [[]|e]]; cbn [fst snd];
    try match goal with
    | |- context [(_ mod BATCH_SIZE =? 0)%Z] =>
        destruct (_ mod BATCH_SIZE =? 0)%Z
    end; (eexists; split; [reflexivity|]);
      match goal with
      | |- last_request_time (if ?b then _ else _) = _ => destruct b
      end; rewrite <- Hl1; reflexivity.
Qed.

(** A failed attempt puts the id on the failed-videos file, whatever the
    failure was: an id that was not on the file and for which nothing is
    returned is on it afterwards. *)
Lemma extract_transcript_records_failure (video_id : string)
    (w : World JobStatus) :
  fst (is_video_failed video_id w) = Ok false ->
  fst (extract_transcript find_all_text json_loads env video_id w) = Ok None ->
  failed_file (snd (extract_transcript find_all_text json_loads env video_id w))
  = append_line (failed_file w) video_id.
Proof.
  intros Hnf. unfold extract_transcript.
  assert (Hw : is_video_failed video_id w = (Ok false, w)).
  { revert Hnf. unfold is_video_failed. destruct (failed_file w); cbn; congruence. }
  rewrite !(mbind_ok _ _ _ _ _ Hw).
  set (body := let! status := load_status in _).
  assert (Hbody : triple (fun w' => failed_file w' = failed_file w) body
            (fun r w' => failed_file w' = failed_file w
                         /\ r <> Ok None)).
  { subst body. eapply triple_bind with (R := fun _ w' => failed_file w' = failed_file w).
    - intros w' Hw'. rewrite load_status_spec. exact Hw'.
    - intros status.
      eapply triple_bind with (R := fun _ w' => failed_file w' = failed_file w).
      + intros w' Hw'.
        destruct (enforce_rate_limit_spec status w') as (t & _ & _ & Hff & _).
        cbn zeta in Hff. congruence.
      + intros _.
        eapply triple_bind with (R := fun _ w' => failed_file w' = failed_file w).
        * intros w' Hw'.
          rewrite (get_transcript_ytdlp_keeps (@failed_file JobStatus) video_id);
            [exact Hw' | apply call_upstream_keeps_failed | reflexivity].
        * intros [|e l]; intros w' Hw'; (split; [exact Hw' | discriminate]).
        * intros e w' Hw'. split; [exact Hw' | discriminate].
      + intros e w' Hw'. split; [exact Hw' | discriminate].
    - intros e w' Hw'. split; [exact Hw' | discriminate]. }
  specialize (Hbody w eq_refl). unfold try_catch.
  destruct (body w) as [[r|e] w1]; cbn [fst snd] in *.
  - intros Hr. destruct Hbody as [_ Hne]. congruence.
  - destruct Hbody as [<- _]. intros _.
    destruct e as [| | | | | | | |code msg| | | | |]; try reflexivity.
    unfold mbind. destruct (code =? 429)%Z; reflexivity.
Qed.

Lemma initialize_consistent (w0 : World JobStatus) :
  status_file w0 = Absent -> saves w0 = [] ->
  consistent (snd (initialize w0))
  /\ status_file (snd (initialize w0)) = Holds default_status.
Proof.
  intros Hf Hs.
  assert (Hd : Forall disjoint (saves w0 ++ [default_status])%list).
  { rewrite Hs. repeat constructor. apply sound_default. }
  unfold initialize. rewrite Hf. cbn.
  destruct (error_log w0), (failed_file w0); cbn;
    repeat match goal with
           | |- context [match failed_file w0 with _ => _ end] =>
               destruct (failed_file w0)
           end;
    (split; [split; [apply sound_default | exact Hd] | reflexivity]).
Qed.

End Facts.

(** In every world the pipeline reaches, the store is consistent. *)
Lemma reachable_consistent {F : Type} `{PyFloat F} (w : World JobStatus) :
  reachable w -> consistent w.
Proof.
  induction 1 as [w0 Hf Hs | fa jl ft env url w _ IH].
  - now apply initialize_consistent.
  - exact (process_video_consistent fa jl ft env url w IH).
Qed.

(** In every world the pipeline reaches, no request time is stored. *)
Lemma reachable_never_stamped {F : Type} `{PyFloat F} (w : World JobStatus) :
  reachable w ->
  exists st, status_file w = Holds st /\ last_request_time st = None.
Proof.
  induction 1 as [w0 Hf Hs | fa jl ft env url w _ (st & Hst & Hl)].
  - exists default_status. split; [now apply initialize_consistent | reflexivity].
  - destruct (process_video_keeps_last_request_time fa jl ft env url w st Hst)
      as (st' & Hst' & Hl').
    exists st'. split; [exact Hst' | congruence].
Qed.

End TranscriberFacts.

(** ** [main.py]: the pipeline *)

Module NotebookFacts.
Import Notebook Invariants.N Logic.

Section Facts.
Context {F : Type}.
Variable env : Env (list (Entry F)).

Lemma notebook_load_status_spec (w : World JobStatus) :
  load_status w
  = (Ok match status_file w with Holds st => st | _ => default_status end, w).
Proof.
  unfold load_status, try_catch, read_status_file.
  destruct (status_file w); reflexivity.
Qed.

Lemma notebook_enforce_rate_limit_spec (status : JobStatus) (w : World JobStatus) :
  exists t : Q,
    let status' := set_last_request_time (Some t) status in
    let w' := snd (enforce_rate_limit env status w) in
    fst (enforce_rate_limit env status w) = Ok status'
    /\ store w' = (Holds status', (saves w ++ [status'])%list)
    /\ failed_file w' = failed_file w
    /\ requests w' = requests w
    /\ clock w' = t.
Proof.
  unfold enforce_rate_limit, mbind, time, random_uniform, ret, sleep.
  destruct (has_last_request status) as [last|]; cbn [fst snd];
    [match goal with |- context [Qlt_bool ?a ?b] => destruct (Qlt_bool a b) end|];
    eexists; cbn; repeat split.
Qed.

Lemma notebook_holds_lists_store (c p : list string) (w w' : World JobStatus) :
  store w' = store w -> holds_lists c p w -> holds_lists c p w'.
Proof.
  unfold store, holds_lists. intros Hs. injection Hs as -> ->. tauto.
Qed.

(** The first part of an attempt: the status is loaded, stamped and
    saved, and the upstream service is called. *)
Lemma attempt_body_holds_lists (c p : list string) (video_id : string) :
  (forall id : string, id ∈ c -> id ∈ p -> False) ->
  triple (holds_lists c p)
    (let! status := load_status in
     enforce_rate_limit env status ;;;
     let! transcript := call_upstream env video_id in
     ret (Some (Some transcript)))
    (fun _ => holds_lists c p).
Proof.
  intros Hd.
  eapply triple_bind with
    (R := fun r w => holds_lists c p w
                     /\ exists st, r = Ok st /\ completed st = c /\ pending st = p).
  - intros w Hw. rewrite notebook_load_status_spec. cbn [fst snd]. split; [exact Hw|].
    destruct Hw as [(st & -> & Hc & Hp) _]. eauto.
  - intros status.
    eapply triple_bind with (R := fun _ => holds_lists c p).
    + intros w [Hw (st & Hst & Hc & Hp)]. injection Hst as <-.
      destruct (notebook_enforce_rate_limit_spec status w) as (t & _ & Hs & _).
      cbn zeta in Hs. unfold store in Hs. injection Hs as Hfile Hsaves.
      destruct Hw as [_ Hall]. split.
      * eexists. split; [exact Hfile|]. split; assumption.
      * rewrite Hsaves. apply Forall_app. split; [exact Hall|].
        constructor; [|constructor].
        intros id. unfold disjoint. simpl. rewrite Hc, Hp. apply Hd.
    + intros _. apply (keeps_invariant store); [apply notebook_holds_lists_store|].
      eauto with keeps.
    + auto.
  - intros e w [Hw _]. exact Hw.
Qed.

Lemma attempt_once_holds_lists (c p : list string) (max_retries : nat)
    (video_id : string) (attempt : nat) :
  (forall id : string, id ∈ c -> id ∈ p -> False) ->
  triple (holds_lists c p) (attempt_once env max_retries video_id attempt)
    (fun _ => holds_lists c p).
Proof.
  intros Hd. unfold attempt_once. apply invariant_catch.
  - now apply attempt_body_holds_lists.
  - intros e. apply (keeps_invariant store); [apply notebook_holds_lists_store|].
    assert (Hgen : keeps (@store JobStatus)
      (log_error env
         ("[" ++ video_id ++ "] Attempt " ++ pretty (attempt + 1)%nat
          ++ " failed: " ++ exn_str e) ;;;
       (if (attempt =? max_retries - 1)%nat
        then log_failed_video video_id
        else ret tt) ;;;
       (if (attempt <? max_retries - 1)%nat
        then let! r := random_uniform env 0 5 in
             sleep (BASE_DELAY * inject_Z (Z.of_nat attempt + 1) + r)%Q
        else ret tt) ;;;
       (ret None : M JobStatus (option (option (list (Entry F))))))).
    { apply keeps_bind; [eauto with keeps|]. intros _.
      apply keeps_bind;
        [destruct (attempt =? max_retries - 1)%nat; eauto with keeps|].
      intros _. apply keeps_bind; [|eauto with keeps].
      destruct (attempt <? max_retries - 1)%nat; eauto with keeps. }
    assert (Hperm : forall m,
      keeps (@store JobStatus)
        (log_error env m ;;; log_failed_video video_id ;;;
         (ret (Some None) : M JobStatus (option (option (list (Entry F))))))).
    { intros m. eauto with keeps. }
    destruct e as [| | | | | | | |code msg|m|m|m| |]; try exact Hgen;
      try apply Hperm.
    destruct (code =? 429)%Z; [|apply Hperm].
    eauto 7 with keeps.
Qed.

Lemma attempts_holds_lists (c p : list string) (max_retries : nat)
    (video_id : string) (todo : list nat) :
  (forall id : string, id ∈ c -> id ∈ p -> False) ->
  triple (holds_lists c p) (attempts env max_retries video_id todo)
    (fun _ => holds_lists c p).
Proof.
  intros Hd. induction todo as [|attempt rest IH]; simpl.
  - apply triple_ret. auto.
  - apply invariant_bind; [now apply attempt_once_holds_lists|].
    intros [returned|]; [apply triple_ret; auto | exact IH].
Qed.

Lemma notebook_extract_transcript_holds_lists (c p : list string) (max_retries : nat)
    (video_id : string) :
  (forall id : string, id ∈ c -> id ∈ p -> False) ->
  triple (holds_lists c p) (extract_transcript_with env max_retries video_id)
    (fun _ => holds_lists c p).
Proof.
  intros Hd. unfold extract_transcript_with. apply invariant_bind.
  { apply (keeps_invariant store); [apply notebook_holds_lists_store|].
    apply is_video_failed_keeps. }
  intros [|]; [apply triple_ret; auto | now apply attempts_holds_lists].
Qed.

(** An id on the failed-videos file is skipped at once, here too. *)
Lemma notebook_extract_transcript_failed (max_retries : nat) (video_id : string)
    (w : World JobStatus) (lines : list string) :
  failed_file w = Some lines ->
  Py.mem video_id (map Py.strip lines) = true ->
  extract_transcript_with env max_retries video_id w = (Ok None, w).
Proof.
  intros Hf Hm. unfold extract_transcript_with, mbind, is_video_failed.
  rewrite Hf, Hm. reflexivity.
Qed.

Lemma notebook_sound_default : sound default_status.
Proof.
  split; [|constructor]. intros id Hin. simpl in Hin.
  now apply not_elem_of_nil in Hin.
Qed.

Lemma notebook_sound_mark_pending (st : JobStatus) (video_id : string) :
  sound st -> video_id ∉ completed st -> video_id ∉ pending st ->
  sound (set_pending (pending st ++ [video_id]) st).
Proof.
  intros [Hd Hn] Hc Hp. split.
  - intros id Hic Hip. simpl in *. apply elem_of_app in Hip as [Hip|Hip].
    + exact (Hd id Hic Hip).
    + apply list_elem_of_singleton in Hip. subst id. exact (Hc Hic).
  - simpl. apply NoDup_app. repeat split; [exact Hn | | apply NoDup_singleton].
    intros x Hx Hx'. apply list_elem_of_singleton in Hx'. subst x. exact (Hp Hx).
Qed.

Lemma notebook_sound_clear_pending (st : JobStatus) (video_id : string) :
  sound st ->
  sound (if Py.mem video_id (pending st)
         then set_pending (Py.remove_first video_id (pending st)) st
         else st).
Proof.
  intros [Hd Hn]. destruct (Py.mem video_id (pending st)); [|now split].
  split.
  - intros id Hic Hip. simpl in *. apply (Hd id Hic).
    eapply remove_first_sub, Hip.
  - simpl. now apply remove_first_NoDup.
Qed.

Lemma notebook_sound_complete (st : JobStatus) (video_id : string) :
  sound st -> video_id ∈ pending st ->
  let st1 := set_completed (completed st ++ [video_id]) st in
  sound (if Py.mem video_id (pending st1)
         then set_pending (Py.remove_first video_id (pending st1)) st1
         else st1).
Proof.
  intros [Hd Hn] Hp. cbn zeta. cbn [pending set_completed].
  apply mem_true in Hp. rewrite Hp.
  destruct (remove_first_NoDup video_id _ Hn) as [Hn' Hnot].
  split; [|exact Hn'].
  intros id Hic Hip. cbn in Hic, Hip.
  apply elem_of_app in Hic as [Hic|Hic].
  - apply (Hd id Hic). eapply remove_first_sub, Hip.
  - apply list_elem_of_singleton in Hic. subst id. exact (Hnot Hip).
Qed.

Lemma notebook_process_video_consistent (max_retries : nat) (video_url : string) :
  triple consistent (process_video_with env max_retries video_url)
    (fun _ => consistent).
Proof.
  intros w Hw. unfold process_video_with.
  destruct (get_video_id video_url) as [[|ch tl]|];
    [exact Hw | | exact Hw].
  set (video_id := String ch tl).
  unfold mbind at 1. rewrite notebook_load_status_spec.
  set (st := match status_file w with Holds st => st | _ => default_status end).
  assert (Hst : sound st).
  { subst st. destruct Hw as [Hf _].
    destruct (status_file w); auto using notebook_sound_default. }
  destruct (Py.mem video_id (completed st)) eqn:Ec; [exact Hw|].
  apply mem_false in Ec.
  assert (Hmark : exists st1 w1,
    (if negb (Py.mem video_id (pending st))
     then save_status (set_pending (pending st ++ [video_id]) st) ;;;
          ret (set_pending (pending st ++ [video_id]) st)
     else ret st) w = (Ok st1, w1)
    /\ sound st1 /\ video_id ∈ pending st1
    /\ holds_lists (completed st1) (pending st1) w1).
  { destruct (Py.mem video_id (pending st)) eqn:Ep; cbn [negb].
    - exists st, w. apply mem_true in Ep.
      split; [reflexivity|]. split; [exact Hst|]. split; [exact Ep|].
      split; [|apply Hw].
      subst st. destruct (status_file w) eqn:Ef;
        try (now apply not_elem_of_nil in Ep).
      eauto.
    - apply mem_false in Ep. eexists _, _. split; [reflexivity|].
      split; [now apply notebook_sound_mark_pending|]. split.
      + cbn. apply elem_of_app. right. apply list_elem_of_here.
      + split; [cbn; eauto|]. cbn. apply Forall_app. split; [apply Hw|].
        constructor; [|constructor]. now apply notebook_sound_mark_pending. }
  destruct Hmark as (st1 & w1 & Hrun & Hs1 & Hp1 & Hw1).
  unfold mbind at 1. rewrite Hrun. cbn iota beta.
  pose proof (notebook_extract_transcript_holds_lists _ _ max_retries video_id
                (proj1 Hs1) w1 Hw1) as Hext.
  unfold mbind at 1.
  destruct (extract_transcript_with env max_retries video_id w1)
    as [[transcript|e] w2]; cbn [fst snd] in Hext.
  2:{ destruct Hext as [(st' & Hf & Hc' & Hp') Hall]. split; [|exact Hall].
      cbn [snd]. rewrite Hf. split; [|rewrite Hp'; apply Hs1].
      intros id. unfold disjoint. rewrite Hc', Hp'. apply Hs1. }
  destruct Hext as [_ Hall].
  destruct (falsy transcript).
  - cbn. split.
    + now apply notebook_sound_clear_pending.
    + apply Forall_app. split; [exact Hall|]. constructor; [|constructor].
      now apply notebook_sound_clear_pending.
  - pose proof (notebook_sound_complete st1 video_id Hs1 Hp1) as Hs2. cbn zeta in Hs2.
    unfold mbind, save_status, save_transcript_to_file, ret. cbn.
    split; [exact Hs2|].
    apply Forall_app; split; [exact Hall|].
    constructor; [apply Hs2 | constructor].
Qed.

Lemma notebook_initialize_consistent (w0 : World JobStatus) :
  status_file w0 = Absent -> saves w0 = [] ->
  consistent (snd (initialize w0))
  /\ status_file (snd (initialize w0)) = Holds default_status.
Proof.
  intros Hf Hs.
  assert (Hd : Forall disjoint (saves w0 ++ [default_status])%list).
  { rewrite Hs. repeat constructor. apply notebook_sound_default. }
  unfold initialize. rewrite Hf. cbn.
  destruct (error_log w0), (failed_file w0); cbn;
    repeat match goal with
           | |- context [match failed_file w0 with _ => _ end] =>
               destruct (failed_file w0)
           end;
    (split; [split; [apply notebook_sound_default | exact Hd] | reflexivity]).
Qed.

(** When the upstream service answers every call with HTTP 429, each
    attempt logs, waits and goes on to the next; the loop runs out and
    nothing is returned, without the id being written to the
    failed-videos file. *)
Lemma attempts_rate_limited (max_retries : nat) (video_id : string)
    (todo : list nat) :
  (forall n, exists msg, upstream env n video_id = Raise (HTTPError 429 msg)) ->
  forall w,
    fst (attempts env max_retries video_id todo w) = Ok None
    /\ failed_file (snd (attempts env max_retries video_id todo w))
       = failed_file w.
Proof.
  intros Hup. induction todo as [|attempt rest IH]; intros w; simpl.
  - split; reflexivity.
  - assert (Hone : exists w1,
      attempt_once env max_retries video_id attempt w = (Ok None, w1)
      /\ failed_file w1 = failed_file w).
    { unfold attempt_once, try_catch.
      unfold mbind at 1. rewrite notebook_load_status_spec.
      set (st := match status_file w with Holds st => st | _ => default_status end).
      destruct (notebook_enforce_rate_limit_spec st w) as (t & Hr & _ & Hff & _).
      cbn zeta in Hr, Hff. unfold mbind at 1.
      destruct (enforce_rate_limit env st w) as [r w2]. cbn [fst snd] in Hr, Hff.
      subst r. unfold mbind at 1, call_upstream at 1.
      destruct (Hup (length (requests w2))) as [msg ->].
      cbn. eexists. split; [reflexivity|]. cbn. exact Hff. }
    destruct Hone as (w1 & Hone & Hff).
    rewrite (mbind_ok _ _ _ _ _ Hone).
    destruct (IH w1) as [Hr Hf]. split; [exact Hr | congruence].
Qed.

(** The sibling branch does record the id: when every call fails with
    such an exception, the turn of the last attempt writes the id to the
    failed-videos file. *)
Lemma attempt_once_transient (max_retries : nat) (video_id : string)
    (attempt : nat) (w : World JobStatus) :
  (forall n, exists e, upstream env n video_id = Raise e /\ transient e) ->
  exists w1,
    attempt_once env max_retries video_id attempt w = (Ok None, w1)
    /\ failed_file w1
       = if (attempt =? max_retries - 1)%nat
         then append_line (failed_file w) video_id
         else failed_file w.
Proof.
  intros Hup. unfold attempt_once, try_catch.
  unfold mbind at 1. rewrite notebook_load_status_spec.
  set (st := match status_file w with Holds st => st | _ => default_status end).
  destruct (notebook_enforce_rate_limit_spec st w) as (t & Hr & _ & Hff & _).
  cbn zeta in Hr, Hff. unfold mbind at 1.
  destruct (enforce_rate_limit env st w) as [r w2]. cbn [fst snd] in Hr, Hff.
  subst r. unfold mbind at 1, call_upstream at 1.
  destruct (Hup (length (requests w2))) as (e & -> & He).
  rewrite <- Hff.
  destruct e; try contradiction; unfold mbind, log_error, log_failed_video,
    random_uniform, sleep, ret; cbn [fst snd];
    destruct (attempt =? max_retries - 1)%nat;
    destruct (attempt <? max_retries - 1)%nat;
    eexists; split; reflexivity.
Qed.

Lemma attempts_transient (max_retries : nat) (video_id : string) :
  (forall n, exists e, upstream env n video_id = Raise e /\ transient e) ->
  forall (count first : nat) (w : World JobStatus),
    (first + S count = max_retries)%nat ->
    fst (attempts env max_retries video_id (seq first (S count)) w) = Ok None
    /\ failed_file (snd (attempts env max_retries video_id
                           (seq first (S count)) w))
       = append_line (failed_file w) video_id.
Proof.
  intros Hup. induction count as [|count IH]; intros first w Hsum.
  - cbn [seq attempts].
    destruct (attempt_once_transient max_retries video_id first w Hup)
      as (w1 & Hone & Hff).
    rewrite (mbind_ok _ _ _ _ _ Hone). cbn.
    replace (first =? max_retries - 1)%nat with true in Hff
      by (symmetry; apply Nat.eqb_eq; lia).
    split; [reflexivity | exact Hff].
  - change (seq first (S (S count))) with (first :: seq (S first) (S count)).
    cbn [attempts].
    destruct (attempt_once_transient max_retries video_id first w Hup)
      as (w1 & Hone & Hff).
    rewrite (mbind_ok _ _ _ _ _ Hone). cbn iota beta.
    replace (first =? max_retries - 1)%nat with false in Hff
      by (symmetry; apply Nat.eqb_neq; lia).
    rewrite <- Hff. apply IH. lia.
Qed.

End Facts.

Lemma notebook_reachable_consistent {F : Type} (w : World JobStatus) :
  @reachable F w -> consistent w.
Proof.
  induction 1 as [w0 Hf Hs | env n url w _ IH].
  - now apply notebook_initialize_consistent.
  - exact (notebook_process_video_consistent env n url w IH).
Qed.

End NotebookFacts.

(** ** The iteration planner *)

Module PlannerFacts.
Import Planner.

Example get_video_id_forms :
  get_video_id "https://www.youtube.com/watch?v=dQw4w9WgXcQ&t=1s"
  = Some "dQw4w9WgXcQ"
  /\ get_video_id "https://youtu.be/dQw4w9WgXcQ" = Some "dQw4w9WgXcQ"
  /\ get_video_id "https://www.youtube.com/embed/dQw4w9WgXcQ"
     = Some "dQw4w9WgXcQ"
  /\ get_video_id "dQw4w9WgXcQ" = Some "dQw4w9WgXcQ"
  /\ get_video_id "https://example.org/" = None
  /\ get_video_id "" = None.
Proof. repeat split; vm_compute; reflexivity. Qed.

(** The classes of the error log. *)
Example classify_lines :
  let none := mkCategories ∅ ∅ ∅ ∅ in
  rate_limited (classify none "[t] [dQw4w9WgXcQ] Failed: 429 Too Many Requests")
  = {["dQw4w9WgXcQ"]}
  /\ rate_limited (classify none "[t] [dQw4w9WgXcQ] too many requests")
     = {["dQw4w9WgXcQ"]}
  /\ no_subtitles
       (classify none "[t] [dQw4w9WgXcQ] Failed: yt-dlp error: No subtitles found for the specified language")
     = {["dQw4w9WgXcQ"]}
  /\ unavailable (classify none "[t] [dQw4w9WgXcQ] Video unavailable")
     = {["dQw4w9WgXcQ"]}
  /\ other (classify none "[t] [dQw4w9WgXcQ] Failed: timed out")
     = {["dQw4w9WgXcQ"]}
  /\ classify none "[t] [Invalid URL] https://example.org/" = none.
Proof. cbv zeta. repeat split; vm_compute; reflexivity. Qed.

Lemma stripped_lines_nonempty (lines : list string) (line : string) :
  line ∈ stripped_lines lines -> Py.nonempty line = true.
Proof.
  unfold stripped_lines. intros Hin. apply list_elem_of_filter in Hin. tauto.
Qed.

(** An id is among the originals exactly when a line of the input bears
    it. *)
Lemma originals_fold (l : list string) (acc : gset string) (id : string) :
  id ∈ fold_left
         (fun video_ids line =>
            match get_video_id line with
            | Some video_id =>
                if Py.nonempty video_id then video_ids ∪ {[video_id]}
                else video_ids
            | None => video_ids
            end) l acc
  <-> id ∈ acc \/ exists line, line ∈ l /\ get_video_id line = Some id
                                /\ Py.nonempty id = true.
Proof.
  revert acc. induction l as [|x l IH]; intros acc; simpl.
  - split; [tauto|]. intros [?|(line & Hin & _)]; [assumption|].
    now apply not_elem_of_nil in Hin.
  - rewrite IH. split.
    + intros [Hacc|(line & Hin & Hg & Hn)].
      * destruct (get_video_id x) as [v|] eqn:E; [|tauto].
        destruct (Py.nonempty v) eqn:En; [|tauto].
        apply elem_of_union in Hacc as [?|Hs]; [tauto|].
        apply elem_of_singleton in Hs. subst v.
        right. exists x. split; [apply list_elem_of_here | tauto].
      * right. exists line. split; [now apply list_elem_of_further | tauto].
    + intros [Hacc|(line & Hin & Hg & Hn)].
      * left. destruct (get_video_id x) as [v|]; [|assumption].
        destruct (Py.nonempty v); [|assumption].
        apply elem_of_union. now left.
      * apply elem_of_cons in Hin as [->|Hin].
        -- left. rewrite Hg, Hn. apply elem_of_union. right.
           now apply elem_of_singleton.
        -- right. exists line. tauto.
Qed.

(** The dict maps an id to a line that bears it, and has every id some
    line bears. *)
Lemma urls_fold (l : list string) (m : gmap string string) (id : string) :
  let m' := fold_left
              (fun m line =>
                 match get_video_id line with
                 | Some video_id =>
                     if Py.nonempty video_id then <[video_id := line]> m else m
                 | None => m
                 end) l m in
  (forall url, m' !! id = Some url ->
     m !! id = Some url \/ (url ∈ l /\ get_video_id url = Some id))
  /\ (is_Some (m !! id)
      \/ (exists line, line ∈ l /\ get_video_id line = Some id
                       /\ Py.nonempty id = true) ->
      is_Some (m' !! id)).
Proof.
  cbn zeta. revert m. induction l as [|x l IH]; intros m; simpl.
  - split; [tauto|]. intros [?|(line & Hin & _)]; [assumption|].
    now apply not_elem_of_nil in Hin.
  - destruct (IH (match get_video_id x with
                  | Some video_id =>
                      if Py.nonempty video_id then <[video_id := x]> m else m
                  | None => m
                  end)) as [IH1 IH2].
    split.
    + intros url Hurl. specialize (IH1 url Hurl) as [Hm|[Hin Hg]].
      * destruct (get_video_id x) as [v|] eqn:E; [|tauto].
        destruct (Py.nonempty v); [|tauto].
        destruct (decide (v = id)) as [->|Hne].
        -- rewrite lookup_insert_eq in Hm. injection Hm as <-.
           right. split; [apply list_elem_of_here | exact E].
        -- rewrite lookup_insert_ne in Hm by exact Hne. tauto.
      * right. split; [now apply list_elem_of_further | exact Hg].
    + intros [Hs|(line & Hin & Hg & Hn)]; apply IH2.
      * left. destruct (get_video_id x) as [v|]; [|exact Hs].
        destruct (Py.nonempty v); [|exact Hs].
        destruct (decide (v = id)) as [->|Hne].
        -- rewrite lookup_insert_eq. eauto.
        -- rewrite lookup_insert_ne by exact Hne. exact Hs.
      * apply elem_of_cons in Hin as [->|Hin].
        -- left. rewrite Hg, Hn, lookup_insert_eq. eauto.
        -- right. exists line. tauto.
Qed.

(** Every id to retry gets one line, a line of the input that bears it. *)
Lemma written_lines_spec (lines : list string) (ids : list string) :
  (forall id, id ∈ ids ->
     exists line, line ∈ stripped_lines lines
                  /\ get_video_id line = Some id /\ Py.nonempty id = true) ->
  let written :=
    flat_map
      (fun video_id =>
         match video_id_to_url lines !! video_id with
         | Some url => if Py.nonempty url then [url] else []
         | None => []
         end) ids in
  length written = length ids
  /\ (forall line, line ∈ written ->
        line ∈ stripped_lines lines
        /\ exists id, id ∈ ids /\ get_video_id line = Some id)
  /\ (forall id, id ∈ ids ->
        exists line, line ∈ written /\ get_video_id line = Some id).
Proof.
  cbn zeta. induction ids as [|id ids IH]; intros Hids.
  - simpl. split; [reflexivity|]. split.
    + intros line Hin. now apply not_elem_of_nil in Hin.
    + intros id Hin. now apply not_elem_of_nil in Hin.
  - destruct IH as (IHlen & IHsub & IHall).
    { intros id' Hin. apply Hids. now apply list_elem_of_further. }
    destruct (urls_fold (stripped_lines lines) ∅ id) as [Hsome Hhas].
    fold (video_id_to_url lines) in Hsome, Hhas.
    destruct Hhas as [url Hurl].
    { right. apply Hids. apply list_elem_of_here. }
    destruct (Hsome url Hurl) as [Hempty|[Hin Hg]].
    { rewrite lookup_empty in Hempty. discriminate. }
    cbn [flat_map]. rewrite Hurl, (stripped_lines_nonempty lines url Hin).
    cbn [app length]. split; [now f_equal|]. split.
    + intros line Hl. apply elem_of_cons in Hl as [->|Hl].
      * split; [exact Hin|]. exists id. split; [apply list_elem_of_here | exact Hg].
      * destruct (IHsub line Hl) as (Hs & id' & Hid' & Hg').
        split; [exact Hs|]. exists id'.
        split; [now apply list_elem_of_further | exact Hg'].
    + intros id' Hid'. apply elem_of_cons in Hid' as [->|Hid'].
      * exists url. split; [apply list_elem_of_here | exact Hg].
      * destruct (IHall id' Hid') as (line & Hl & Hg').
        exists line. split; [now apply list_elem_of_further | exact Hg'].
Qed.

(** What [get_video_id] answers has eleven characters. *)
Lemma search_length (before after s group : string) :
  search before after s = Some group -> String.length group = 11%nat.
Proof.
  induction s as [|c s IH]; simpl.
  - unfold match_here.
    destruct (Py.starts_with before EmptyString); [|discriminate].
    destruct (_ && _) eqn:E; [|discriminate].
    intros Hg. injection Hg as <-.
    apply andb_true_iff in E as [E _]. apply andb_true_iff in E as [E _].
    now apply Nat.eqb_eq in E.
  - unfold match_here at 1.
    destruct (Py.starts_with before (String c s)); [|exact IH].
    destruct (_ && _) eqn:E; [|exact IH].
    intros Hg. injection Hg as <-.
    apply andb_true_iff in E as [E _]. apply andb_true_iff in E as [E _].
    now apply Nat.eqb_eq in E.
Qed.

Lemma get_video_id_length (url id : string) :
  get_video_id url = Some id -> String.length id = 11%nat.
Proof.
  unfold get_video_id. destruct (negb (Py.nonempty url)); [discriminate|].
  destruct (_ && _) eqn:E.
  - intros Hg. injection Hg as <-.
    apply andb_true_iff in E as [E _]. now apply Nat.eqb_eq in E.
  - clear E. generalize patterns. intros ps. induction ps as [|p ps IH]; simpl.
    + discriminate.
    + destruct (search p EmptyString url) eqn:Es; [|exact IH].
      intros Hg. injection Hg as <-. eapply search_length, Es.
Qed.

Lemma get_video_id_nonempty (url id : string) :
  get_video_id url = Some id -> Py.nonempty id = true.
Proof.
  intros Hg. apply get_video_id_length in Hg. destruct id; [discriminate|reflexivity].
Qed.

(** The originals are the ids the lines of the input bear. *)
Lemma originals_spec (fs : Files) (lines : list string) (id : string) :
  yt_file fs = Some lines ->
  id ∈ get_all_original_videos fs
  <-> exists line, line ∈ stripped_lines lines /\ get_video_id line = Some id.
Proof.
  intros Hy. unfold get_all_original_videos. rewrite Hy, originals_fold.
  split.
  - intros [Hin|(line & Hin & Hg & _)]; [now apply not_elem_of_empty in Hin|].
    eauto.
  - intros (line & Hin & Hg). right. exists line.
    split; [exact Hin|]. split; [exact Hg|]. eapply get_video_id_nonempty, Hg.
Qed.

End PlannerFacts.

(** ** The claims on the pipeline *)

Module PipelineTheorems.
Import Samples Runs Rational.

(** The rate limiter, taken alone, waits as it should: against the
    request time of the dict it is given, the clock has advanced by the
    computed delay when it returns. *)
Lemma enforce_rate_limit_waits (env : Env (option Transcriber.Info))
    (status : Transcriber.JobStatus) (w : World Transcriber.JobStatus)
    (last : Q) :
  Transcriber.has_last_request status = Some last ->
  let delay :=
    if ((Transcriber.processed_count status mod 10 =? 0)%Z
        && (Transcriber.processed_count status >? 0)%Z)
    then (Transcriber.BASE_DELAY * 2 + uniform env (draws w) 30 60)%Q
    else (Transcriber.BASE_DELAY + uniform env (draws w) 10 20)%Q in
  (last + delay <= clock (snd (Transcriber.enforce_rate_limit env status w)))%Q.
Proof.
  intros Hl. cbn zeta.
  unfold Transcriber.enforce_rate_limit, mbind, time, random_uniform, ret, sleep.
  rewrite Hl. cbn [fst snd].
  destruct ((Transcriber.processed_count status mod 10 =? 0)%Z
            && (Transcriber.processed_count status >? 0)%Z); cbn [fst snd];
    match goal with |- context [Qlt_bool ?a ?b] => destruct (Qlt_bool a b) eqn:E end;
    cbn; try (rewrite Qred_correct; lra);
    unfold Qlt_bool in E; apply negb_false_iff, Qle_bool_iff in E; lra.
Qed.

(** C1. Two ids processed in a row from a fresh folder, captions found
    for both, each call taking one second: the second request is issued
    one second after the first, far below the smallest delay the limiter
    computes, and the status file ends without a request time.  The
    history of the status file shows why: each time stamped by
    [enforce_rate_limit] is overwritten by the next save, that of
    [process_video], which writes the dict it loaded before the
    attempt. *)
Theorem rate_limit_request_time_lost :
  let w := snd (Transcriber.main no_tags no_json show_seconds with_captions
                  [video_a; video_b] (fresh_world 1000)) in
  requests w = [(1000%Q, video_a); (1001%Q, video_b)]
  /\ (1001 - 1000 < Transcriber.BASE_DELAY + 10)%Q
  /\ map Transcriber.last_request_time (saves w)
     = [None; None; Some 1000%Q; None; None; Some 1001%Q; None]
  /\ status_file w
     = Holds (Transcriber.mkStatus [video_a; video_b] [] None 0 2).
Proof.
  cbv zeta. split; [vm_compute; reflexivity|].
  split; [reflexivity|]. split; vm_compute; reflexivity.
Qed.

(** C2. In every world reached from a folder without a status file by
    calls of [process_video], every document that was written to the
    status file, and the one it holds, have no id in both lists; this for
    either script. *)
Theorem completed_pending_disjoint :
  (forall (F : Type) (HF : PyFloat F) (w : World Transcriber.JobStatus),
     Invariants.T.reachable w ->
     Forall Invariants.T.disjoint (saves w)
     /\ match status_file w with
        | Holds st => Invariants.T.disjoint st
        | _ => True
        end)
  /\ (forall (F : Type) (w : World Notebook.JobStatus),
        @Invariants.N.reachable F w ->
        Forall Invariants.N.disjoint (saves w)
        /\ match status_file w with
           | Holds st => Invariants.N.disjoint st
           | _ => True
           end).
Proof.
  split.
  - intros F HF w Hr. apply TranscriberFacts.reachable_consistent in Hr.
    destruct Hr as [Hf Hs]. split; [exact Hs|].
    destruct (status_file w); try exact I. apply Hf.
  - intros F w Hr. apply NotebookFacts.notebook_reachable_consistent in Hr.
    destruct Hr as [Hf Hs]. split; [exact Hs|].
    destruct (status_file w); try exact I. apply Hf.
Qed.

(** C2 after one video processed from a fresh folder, in either
    script. *)
Lemma completed_pending_disjoint_witness :
  (let w := snd (Transcriber.process_video no_tags no_json show_seconds
                   with_captions video_a
                   (snd (Transcriber.initialize (fresh_world 1000)))) in
   Forall Invariants.T.disjoint (saves w)
   /\ match status_file w with
      | Holds st => Invariants.T.disjoint st
      | _ => True
      end)
  /\ (let w := snd (Notebook.process_video_with rate_limited 1 video_a
                      (snd (Notebook.initialize (fresh_world 1000)))) in
      Forall Invariants.N.disjoint (saves w)
      /\ match status_file w with
         | Holds st => Invariants.N.disjoint st
         | _ => True
         end).
Proof.
  split; cbv zeta.
  - apply (proj1 completed_pending_disjoint Q Q_float).
    apply Invariants.T.reach_process_video, Invariants.T.reach_initialize;
      reflexivity.
  - apply (proj2 completed_pending_disjoint Q).
    apply Invariants.N.reach_process_video, Invariants.N.reach_initialize;
      reflexivity.
Defined.

(** C3 fails: a save stopped between its two writes leaves a status file
    that holds neither the new status nor the prior one, and the next
    load answers the fresh default, which is neither of them.  The id
    that was completed before the save is then fetched again, while on
    the prior state it is passed over. *)
Lemma save_status_interrupted_loses_both :
  let w' := save_status_interrupted 1 two_done world_one_done in
  let again w :=
    requests (snd (Transcriber.process_video no_tags no_json show_seconds
                     with_captions video_a w)) in
  status_file w' <> Holds two_done
  /\ status_file w' <> status_file world_one_done
  /\ fst (Transcriber.load_status w') = Ok Transcriber.default_status
  /\ Transcriber.default_status <> one_done
  /\ Transcriber.default_status <> two_done
  /\ again world_one_done = []
  /\ again w' = [(1000%Q, video_a)].
Proof.
  cbv zeta.
  repeat split; try discriminate; try reflexivity; vm_compute; reflexivity.
Qed.

(** C3, as the code has it.  A save overwrites the status file in place:
    the file is emptied, then the document is written.  A save that runs
    to its end persists the new status in full, and it is read back; a
    save stopped after the first write leaves an empty file, which is not
    read back as a document: the load answers the fresh default. *)
Theorem save_status_in_place :
  (forall (S : Type) (status : S) (w : World S),
     save_status_interrupted 0 status w = w
     /\ status_file (save_status_interrupted 1 status w) = Unreadable EmptyString
     /\ fst (read_status_file (save_status_interrupted 1 status w))
        = Raise JSONDecodeError
     /\ (forall k, save_status_interrupted (2 + k) status w
                   = snd (save_status status w))
     /\ status_file (snd (save_status status w)) = Holds status
     /\ fst (read_status_file (snd (save_status status w))) = Ok status)
  /\ (forall status w,
        fst (Transcriber.load_status (snd (save_status status w))) = Ok status
        /\ fst (Transcriber.load_status (save_status_interrupted 1 status w))
           = Ok Transcriber.default_status)
  /\ (forall status w,
        fst (Notebook.load_status (snd (save_status status w))) = Ok status
        /\ fst (Notebook.load_status (save_status_interrupted 1 status w))
           = Ok Notebook.default_status).
Proof.
  split; [|split].
  - intros S status w. repeat split. intros k. destruct k; reflexivity.
  - intros status w. split; reflexivity.
  - intros status w. split; reflexivity.
Qed.

(** C4. Every call answered with HTTP 429, from a fresh folder: the
    budget is used up and nothing is returned, the id is cleared from
    [pending], yet the failed-videos file stays empty, and processing
    the same id again calls the upstream service again. *)
Theorem rate_limited_item_not_recorded :
  let w0 := snd (Notebook.initialize (fresh_world 1000)) in
  let w1 := snd (Notebook.process_video rate_limited video_a w0) in
  let w2 := snd (Notebook.process_video rate_limited video_a w1) in
  fst (Notebook.process_video rate_limited video_a w0) = Ok false
  /\ failed_file w1 = Some []
  /\ status_file w1 = Holds (Notebook.mkStatus [] [] None)
  /\ map snd (requests w1) = [video_a]
  /\ map snd (requests w2) = [video_a; video_a].
Proof. cbv zeta. repeat split; vm_compute; reflexivity. Qed.

(** The same for any budget and any outside that answers every call for
    this id with HTTP 429. *)
Lemma extract_transcript_rate_limited {F : Type} (env : Env (list (Entry F)))
    (max_retries : nat) (video_id : string) (w : World Notebook.JobStatus) :
  (forall n, exists msg, upstream env n video_id = Raise (HTTPError 429 msg)) ->
  fst (Notebook.extract_transcript_with env max_retries video_id w) = Ok None
  /\ failed_file (snd (Notebook.extract_transcript_with env max_retries video_id w))
     = failed_file w.
Proof.
  intros Hup. unfold Notebook.extract_transcript_with, mbind, is_video_failed.
  destruct (failed_file w) as [lines|] eqn:Ef.
  - destruct (Py.mem video_id (map Py.strip lines)).
    + split; [reflexivity | exact Ef].
    + rewrite <- Ef. now apply NotebookFacts.attempts_rate_limited.
  - rewrite <- Ef. now apply NotebookFacts.attempts_rate_limited.
Qed.

(** C5, as the code has it.  An id without blanks at its ends that is a
    line of the failed-videos file is skipped by [extract_transcript] in
    either script: nothing is returned and the world is left as it was,
    so no upstream call is made and no status is written; the file is
    read at each call, whatever else the world holds. *)
Theorem failed_video_is_skipped (video_id : string) (lines : list string) :
  video_id ∈ lines ->
  Py.strip video_id = video_id ->
  (forall (F : Type) (HF : PyFloat F) find_all_text json_loads
          (env : Env (option Transcriber.Info))
          (w : World Transcriber.JobStatus),
     failed_file w = Some lines ->
     Transcriber.extract_transcript find_all_text json_loads env video_id w
     = (Ok None, w))
  /\ (forall (F : Type) (env : Env (list (Entry F))) (max_retries : nat)
             (w : World Notebook.JobStatus),
        failed_file w = Some lines ->
        Notebook.extract_transcript_with env max_retries video_id w
        = (Ok None, w)).
Proof.
  intros Hin Hstrip.
  assert (Hm : Py.mem video_id (map Py.strip lines) = true).
  { apply mem_true. rewrite <- Hstrip. apply list_elem_of_fmap.
    exists video_id. split; [reflexivity | exact Hin]. }
  split.
  - intros F HF fa jl env w Hf.
    now apply (TranscriberFacts.extract_transcript_failed fa jl env video_id w lines).
  - intros F env n w Hf.
    now apply (NotebookFacts.notebook_extract_transcript_failed env n video_id w lines).
Qed.

(** C5 at the first call of a process whose failed-videos file has the
    id among others. *)
Lemma failed_video_is_skipped_witness :
  let lines := [video_b; video_a] in
  let w : World Transcriber.JobStatus :=
    mkWorld Absent (Some lines) None [] 1000 0 [] true [] in
  Transcriber.extract_transcript no_tags no_json with_captions video_a w
  = (Ok None, w).
Proof.
  cbv zeta.
  apply (proj1 (failed_video_is_skipped video_a [video_b; video_a]
                  ltac:(apply list_elem_of_further, list_elem_of_here)
                  eq_refl) Q Q_float).
  reflexivity.
Defined.

(** C5 fails for an id with a blank at an end.  The input line below
    gives such an id; when the service knows nothing of it,
    [process_video] writes it to the failed-videos file as it is.  The
    id is then a line of the file, yet [extract_transcript] does not
    find it there, since it compares with the lines stripped: it claims
    a request slot, saves the status and calls the service again. *)
Lemma failed_video_with_blank_is_fetched :
  let video_url := "https://youtu.be/AAAA ?t=1" in
  let video_id := "AAAA " in
  let unknown : Env (option Transcriber.Info) := always (Ok None) in
  let w := snd (Transcriber.process_video no_tags no_json show_seconds
                  unknown video_url
                  (snd (Transcriber.initialize (fresh_world 1000)))) in
  let run := Transcriber.extract_transcript no_tags no_json with_captions
               video_id w in
  get_video_id video_url = Some video_id
  /\ failed_file w = Some [video_id]
  /\ video_id ∈ [video_id]
  /\ fst (is_video_failed video_id w) = Ok false
  /\ fst run
     = Ok (Some [mkEntry "hello" 1%Q (3 # 2)%Q;
                 mkEntry "hello" (5 # 2)%Q (1 # 2)%Q])
  /\ map snd (requests w) = [video_id]
  /\ map snd (requests (snd run)) = [video_id; video_id]
  /\ length (saves (snd run)) = S (length (saves w))
  /\ run <> (Ok None, w).
Proof.
  cbv zeta. split; [reflexivity|]. split; [vm_compute; reflexivity|].
  split; [apply list_elem_of_here|]. split; [vm_compute; reflexivity|].
  split; [vm_compute; reflexivity|]. split; [vm_compute; reflexivity|].
  split; [vm_compute; reflexivity|]. split; [vm_compute; reflexivity|].
  intros Heq. apply (f_equal fst) in Heq. vm_compute in Heq. discriminate.
Qed.

(** The default of either script is the document of its fresh status,
    and its lists are empty. *)
Lemma default_documents :
  Transcriber.document_of Transcriber.default_status
  = Transcriber.default_document
  /\ Notebook.document_of Notebook.default_status = Notebook.default_document
  /\ PyObj.getitem (@Transcriber.default_document Q) "completed" = Ok (JArr [])
  /\ PyObj.getitem (@Transcriber.default_document Q) "pending" = Ok (JArr [])
  /\ PyObj.getitem (@Notebook.default_document Q) "completed" = Ok (JArr [])
  /\ PyObj.getitem (@Notebook.default_document Q) "pending" = Ok (JArr []).
Proof. repeat split. Qed.

(** [load_status] on any content: it never raises; a document is
    answered as it is, anything else gives the default. *)
Lemma load_status_cases {F : Type} (json_load : string -> result (json F))
    (default : json F) (content : result string) :
  exists v,
    StatusFile.load_status json_load default content = Ok v
    /\ (forall text doc,
          content = Ok text -> json_load text = Ok doc -> v = doc)
    /\ (forall e, content = Raise e -> v = default)
    /\ (forall text e,
          content = Ok text -> json_load text = Raise e -> v = default).
Proof.
  unfold StatusFile.load_status, try_except, any_exn.
  destruct content as [text|e]; cbn [bind].
  - destruct (json_load text) as [doc|e] eqn:Ed.
    + exists doc. split; [reflexivity|]. split; [|split].
      * intros text' doc' Ht Hd. injection Ht as <-. congruence.
      * discriminate.
      * intros text' e Ht Hd. injection Ht as <-. congruence.
    + exists default. split; [reflexivity|]. split; [|split]; try reflexivity.
      intros text' doc' Ht Hd. injection Ht as <-. congruence.
  - exists default. split; [reflexivity|]. split; [|split]; try reflexivity.
    discriminate.
Qed.

(** On a file of the pipeline, the load of the pipeline answers the
    status whose document [load_status] answers. *)
Lemma load_status_denotes (json_load : string -> result (json Q))
    (content : result string) :
  (forall w : World Transcriber.JobStatus,
     StatusFile.denotes json_load Transcriber.document_of (status_file w)
       content ->
     exists st,
       Transcriber.load_status w = (Ok st, w)
       /\ StatusFile.load_status json_load Transcriber.default_document
            content = Ok (Transcriber.document_of st))
  /\ (forall w : World Notebook.JobStatus,
        StatusFile.denotes json_load Notebook.document_of (status_file w)
          content ->
        exists st,
          Notebook.load_status w = (Ok st, w)
          /\ StatusFile.load_status json_load Notebook.default_document
               content = Ok (Notebook.document_of st)).
Proof.
  split; intros w Hd; eexists;
    (rewrite TranscriberFacts.load_status_spec
     || rewrite NotebookFacts.notebook_load_status_spec);
    (split; [reflexivity|]);
    unfold StatusFile.denotes in Hd; unfold StatusFile.load_status;
    destruct (status_file w) as [|raw|st].
  all: try (rewrite Hd; reflexivity).
  all: try (destruct Hd as [-> Hraw]; cbn [bind]; rewrite Hraw; reflexivity).
  all: destruct Hd as (text & -> & Htext); cbn [bind]; rewrite Htext;
    reflexivity.
Qed.

(** C10, as the code has it.  [load_status] never raises, in either
    script and on every content of the status file.  When the file
    cannot be read or its text is no JSON document (missing, empty, cut
    short), the answer is the fresh default, whose lists are empty: on
    the files of the pipeline the status answered counts no id as
    completed.  When the text is a JSON document, the answer is that
    document as it is, whatever its shape. *)
Theorem load_status_total :
  (forall (F : Type) (json_load : string -> result (json F))
          (default : json F) (content : result string),
     exists v,
       StatusFile.load_status json_load default content = Ok v
       /\ (forall text doc,
             content = Ok text -> json_load text = Ok doc -> v = doc)
       /\ (forall e, content = Raise e -> v = default)
       /\ (forall text e,
             content = Ok text -> json_load text = Raise e -> v = default))
  /\ (PyObj.getitem (@Transcriber.default_document Q) "completed"
      = Ok (JArr [])
      /\ PyObj.getitem (@Transcriber.default_document Q) "pending"
         = Ok (JArr [])
      /\ PyObj.getitem (@Notebook.default_document Q) "completed"
         = Ok (JArr [])
      /\ PyObj.getitem (@Notebook.default_document Q) "pending"
         = Ok (JArr []))
  /\ (forall w : World Transcriber.JobStatus,
        exists st,
          Transcriber.load_status w = (Ok st, w)
          /\ match status_file w with
             | Holds doc => st = doc
             | _ => st = Transcriber.default_status
                    /\ Transcriber.document_of st
                       = Transcriber.default_document
                    /\ Transcriber.completed st = []
                    /\ Transcriber.pending st = []
                    /\ forall id, Py.mem id (Transcriber.completed st) = false
             end)
  /\ (forall w : World Notebook.JobStatus,
        exists st,
          Notebook.load_status w = (Ok st, w)
          /\ match status_file w with
             | Holds doc => st = doc
             | _ => st = Notebook.default_status
                    /\ Notebook.document_of st = Notebook.default_document
                    /\ Notebook.completed st = []
                    /\ Notebook.pending st = []
                    /\ forall id, Py.mem id (Notebook.completed st) = false
             end).
Proof.
  split; [intros F json_load default content; apply load_status_cases|].
  split; [repeat split|].
  split; intros w; eexists.
  - rewrite TranscriberFacts.load_status_spec. split; [reflexivity|].
    destruct (status_file w); repeat split.
  - rewrite NotebookFacts.notebook_load_status_spec. split; [reflexivity|].
    destruct (status_file w); repeat split.
Qed.

(** C10 fails for a status file that holds a JSON document of another
    shape, here the empty list: [load_status] answers the list, which is
    the document of no status, and the first use [process_video] makes
    of it, [status['completed']], raises. *)
Lemma load_status_answers_any_document :
  StatusFile.load_status decode_list Transcriber.default_document (Ok "[]")
  = Ok (JArr [])
  /\ StatusFile.load_status decode_list Notebook.default_document (Ok "[]")
     = Ok (JArr [])
  /\ (forall st, Transcriber.document_of st <> JArr [])
  /\ (forall st, Notebook.document_of st <> JArr [])
  /\ PyObj.getitem (JArr [] : json Q) "completed" = Raise TypeError.
Proof. repeat split; discriminate. Qed.

End PipelineTheorems.

(** * Further properties *)

(** ** More rules: what a primitive leaves alone *)

Module Frame.
Import Logic.

Section Primitives.
Context {S Payload X : Type} (env : Env Payload) (proj : World S -> X).

(** What does not depend on the clock is kept by a sleep, and so on for
    each primitive and the one field it writes. *)
Lemma sleep_keeps (d : Q) :
  (forall t w, proj (set_clock t w) = proj w) -> keeps proj (sleep d).
Proof. intros Hp w. apply Hp. Qed.

Lemma random_uniform_keeps (a b : Q) :
  (forall n w, proj (set_draws n w) = proj w) ->
  keeps proj (random_uniform env a b).
Proof. intros Hp w. apply Hp. Qed.

Lemma log_error_keeps (m : string) :
  (forall f w, proj (set_error_log f w) = proj w) ->
  keeps proj (log_error env m).
Proof. intros Hp w. apply Hp. Qed.

Lemma log_failed_video_keeps (v : string) :
  (forall f w, proj (set_failed_file f w) = proj w) ->
  keeps proj (log_failed_video v).
Proof. intros Hp w. apply Hp. Qed.

Lemma save_status_keeps (st : S) :
  (forall f w, proj (set_status_file f w) = proj w) ->
  (forall s w, proj (record_save s w) = proj w) ->
  keeps proj (save_status st).
Proof.
  intros Hf Hs w. unfold save_status, run_steps, save_status_steps.
  cbn [fold_left snd]. unfold json_dump, open_truncate.
  rewrite Hs, Hf, Hf. reflexivity.
Qed.

Lemma call_upstream_keeps (v : string) :
  (forall t w, proj (set_clock t w) = proj w) ->
  (forall r w, proj (set_requests r w) = proj w) ->
  keeps proj (call_upstream env v).
Proof. intros Hc Hr w. unfold call_upstream. cbn [snd]. rewrite Hc, Hr. reflexivity. Qed.

End Primitives.

#[export] Hint Resolve sleep_keeps random_uniform_keeps log_error_keeps
  log_failed_video_keeps save_status_keeps call_upstream_keeps : keeps.
#[export] Hint Extern 1 (forall _ _, _ (_ _ _) = _ _) =>
  (intros; reflexivity) : keeps.

End Frame.

(** ** [youtube_transcriber.py]: what one call of [process_video] does *)

Module TranscriberSteps.
Import Transcriber Logic Frame Steps.T.

Section Facts.
Context {F : Type} `{PyFloat F}.
Variable find_all_text : string -> list TextTag.
Variable json_loads : string -> option (json F).
Variable format_timestamp : F -> result string.
Variable env : Env (option Info).

Lemma load_status_keeps {X} (proj : World JobStatus -> X) :
  keeps proj load_status.
Proof. intros w. rewrite TranscriberFacts.load_status_spec. reflexivity. Qed.

(** The rate limiter writes the clock, the draws and the status file,
    and nothing else. *)
Lemma enforce_rate_limit_keeps {X} (proj : World JobStatus -> X)
    (status : JobStatus) :
  (forall t w, proj (set_clock t w) = proj w) ->
  (forall n w, proj (set_draws n w) = proj w) ->
  (forall f w, proj (set_status_file f w) = proj w) ->
  (forall s w, proj (record_save s w) = proj w) ->
  keeps proj (enforce_rate_limit env status).
Proof.
  intros Hc Hd Hf Hs. unfold enforce_rate_limit.
  apply keeps_bind.
  - destruct (has_last_request status); [|eauto with keeps].
    apply keeps_bind; [eauto with keeps|]. intros now.
    apply keeps_bind.
    + destruct (_ && _); eauto with keeps.
    + intros delay. destruct (Qlt_bool _ _); eauto with keeps.
  - intros _. apply keeps_bind; [eauto with keeps|]. intros now.
    eauto with keeps.
Qed.

(** [extract_transcript] leaves alone what depends neither on the clock,
    the draws, the status file, the requests, the cookies, the log nor
    the failed-videos file. *)
Lemma extract_transcript_keeps {X} (proj : World JobStatus -> X)
    (video_id : string) :
  (forall t w, proj (set_clock t w) = proj w) ->
  (forall n w, proj (set_draws n w) = proj w) ->
  (forall f w, proj (set_status_file f w) = proj w) ->
  (forall s w, proj (record_save s w) = proj w) ->
  (forall r w, proj (set_requests r w) = proj w) ->
  (forall b w, proj (set_cookies_available b w) = proj w) ->
  (forall f w, proj (set_error_log f w) = proj w) ->
  (forall f w, proj (set_failed_file f w) = proj w) ->
  keeps proj (extract_transcript find_all_text json_loads env video_id).
Proof.
  intros Hc Hd Hf Hs Hr Hk He Hff. unfold extract_transcript.
  apply keeps_bind; [apply is_video_failed_keeps|].
  intros [|]; [apply keeps_ret|].
  apply keeps_catch.
  - apply keeps_bind; [apply load_status_keeps|]. intros status.
    apply keeps_bind; [now apply enforce_rate_limit_keeps|]. intros _.
    apply keeps_bind.
    + apply TranscriberFacts.get_transcript_ytdlp_keeps; [|exact Hk].
      intros v. now apply call_upstream_keeps.
    + intros [|e l]; eauto with keeps.
  - intros e.
    assert (Hlog : forall m,
      keeps proj
        (log_error env m ;;; log_failed_video video_id ;;;
         (ret None : M JobStatus (option (list (Entry F)))))).
    { intros m. apply keeps_bind; [now apply log_error_keeps|]. intros _.
      apply keeps_bind; [now apply log_failed_video_keeps|]. intros _.
      apply keeps_ret. }
    destruct e as [| | | | | | | |code msg| | | | |]; try apply Hlog.
    apply keeps_bind.
    + destruct (code =? 429)%Z; now apply log_error_keeps.
    + intros _. apply keeps_bind; [now apply log_failed_video_keeps|].
      intros _. apply keeps_ret.
Qed.

(** What [extract_transcript] returns is nothing or a transcript with
    at least one entry. *)
Lemma extract_transcript_nonempty (video_id : string) (w : World JobStatus)
    (transcript : list (Entry F)) :
  fst (extract_transcript find_all_text json_loads env video_id w)
  = Ok (Some transcript) ->
  transcript <> [].
Proof.
  unfold extract_transcript, mbind at 1, is_video_failed.
  destruct (failed_file w) as [lines|];
    [destruct (Py.mem video_id (map Py.strip lines)); [discriminate|]|];
    unfold try_catch, mbind at 1; rewrite TranscriberFacts.load_status_spec;
    unfold mbind at 1;
    destruct (enforce_rate_limit env _ w) as [[st'|e] w1];
    try (unfold mbind at 1;
         destruct (get_transcript_ytdlp find_all_text json_loads env video_id w1)
           as [[[|entry rest]|e] w2]);
    try (cbn; discriminate);
    try (cbn; intros Hr; injection Hr as <-; discriminate);
    try (destruct e as [| | | | | | | |code msg| | | | |]; cbn;
         try discriminate; destruct (code =? 429)%Z; discriminate).
Qed.

(** One run of the [try] body of [get_transcript_ytdlp] is one upstream
    call. *)
Lemma get_transcript_ytdlp_body_requests (video_id : string)
    (w : World JobStatus) :
  let w' := snd (get_transcript_ytdlp_body find_all_text json_loads env
                   video_id w) in
  requests w' = (requests w ++ [(clock w, video_id)])%list
  /\ cookies_available w' = cookies_available w.
Proof.
  cbv zeta. unfold get_transcript_ytdlp_body, mbind, call_upstream, lift, raise.
  destruct (upstream env (length (requests w)) video_id) as [[info|]|e];
    cbn [fst snd]; try (split; reflexivity).
  destruct (subtitles info) as [[sub_data|e]|]; cbn [fst snd];
    try (split; reflexivity).
  destruct (automatic_captions info) as [[sub_data|e]|]; cbn [fst snd];
    split; reflexivity.
Qed.

(** [get_transcript_ytdlp] calls the upstream service once, or twice
    when it held cookies and gave them up. *)
Lemma get_transcript_ytdlp_requests (video_id : string) (w : World JobStatus) :
  let w' := snd (get_transcript_ytdlp find_all_text json_loads env video_id w) in
  exists new,
    requests w' = (requests w ++ new)%list
    /\ Forall (fun r => snd r = video_id) new
    /\ (length new = 1%nat
        \/ (length new = 2%nat /\ cookies_available w = true
            /\ cookies_available w' = false)).
Proof.
  cbv zeta. unfold get_transcript_ytdlp, try_catch.
  destruct (get_transcript_ytdlp_body_requests video_id w) as [Hr Hk].
  destruct (get_transcript_ytdlp_body find_all_text json_loads env video_id w)
    as [[t|e] w1]; cbn [fst snd] in Hr, Hk |- *.
  - exists [(clock w, video_id)]. split; [exact Hr|].
    split; [repeat constructor | left; reflexivity].
  - destruct (Py.contains _ (exn_str e) && cookies_available w1) eqn:E.
    + apply andb_true_iff in E as [_ E]. rewrite Hk in E.
      unfold get_transcript_ytdlp_without_cookies, try_catch.
      destruct (get_transcript_ytdlp_body_requests video_id
                  (set_cookies_available false w1)) as [Hr2 Hk2].
      assert (Htwice : forall w2 : World JobStatus,
        requests w2
        = (requests (set_cookies_available false w1)
           ++ [(clock (set_cookies_available false w1), video_id)])%list ->
        cookies_available w2
        = cookies_available (set_cookies_available false w1) ->
        exists new,
          requests w2 = (requests w ++ new)%list
          /\ Forall (fun r => snd r = video_id) new
          /\ (length new = 1%nat
              \/ (length new = 2%nat /\ cookies_available w = true
                  /\ cookies_available w2 = false))).
      { intros w2 Hreq Hcook.
        exists [(clock w, video_id); (clock w1, video_id)].
        split.
        { rewrite Hreq. cbn [requests set_cookies_available].
          rewrite Hr, <- app_assoc. reflexivity. }
        split; [repeat constructor|].
        right. split; [reflexivity|]. split; [exact E | exact Hcook]. }
      destruct (get_transcript_ytdlp_body find_all_text json_loads env
                  video_id (set_cookies_available false w1))
        as [[t|e2] w2]; cbn [fst snd] in Hr2, Hk2 |- *;
        now apply Htwice.
    + exists [(clock w, video_id)]. split; [exact Hr|].
      split; [repeat constructor | left; reflexivity].
Qed.

(** A transcript that comes back was parsed from caption data. *)
Lemma get_transcript_ytdlp_body_parsed (video_id : string)
    (w : World JobStatus) (transcript : list (Entry F)) :
  fst (get_transcript_ytdlp_body find_all_text json_loads env video_id w)
  = Ok transcript ->
  exists sub_data,
    Subtitles.parse_subtitles find_all_text json_loads sub_data = Ok transcript.
Proof.
  unfold get_transcript_ytdlp_body, mbind, call_upstream, lift, raise.
  destruct (upstream env (length (requests w)) video_id) as [[info|]|e];
    cbn [fst snd]; try discriminate.
  destruct (subtitles info) as [[sub_data|e]|]; cbn [fst snd];
    try discriminate; [eauto|].
  destruct (automatic_captions info) as [[sub_data|e]|]; cbn [fst snd];
    try discriminate; eauto.
Qed.

Lemma get_transcript_ytdlp_parsed (video_id : string) (w : World JobStatus)
    (transcript : list (Entry F)) :
  fst (get_transcript_ytdlp find_all_text json_loads env video_id w)
  = Ok transcript ->
  exists sub_data,
    Subtitles.parse_subtitles find_all_text json_loads sub_data = Ok transcript.
Proof.
  unfold get_transcript_ytdlp, try_catch.
  pose proof (get_transcript_ytdlp_body_parsed video_id w transcript) as Hb.
  destruct (get_transcript_ytdlp_body find_all_text json_loads env video_id w)
    as [[t|e] w1]; cbn [fst snd] in Hb |- *; [exact Hb|].
  destruct (Py.contains _ (exn_str e) && cookies_available w1);
    [|discriminate].
  unfold get_transcript_ytdlp_without_cookies, try_catch.
  pose proof (get_transcript_ytdlp_body_parsed video_id
                (set_cookies_available false w1) transcript) as Hb2.
  destruct (get_transcript_ytdlp_body find_all_text json_loads env video_id
              (set_cookies_available false w1))
    as [[t|e2] w2]; cbn [fst snd] in Hb2 |- *; [exact Hb2 | discriminate].
Qed.

Lemma extract_transcript_parsed (video_id : string) (w : World JobStatus)
    (transcript : list (Entry F)) :
  fst (extract_transcript find_all_text json_loads env video_id w)
  = Ok (Some transcript) ->
  exists sub_data,
    Subtitles.parse_subtitles find_all_text json_loads sub_data = Ok transcript.
Proof.
  unfold extract_transcript, mbind at 1, is_video_failed.
  destruct (failed_file w) as [lines|];
    [destruct (Py.mem video_id (map Py.strip lines)); [discriminate|]|];
    unfold try_catch, mbind at 1; rewrite TranscriberFacts.load_status_spec;
    unfold mbind at 1;
    destruct (enforce_rate_limit env _ w) as [[st'|e] w1];
    try (unfold mbind at 1;
         pose proof (get_transcript_ytdlp_parsed video_id w1) as Hp;
         destruct (get_transcript_ytdlp find_all_text json_loads env video_id w1)
           as [[[|entry rest]|e] w2]; cbn [fst snd] in Hp);
    try (cbn; discriminate);
    try (cbn; intros Hr; injection Hr as <-; apply Hp; reflexivity);
    try (destruct e as [| | | | | | | |code msg| | | | |]; cbn;
         try discriminate; destruct (code =? 429)%Z; discriminate).
Qed.

(** [extract_transcript] calls the upstream service for its id only, at
    most once, or twice when cookies were held. *)
Lemma extract_transcript_requests (video_id : string) (w : World JobStatus) :
  let w' := snd (extract_transcript find_all_text json_loads env video_id w) in
  exists new,
    requests w' = (requests w ++ new)%list
    /\ Forall (fun r => snd r = video_id) new
    /\ (length new <= if cookies_available w then 2 else 1)%nat.
Proof.
  cbv zeta. unfold extract_transcript. unfold mbind at 1.
  destruct (is_video_failed video_id w) as [[[|]|e] w0] eqn:Ef.
  - assert (w0 = w) as ->.
    { revert Ef. unfold is_video_failed. destruct (failed_file w); congruence. }
    exists []. cbn. rewrite app_nil_r. repeat split; auto.
    destruct (cookies_available w); lia.
  - assert (w0 = w) as ->.
    { revert Ef. unfold is_video_failed. destruct (failed_file w); congruence. }
    unfold try_catch. unfold mbind at 1.
    rewrite TranscriberFacts.load_status_spec. unfold mbind at 1.
    destruct (TranscriberFacts.enforce_rate_limit_spec env
                match status_file w with Holds st => st | _ => default_status end
                w) as (t & Hok & _ & _ & _ & _ & Hreq & Hck & _).
    cbv zeta in Hok, Hreq, Hck.
    destruct (enforce_rate_limit env _ w) as [r1 w1].
    cbn [fst snd] in Hok, Hreq, Hck. subst r1. unfold mbind at 1.
    destruct (get_transcript_ytdlp_requests video_id w1)
      as (new & Hnew & Hall & Hlen).
    cbv zeta in Hnew, Hlen.
    assert (Hfinal : forall wf : World JobStatus,
      requests wf = requests (snd (get_transcript_ytdlp find_all_text
                                     json_loads env video_id w1)) ->
      exists new0,
        requests wf = (requests w ++ new0)%list
        /\ Forall (fun r => snd r = video_id) new0
        /\ (length new0 <= if cookies_available w then 2 else 1)%nat).
    { intros wf Hwf. exists new. rewrite Hwf, Hnew, Hreq.
      split; [reflexivity|]. split; [exact Hall|].
      destruct Hlen as [->|(-> & Hc & _)].
      - destruct (cookies_available w); lia.
      - rewrite <- Hck, Hc. lia. }
    destruct (get_transcript_ytdlp find_all_text json_loads env video_id w1)
      as [[[|entry rest]|e] w2]; cbn [fst snd] in Hfinal |- *;
      try (destruct e as [| | | | | | | |code msg| | | | |]);
      try (apply (Hfinal _); reflexivity);
      destruct (code =? 429)%Z; apply (Hfinal _); reflexivity.
  - exfalso. revert Ef. unfold is_video_failed.
    destruct (failed_file w); discriminate.
Qed.

(** One call of [process_video], case by case.  An input line without
    an id is logged and nothing else changes.  A completed id is passed
    over: the world is as it was.  Otherwise the call ends with one of
    two saves, both made from the status loaded at the start: the id
    cleared from [pending] when nothing was extracted, or the id
    completed, counted and cleared; the output file is then written, and
    the call answers True unless the writer raises. *)
Lemma process_video_cases (video_url : string) (w : World JobStatus) :
  let run := process_video find_all_text json_loads format_timestamp env
               video_url w in
  let st := loaded w in
  match get_video_id video_url with
  | None | Some EmptyString =>
      fst run = Ok false /\ store (snd run) = store w
      /\ requests (snd run) = requests w
      /\ failed_file (snd run) = failed_file w
  | Some video_id =>
      if Py.mem video_id (completed st) then run = (Ok true, w)
      else
        (fst run = Ok false
         /\ status_file (snd run) = Holds (release video_id (claim video_id st))
         /\ output_files (snd run) = output_files w)
        \/ (status_file (snd run)
            = Holds (complete video_id (claim video_id st))
            /\ exists transcript,
                 transcript <> []
                 /\ (exists sub_data,
                       Subtitles.parse_subtitles find_all_text json_loads
                         sub_data = Ok transcript)
                 /\ output_files (snd run)
                    = (video_id,
                       map record_line
                         (fst (write_records format_timestamp None transcript)))
                      :: output_files w
                 /\ fst run
                    = match snd (write_records format_timestamp None
                                   transcript) with
                      | Ok _ => Ok true
                      | Raise e => Raise e
                      end)
  end.
Proof.
  cbv zeta.
  remember (process_video find_all_text json_loads format_timestamp env
              video_url w) as run eqn:Hrun.
  unfold process_video in Hrun.
  destruct (get_video_id video_url) as [[|ch tl]|];
    [subst run; repeat split | | subst run; repeat split].
  set (video_id := String ch tl) in *.
  unfold mbind at 1 in Hrun. rewrite TranscriberFacts.load_status_spec in Hrun.
  fold (loaded w) in Hrun. set (st := loaded w) in *.
  destruct (Py.mem video_id (completed st)); [exact Hrun|].
  assert (Hmark : exists w1,
    (if negb (Py.mem video_id (pending st))
     then save_status (set_pending (pending st ++ [video_id]) st) ;;;
          ret (set_pending (pending st ++ [video_id]) st)
     else ret st) w = (Ok (claim video_id st), w1)
    /\ output_files w1 = output_files w).
  { unfold claim. destruct (Py.mem video_id (pending st)); cbn [negb];
      eexists; split; reflexivity. }
  destruct Hmark as (w1 & Hmark & Ho1).
  cbv zeta in Hrun. unfold mbind at 1 in Hrun. rewrite Hmark in Hrun.
  cbn iota beta in Hrun.
  set (st1 := claim video_id st) in *.
  destruct (TranscriberFacts.extract_transcript_returns find_all_text
              json_loads env video_id w1) as [transcript Hret].
  pose proof (extract_transcript_keeps (@output_files JobStatus) video_id
                ltac:(reflexivity) ltac:(reflexivity) ltac:(reflexivity)
                ltac:(reflexivity) ltac:(reflexivity) ltac:(reflexivity)
                ltac:(reflexivity) ltac:(reflexivity) w1) as Ho2.
  pose proof (extract_transcript_nonempty video_id w1) as Hne.
  pose proof (extract_transcript_parsed video_id w1) as Hparsed.
  unfold mbind at 1 in Hrun.
  destruct (extract_transcript find_all_text json_loads env video_id w1)
    as [r w2]. cbn [fst snd] in Hret, Ho2, Hne, Hparsed. subst r.
  destruct transcript as [[|entry rest]|].
  - exfalso. now apply (Hne [] eq_refl).
  - right. cbn [falsy default] in Hrun.
    unfold mbind, save_status, save_individual_transcript, random_uniform,
      sleep, ret in Hrun. cbn [fst snd] in Hrun. unfold id in Hrun.
    destruct (write_records format_timestamp None (entry :: rest))
      as [records [[]|e]] eqn:Ew; cbn [fst snd] in Hrun;
    try match type of Hrun with
    | context [(?a mod BATCH_SIZE =? 0)%Z] =>
        destruct (a mod BATCH_SIZE =? 0)%Z
    end; subst run; (split; [reflexivity|]);
      exists (entry :: rest); rewrite Ew; (split; [discriminate|]);
      (split; [apply Hparsed; reflexivity|]); cbn;
      rewrite Ho2, Ho1; split; reflexivity.
  - left. cbn [falsy] in Hrun. subst run.
    split; [reflexivity|]. split; [reflexivity|]. cbn. congruence.
Qed.

(** The same call as a sequence: the id is claimed, the transcript is
    extracted, and the status claimed at the start is saved again, with
    the id released or completed; [rest] is what follows the last save
    when a transcript was extracted (the output file and the pause of a
    full batch), and raises what the writer raises. *)
Lemma process_video_run (video_url video_id : string) (w : World JobStatus) :
  get_video_id video_url = Some video_id -> video_id <> EmptyString ->
  Py.mem video_id (completed (loaded w)) = false ->
  let st1 := claim video_id (loaded w) in
  let w1 := if Py.mem video_id (pending (loaded w)) then w
            else snd (save_status st1 w) in
  exists r w2,
    extract_transcript find_all_text json_loads env video_id w1 = (Ok r, w2)
    /\ match r with
       | None =>
           process_video find_all_text json_loads format_timestamp env
             video_url w
           = (Ok false, snd (save_status (release video_id st1) w2))
       | Some transcript =>
           transcript <> []
           /\ exists rest : M JobStatus unit,
                process_video find_all_text json_loads format_timestamp env
                  video_url w
                = (match snd (write_records format_timestamp None
                                transcript) with
                   | Ok _ => Ok true
                   | Raise e => Raise e
                   end,
                   snd (rest (snd (save_status (complete video_id st1) w2))))
                /\ keeps (@status_file JobStatus) rest
                /\ keeps (@requests JobStatus) rest
                /\ keeps (@failed_file JobStatus) rest
                /\ keeps (@saves JobStatus) rest
                /\ keeps (@error_log JobStatus) rest
                /\ forall w' : World JobStatus,
                     output_files (snd (rest w'))
                     = (video_id,
                        map record_line
                          (fst (write_records format_timestamp None
                                  transcript)))
                       :: output_files w'
       end.
Proof.
  intros Hid Hne Hc. cbv zeta.
  remember (process_video find_all_text json_loads format_timestamp env
              video_url w) as run eqn:Hrun.
  unfold process_video in Hrun. rewrite Hid in Hrun.
  destruct video_id as [|ch tl]; [congruence|].
  set (video_id := String ch tl) in *.
  unfold mbind at 1 in Hrun. rewrite TranscriberFacts.load_status_spec in Hrun.
  fold (loaded w) in Hrun. rewrite Hc in Hrun.
  assert (Hmark :
    (if negb (Py.mem video_id (pending (loaded w)))
     then save_status (set_pending (pending (loaded w) ++ [video_id]) (loaded w)) ;;;
          ret (set_pending (pending (loaded w) ++ [video_id]) (loaded w))
     else ret (loaded w)) w
    = (Ok (claim video_id (loaded w)),
       if Py.mem video_id (pending (loaded w)) then w
       else snd (save_status (claim video_id (loaded w)) w))).
  { unfold claim. destruct (Py.mem video_id (pending (loaded w))); reflexivity. }
  cbv zeta in Hrun. unfold mbind at 1 in Hrun. rewrite Hmark in Hrun.
  cbn iota beta in Hrun.
  set (w1 := if Py.mem video_id (pending (loaded w)) then w else _) in *.
  set (st1 := claim video_id (loaded w)) in *.
  destruct (TranscriberFacts.extract_transcript_returns find_all_text
              json_loads env video_id w1) as [r Hret].
  pose proof (extract_transcript_nonempty video_id w1) as Hnonempty.
  unfold mbind at 1 in Hrun.
  destruct (extract_transcript find_all_text json_loads env video_id w1)
    as [r' w2]. cbn [fst] in Hret, Hnonempty. subst r'.
  exists r, w2. split; [reflexivity|].
  destruct r as [[|entry rest]|].
  - exfalso. now apply (Hnonempty [] eq_refl).
  - split; [discriminate|]. cbn [falsy default] in Hrun.
    match type of Hrun with
    | context [(?a mod BATCH_SIZE =? 0)%Z] =>
        set (full := (a mod BATCH_SIZE =? 0)%Z) in *
    end.
    exists (save_individual_transcript format_timestamp (entry :: rest) video_id ;;;
            (if full then let! d := random_uniform env 30 90 in sleep d
             else ret tt)).
    split.
    + subst run.
      unfold mbind, save_status, save_individual_transcript, random_uniform,
        sleep, ret. cbn [fst snd]. unfold id.
      destruct (snd (write_records format_timestamp None (entry :: rest)))
        as [[]|e]; [destruct full|]; reflexivity.
    + assert (Hk : forall X (proj : World JobStatus -> X),
          (forall t w, proj (set_clock t w) = proj w) ->
          (forall n w, proj (set_draws n w) = proj w) ->
          (forall f w, proj (set_output_files f w) = proj w) ->
          keeps proj
            (save_individual_transcript format_timestamp (entry :: rest) video_id ;;;
             (if full then let! d := random_uniform env 30 90 in sleep d
              else ret tt))).
      { intros X proj Hclock Hdraws Hout. apply keeps_bind.
        - intros w'. apply Hout.
        - intros _. destruct full; eauto with keeps. }
      split; [apply Hk; reflexivity|]. split; [apply Hk; reflexivity|].
      split; [apply Hk; reflexivity|]. split; [apply Hk; reflexivity|].
      split; [apply Hk; reflexivity|].
      intros w'. unfold mbind, save_individual_transcript, random_uniform,
        sleep, ret. cbn [fst snd].
      destruct (snd (write_records format_timestamp None (entry :: rest)))
        as [[]|e]; [destruct full|]; reflexivity.
  - cbn [falsy] in Hrun. exact Hrun.
Qed.



End Facts.
End TranscriberSteps.

(** ** [youtube_transcriber.py]: properties of the pipeline *)

Module TranscriberProperties.
Import Transcriber Logic Frame Steps.T Invariants.T.

Lemma claim_spec (video_id : string) (st : JobStatus) :
  completed (claim video_id st) = completed st
  /\ video_id ∈ pending (claim video_id st)
  /\ (NoDup (pending st) -> NoDup (pending (claim video_id st)))
  /\ last_request_time (claim video_id st) = last_request_time st
  /\ processed_count (claim video_id st) = processed_count st
  /\ batch_count (claim video_id st) = batch_count st.
Proof.
  unfold claim. destruct (Py.mem video_id (pending st)) eqn:E.
  - apply mem_true in E. repeat split; auto.
  - apply mem_false in E. cbn. repeat split.
    + apply elem_of_app. right. apply list_elem_of_here.
    + intros Hn. apply NoDup_app. repeat split; [exact Hn | | apply NoDup_singleton].
      intros x Hx Hx'. apply list_elem_of_singleton in Hx'. now subst x.
Qed.

Lemma release_spec (video_id : string) (st : JobStatus) :
  completed (release video_id st) = completed st
  /\ (NoDup (pending st) -> video_id ∉ pending (release video_id st))
  /\ last_request_time (release video_id st) = last_request_time st
  /\ processed_count (release video_id st) = processed_count st
  /\ batch_count (release video_id st) = batch_count st.
Proof.
  unfold release. destruct (Py.mem video_id (pending st)) eqn:E.
  - cbn. repeat split. intros Hn. now apply remove_first_NoDup.
  - apply mem_false in E. repeat split; auto.
Qed.

Lemma complete_spec (video_id : string) (st : JobStatus) :
  completed (complete video_id st) = (completed st ++ [video_id])%list
  /\ (NoDup (pending st) -> video_id ∉ pending (complete video_id st))
  /\ last_request_time (complete video_id st) = last_request_time st
  /\ processed_count (complete video_id st) = (processed_count st + 1)%Z
  /\ batch_count (complete video_id st) = batch_count st.
Proof.
  unfold complete.
  set (st' := set_processed_count _ _).
  destruct (release_spec video_id st') as (Hc & Hp & Hl & Hn & Hb).
  rewrite Hc, Hl, Hn, Hb. repeat split. exact Hp.
Qed.

Lemma loaded_sound (w : World JobStatus) : consistent w -> sound (loaded w).
Proof.
  intros [Hf _]. unfold loaded. destruct (status_file w); auto.
  all: apply TranscriberFacts.sound_default.
Qed.

Lemma loaded_holds (w : World JobStatus) (st : JobStatus) :
  status_file w = Holds st -> loaded w = st.
Proof. intros Hf. unfold loaded. now rewrite Hf. Qed.

Section Properties.
Context {F : Type} `{PyFloat F}.
Variable find_all_text : string -> list TextTag.
Variable json_loads : string -> option (json F).
Variable format_timestamp : F -> result string.
Variable env : Env (option Info).

Abbreviation process :=
  (process_video find_all_text json_loads format_timestamp env).


(** X2. Processing again an id that was processed with success changes
    nothing: the second call answers True and leaves the world as the
    first call left it. *)
Theorem process_video_again (video_url : string) (w : World JobStatus) :
  fst (process video_url w) = Ok true ->
  process video_url (snd (process video_url w))
  = (Ok true, snd (process video_url w)).
Proof.
  intros Hok.
  pose proof (TranscriberSteps.process_video_cases find_all_text json_loads
                format_timestamp env video_url w) as Hcases.
  cbv zeta in Hcases.
  pose proof (TranscriberSteps.process_video_cases find_all_text json_loads
                format_timestamp env video_url (snd (process video_url w)))
    as Hagain.
  cbv zeta in Hagain.
  destruct (get_video_id video_url) as [[|ch tl]|];
    [destruct Hcases as [Hf _]; congruence | | destruct Hcases as [Hf _]; congruence].
  set (video_id := String ch tl) in *.
  destruct (Py.mem video_id (completed (loaded w))) eqn:Ec.
  - rewrite Hcases in Hagain |- *. cbn [snd] in Hagain |- *.
    rewrite Ec in Hagain. exact Hagain.
  - destruct Hcases as [(Hr & _)|(Hs & _)]; [congruence|].
    rewrite (loaded_holds _ _ Hs) in Hagain.
    destruct (complete_spec video_id (claim video_id (loaded w))) as (Hc & _).
    assert (Hin : Py.mem video_id
                    (completed (complete video_id (claim video_id (loaded w))))
                  = true).
    { apply mem_true. rewrite Hc. apply elem_of_app. right.
      apply list_elem_of_here. }
    rewrite Hin in Hagain. exact Hagain.
Qed.

(** X3. The request time the status file holds is the same after
    [process_video] as before it, whatever the call did. *)
Theorem process_video_request_time (video_url : string) (w : World JobStatus) :
  last_request_time (loaded (snd (process video_url w)))
  = last_request_time (loaded w).
Proof.
  pose proof (TranscriberSteps.process_video_cases find_all_text json_loads
                format_timestamp env video_url w) as Hcases.
  cbv zeta in Hcases.
  assert (Hstore : store (snd (process video_url w)) = store w ->
                   loaded (snd (process video_url w)) = loaded w).
  { unfold store, loaded. intros Hs. injection Hs as -> _. reflexivity. }
  destruct (get_video_id video_url) as [[|ch tl]|];
    [destruct Hcases as (_ & Hs & _); now rewrite Hstore | |
     destruct Hcases as (_ & Hs & _); now rewrite Hstore].
  set (video_id := String ch tl) in *.
  destruct (claim_spec video_id (loaded w)) as (_ & _ & _ & Hl & _).
  destruct (Py.mem video_id (completed (loaded w))).
  - rewrite Hcases. reflexivity.
  - destruct Hcases as [(_ & Hs & _)|(Hs & _)];
      rewrite (loaded_holds _ _ Hs).
    + destruct (release_spec video_id (claim video_id (loaded w)))
        as (_ & _ & Hl' & _). congruence.
    + destruct (complete_spec video_id (claim video_id (loaded w)))
        as (_ & _ & Hl' & _). congruence.
Qed.

Lemma process_video_calls (video_url : string) (w : World JobStatus) :
  exists new,
    requests (snd (process video_url w)) = (requests w ++ new)%list
    /\ (length new <= if cookies_available w then 2 else 1)%nat
    /\ Forall (fun r => Some (snd r) = get_video_id video_url) new.
Proof.
  pose proof (TranscriberSteps.process_video_cases find_all_text json_loads
                format_timestamp env video_url w) as Hcases.
  cbv zeta in Hcases.
  assert (Hnone : requests (snd (process video_url w)) = requests w ->
    exists new,
      requests (snd (process video_url w)) = (requests w ++ new)%list
      /\ (length new <= if cookies_available w then 2 else 1)%nat
      /\ Forall (fun r => Some (snd r) = get_video_id video_url) new).
  { intros Hr. exists []. rewrite Hr, app_nil_r. split; [reflexivity|].
    split; [destruct (cookies_available w); cbn; lia | constructor]. }
  destruct (get_video_id video_url) as [[|ch tl]|] eqn:Hid;
    [apply Hnone; apply Hcases | | apply Hnone; apply Hcases].
  set (video_id := String ch tl) in *.
  destruct (Py.mem video_id (completed (loaded w))) eqn:Ec.
  { apply Hnone. now rewrite Hcases. }
  clear Hcases Hnone.
  destruct (TranscriberSteps.process_video_run find_all_text json_loads
              format_timestamp env video_url video_id w Hid
              ltac:(discriminate) Ec) as (r & w2 & Hext & Hrun).
  cbv zeta in Hext, Hrun.
  set (w1 := if Py.mem video_id (pending (loaded w)) then w else _) in *.
  assert (Hw1 : requests w1 = requests w
                /\ cookies_available w1 = cookies_available w).
  { subst w1. destruct (Py.mem video_id (pending (loaded w))); split; reflexivity. }
  destruct Hw1 as [Hreq1 Hck1].
  destruct (TranscriberSteps.extract_transcript_requests find_all_text
              json_loads env video_id w1) as (new & Hnew & Hall & Hlen).
  cbv zeta in Hnew. rewrite Hext in Hnew. cbn [snd] in Hnew.
  exists new. rewrite Hck1 in Hlen. split; [|split; [exact Hlen|]].
  - destruct r as [transcript|].
    + destruct Hrun as (_ & rest & -> & _ & Hkeep & _). cbn [snd].
      rewrite Hkeep. cbn. congruence.
    + rewrite Hrun. cbn. congruence.
  - eapply Forall_impl; [exact Hall|]. intros x Hx. cbn beta in Hx.
    rewrite Hx. reflexivity.
Qed.

(** X4. One call of [process_video] calls the upstream service at most
    twice, at most once when no cookies are held, and only for the id of
    its line. *)
Theorem process_video_requests (video_url : string) (w : World JobStatus) :
  exists new,
    requests (snd (process video_url w)) = (requests w ++ new)%list
    /\ (length new <= if cookies_available w then 2 else 1)%nat
    /\ Forall (fun r => Some (snd r) = get_video_id video_url) new.
Proof. apply process_video_calls. Qed.

Lemma is_video_failed_spec (video_id : string) (w : World JobStatus) :
  is_video_failed video_id w
  = (Ok match failed_file w with
        | Some lines => Py.mem video_id (map Py.strip lines)
        | None => false
        end, w).
Proof. unfold is_video_failed. destruct (failed_file w); reflexivity. Qed.

(** Once written to the failed-videos file, an id without blanks around
    it is found there. *)
Lemma failed_after_append (video_id : string) (f : option (list string)) :
  Py.strip video_id = video_id ->
  match append_line f video_id with
  | Some lines => Py.mem video_id (map Py.strip lines)
  | None => false
  end = true.
Proof.
  intros Hs. destruct f as [lines|]; cbn.
  - rewrite map_app. apply mem_true. apply elem_of_app. right.
    cbn. rewrite Hs. apply list_elem_of_here.
  - rewrite Hs, String.eqb_refl. reflexivity.
Qed.

(** X5. An id that [process_video] gave up on is not fetched again: when a
    call answers False for a line whose id has no blanks around it, the
    id is on the failed-videos file, and the next call for the same line
    makes no upstream call. *)
Theorem failed_item_not_fetched_again (video_url video_id : string)
    (w : World JobStatus) :
  get_video_id video_url = Some video_id ->
  video_id <> EmptyString ->
  Py.strip video_id = video_id ->
  fst (process video_url w) = Ok false ->
  let w' := snd (process video_url w) in
  fst (is_video_failed video_id w') = Ok true
  /\ requests (snd (process video_url w')) = requests w'.
Proof.
  intros Hid Hne Hstrip Hfalse. cbv zeta.
  assert (Hc : Py.mem video_id (completed (loaded w)) = false).
  { pose proof (TranscriberSteps.process_video_cases find_all_text json_loads
                  format_timestamp env video_url w) as H1.
    cbv zeta in H1. rewrite Hid in H1.
    destruct video_id as [|ch tl]; [congruence|].
    destruct (Py.mem _ (completed (loaded w))); [|reflexivity].
    rewrite H1 in Hfalse. discriminate. }
  destruct (TranscriberSteps.process_video_run find_all_text json_loads
              format_timestamp env video_url video_id w Hid Hne Hc)
    as (r & w2 & Hex & Hrun).
  cbv zeta in Hex, Hrun.
  set (st1 := claim video_id (loaded w)) in *.
  set (w1 := if Py.mem video_id (pending (loaded w)) then w
             else snd (save_status st1 w)) in *.
  destruct r as [transcript|].
  { destruct Hrun as (_ & rest & Hrun & _). rewrite Hrun in Hfalse.
    cbn [fst] in Hfalse.
    destruct (snd (write_records format_timestamp None transcript));
      discriminate. }
  rewrite Hrun. cbn [snd].
  set (w' := snd (save_status (release video_id st1) w2)).
  assert (Hfw' : failed_file w' = failed_file w2) by reflexivity.
  assert (Hfailed : match failed_file w2 with
                    | Some lines => Py.mem video_id (map Py.strip lines)
                    | None => false
                    end = true).
  { destruct (match failed_file w1 with
              | Some lines => Py.mem video_id (map Py.strip lines)
              | None => false
              end) eqn:Hbefore.
    - destruct (failed_file w1) as [lines|] eqn:Hf1; [|discriminate].
      rewrite (TranscriberFacts.extract_transcript_failed find_all_text
                 json_loads env video_id w1 lines Hf1 Hbefore) in Hex.
      injection Hex as <-. rewrite Hf1. exact Hbefore.
    - assert (Hnf : fst (is_video_failed video_id w1) = Ok false).
      { rewrite is_video_failed_spec. cbn [fst]. now rewrite Hbefore. }
      pose proof (TranscriberFacts.extract_transcript_records_failure
                    find_all_text json_loads env video_id w1 Hnf) as Hrec.
      rewrite Hex in Hrec. cbn [fst snd] in Hrec.
      rewrite (Hrec eq_refl). now apply failed_after_append. }
  split.
  { rewrite is_video_failed_spec. cbn [fst]. rewrite Hfw', Hfailed. reflexivity. }
  assert (Hl : loaded w' = release video_id st1) by reflexivity.
  assert (Hc' : Py.mem video_id (completed (loaded w')) = false).
  { rewrite Hl. destruct (release_spec video_id st1) as (-> & _).
    unfold st1. destruct (claim_spec video_id (loaded w)) as (-> & _). exact Hc. }
  destruct (TranscriberSteps.process_video_run find_all_text json_loads
              format_timestamp env video_url video_id w' Hid Hne Hc')
    as (r' & w2' & Hex' & Hrun').
  cbv zeta in Hex', Hrun'.
  set (w1' := if Py.mem video_id (pending (loaded w')) then w'
              else snd (save_status (claim video_id (loaded w')) w')) in *.
  assert (Hf1' : failed_file w1' = failed_file w2).
  { unfold w1'. destruct (Py.mem video_id (pending (loaded w'))); reflexivity. }
  assert (Hr1' : requests w1' = requests w').
  { unfold w1'. destruct (Py.mem video_id (pending (loaded w'))); reflexivity. }
  destruct (failed_file w2) as [lines|] eqn:Hf2; [|discriminate].
  rewrite (TranscriberFacts.extract_transcript_failed find_all_text
             json_loads env video_id w1' lines Hf1' Hfailed) in Hex'.
  injection Hex' as <- <-. rewrite Hrun'. cbn [snd]. exact Hr1'.
Qed.

(** X6. The rate limiter, taken alone: against a request time in the dict
    it is given, the clock is past that time by the delay it computed
    when it returns, and the dict it returns and saves carries the time
    of its return. *)
Theorem enforce_rate_limit_gap (status : JobStatus) (w : World JobStatus)
    (last : Q) :
  has_last_request status = Some last ->
  let run := enforce_rate_limit env status w in
  let delay :=
    if ((processed_count status mod 10 =? 0)%Z
        && (processed_count status >? 0)%Z)
    then (BASE_DELAY * 2 + uniform env (draws w) 30 60)%Q
    else (BASE_DELAY + uniform env (draws w) 10 20)%Q in
  (last + delay <= clock (snd run))%Q
  /\ fst run = Ok (set_last_request_time (Some (clock (snd run))) status)
  /\ status_file (snd run)
     = Holds (set_last_request_time (Some (clock (snd run))) status).
Proof.
  intros Hl. cbv zeta.
  split; [exact (PipelineTheorems.enforce_rate_limit_waits env status w last Hl)|].
  destruct (TranscriberFacts.enforce_rate_limit_spec env status w)
    as (t & Hok & Hstore & _ & _ & _ & _ & _ & Hclock).
  cbv zeta in Hok, Hstore, Hclock. rewrite Hclock.
  split; [exact Hok|]. unfold store in Hstore. congruence.
Qed.

End Properties.
End TranscriberProperties.

(** ** [youtube_transcriber.py]: runs of [main] *)

Module TranscriberRuns.
Import Transcriber Invariants.T Steps.T Logic Frame TranscriberProperties.

Lemma remove_first_last (x : string) (xs : list string) :
  x ∉ xs -> Py.remove_first x (xs ++ [x]) = xs.
Proof.
  induction xs as [|y ys IH]; intros Hx; cbn.
  - now rewrite String.eqb_refl.
  - destruct (String.eqb x y) eqn:E.
    + apply String.eqb_eq in E. subst y. exfalso. apply Hx, list_elem_of_here.
    + f_equal. apply IH. intros Hin. apply Hx. now apply list_elem_of_further.
Qed.

Lemma release_claim_pending (video_id : string) (st : JobStatus) :
  pending st = [] -> pending (release video_id (claim video_id st)) = [].
Proof.
  intros Hp. destruct st as [c p l b n]. cbn in Hp. subst p.
  unfold complete, release, claim. cbn. rewrite ?String.eqb_refl. cbn.
  rewrite ?String.eqb_refl. reflexivity.
Qed.

Lemma complete_claim_pending (video_id : string) (st : JobStatus) :
  pending st = [] -> pending (complete video_id (claim video_id st)) = [].
Proof.
  intros Hp. destruct st as [c p l b n]. cbn in Hp. subst p.
  unfold complete, release, claim. cbn. rewrite ?String.eqb_refl. cbn.
  rewrite ?String.eqb_refl. reflexivity.
Qed.

Lemma counted_default : counted default_status.
Proof. repeat split. constructor. Qed.

Section Runs.
Context {F : Type} `{PyFloat F}.
Variable find_all_text : string -> list TextTag.
Variable json_loads : string -> option (json F).
Variable format_timestamp : F -> result string.
Variable env : Env (option Info).

Abbreviation process :=
  (process_video find_all_text json_loads format_timestamp env).
Abbreviation pool :=
  (run_pool find_all_text json_loads format_timestamp env).
Abbreviation one :=
  (run_one find_all_text json_loads format_timestamp env).

Lemma loaded_store (w w' : World JobStatus) :
  store w' = store w -> loaded w' = loaded w.
Proof. unfold store, loaded. intros Hs. injection Hs as -> _. reflexivity. Qed.

(** The [except] clause of [main] never raises and calls nobody: it
    writes to the error log and saves the stored status again, the id
    cleared from [pending]. *)
Lemma main_except_run (video_url : string) (e : exn) (w : World JobStatus) :
  let run := main_except env video_url e w in
  fst run = Ok tt
  /\ requests (snd run) = requests w
  /\ failed_file (snd run) = failed_file w
  /\ output_files (snd run) = output_files w
  /\ (store (snd run) = store w
      \/ exists video_id,
           get_video_id video_url = Some video_id
           /\ store (snd run)
              = (Holds (release video_id (loaded w)),
                 (saves w ++ [release video_id (loaded w)])%list)).
Proof.
  cbv zeta. unfold main_except, mbind, log_error. cbn [fst snd].
  destruct (get_video_id video_url) as [[|ch tl]|];
    [repeat split; now left | | repeat split; now left].
  rewrite TranscriberFacts.load_status_spec. cbn [fst snd].
  repeat split. right. eexists. split; [reflexivity|]. reflexivity.
Qed.

(** One turn of the loop of [main] never raises. *)
Lemma run_one_returns (video_url : string) (w : World JobStatus) :
  fst (one video_url w) = Ok tt.
Proof.
  unfold run_one, try_catch, mbind.
  destruct (process video_url w) as [[b|e] w1]; [reflexivity|].
  apply main_except_run.
Qed.

(** What one turn does beyond the call of [process_video]. *)
Lemma run_one_after (video_url : string) (w : World JobStatus) :
  let w1 := snd (process video_url w) in
  snd (one video_url w) = w1
  \/ exists e, fst (process video_url w) = Raise e
               /\ snd (one video_url w)
                  = snd (main_except env video_url e w1).
Proof.
  cbv zeta. unfold run_one, try_catch, mbind.
  destruct (process video_url w) as [[b|e] w1]; [now left|].
  right. exists e. split; reflexivity.
Qed.

(** What one call of [process_video] does to the status the file
    holds. *)
Lemma process_video_status (video_url : string) (w : World JobStatus) :
  let st := loaded w in
  let st' := loaded (snd (process video_url w)) in
  st' = st
  \/ exists video_id,
       Py.mem video_id (completed st) = false
       /\ (st' = release video_id (claim video_id st)
           \/ st' = complete video_id (claim video_id st)).
Proof.
  cbv zeta.
  pose proof (TranscriberSteps.process_video_cases find_all_text json_loads
                format_timestamp env video_url w) as Hcases.
  cbv zeta in Hcases.
  destruct (get_video_id video_url) as [[|ch tl]|];
    [left; apply loaded_store, Hcases | | left; apply loaded_store, Hcases].
  destruct (Py.mem _ (completed (loaded w))) eqn:Ec.
  - left. now rewrite Hcases.
  - right. eexists. split; [exact Ec|].
    destruct Hcases as [(_ & Hs & _)|(Hs & _)];
      rewrite (loaded_holds _ _ Hs); auto.
Qed.

Lemma process_video_counted (video_url : string) (w : World JobStatus) :
  counted (loaded w) -> counted (loaded (snd (process video_url w))).
Proof.
  intros (Hn & Hc & Hb).
  destruct (process_video_status video_url w) as [->|(video_id & Ec & Hst)];
    [now repeat split|].
  destruct (claim_spec video_id (loaded w)) as (Hcc & _ & _ & _ & Hcn & Hcb).
  destruct Hst as [-> | ->].
  - destruct (release_spec video_id (claim video_id (loaded w)))
      as (Hrc & _ & _ & Hrn & Hrb).
    unfold counted. rewrite Hrc, Hrn, Hrb, Hcc, Hcn, Hcb. now repeat split.
  - destruct (complete_spec video_id (claim video_id (loaded w)))
      as (Hrc & _ & _ & Hrn & Hrb).
    unfold counted. rewrite Hrc, Hrn, Hrb, Hcc, Hcn, Hcb.
    apply mem_false in Ec. repeat split.
    + apply NoDup_app. repeat split; [exact Hn | | apply NoDup_singleton].
      intros x Hx Hx'. apply list_elem_of_singleton in Hx'. now subst x.
    + rewrite Hc, length_app. cbn. lia.
    + exact Hb.
Qed.

Lemma process_video_nothing_pending (video_url : string) (w : World JobStatus) :
  pending (loaded w) = [] -> pending (loaded (snd (process video_url w))) = [].
Proof.
  intros Hp.
  destruct (process_video_status video_url w) as [->|(video_id & _ & [-> | ->])].
  - exact Hp.
  - now apply release_claim_pending.
  - now apply complete_claim_pending.
Qed.

Lemma initialize_loaded (w : World JobStatus) :
  loaded (snd (initialize w)) = loaded w.
Proof.
  unfold initialize, loaded. cbn [snd].
  destruct (status_file w) eqn:Hf; cbn;
    destruct (error_log w); cbn; destruct (failed_file w); cbn;
    rewrite ?Hf; reflexivity.
Qed.

Lemma initialize_requests (w : World JobStatus) :
  requests (snd (initialize w)) = requests w.
Proof.
  unfold initialize. cbn [snd].
  destruct (status_file w); cbn;
    destruct (error_log w); cbn; destruct (failed_file w); reflexivity.
Qed.

Lemma initialize_failed (video_id : string) (w : World JobStatus) :
  fst (is_video_failed video_id (snd (initialize w)))
  = fst (is_video_failed video_id w).
Proof.
  rewrite !is_video_failed_spec.
  destruct w as [sf ff el outs t n rs ck svs].
  destruct sf, el, ff; reflexivity.
Qed.

Lemma initialize_keeps_consistent (w : World JobStatus) :
  consistent w -> consistent (snd (initialize w)).
Proof.
  intros [Hf Hs].
  assert (Hd : Forall disjoint (saves w ++ [default_status])%list).
  { apply Forall_app. split; [exact Hs|]. repeat constructor.
    apply TranscriberFacts.sound_default. }
  destruct w as [sf ff el outs t n rs ck svs]. cbn in Hf, Hs, Hd.
  destruct sf, el, ff; split; cbn;
    auto using TranscriberFacts.sound_default.
Qed.

(** The pool with its single worker is the turns of the loop, one
    after the other. *)
Lemma run_pool_cons (video_url : string) (rest : list string)
    (w : World JobStatus) :
  pool (video_url :: rest) w = pool rest (snd (one video_url w)).
Proof.
  pose proof (run_one_returns video_url w) as Hb.
  cbn [run_pool]. unfold mbind at 1.
  destruct (one video_url w) as [r w1]. cbn in Hb. subst r. reflexivity.
Qed.

Lemma run_pool_nil (w : World JobStatus) : pool [] w = (Ok tt, w).
Proof. reflexivity. Qed.

Lemma run_pool_invariant (I : World JobStatus -> Prop) :
  (forall video_url w, I w -> I (snd (one video_url w))) ->
  forall video_urls w,
    I w -> fst (pool video_urls w) = Ok tt /\ I (snd (pool video_urls w)).
Proof.
  intros Hstep video_urls.
  induction video_urls as [|url rest IH]; intros w Hw.
  - rewrite run_pool_nil. now split.
  - rewrite run_pool_cons. apply IH, Hstep, Hw.
Qed.

(** One turn keeps the store consistent. *)
Lemma run_one_consistent (video_url : string) (w : World JobStatus) :
  consistent w -> consistent (snd (one video_url w)).
Proof.
  intros Hw.
  pose proof (TranscriberFacts.process_video_consistent find_all_text
                json_loads format_timestamp env video_url w Hw) as Hw1.
  cbn beta in Hw1.
  destruct (run_one_after video_url w) as [-> | (e & _ & ->)]; [exact Hw1|].
  destruct (main_except_run video_url e (snd (process video_url w)))
    as (_ & _ & _ & _ & [Hs | (video_id & _ & Hs)]).
  - eapply TranscriberFacts.consistent_store; [exact Hs | exact Hw1].
  - unfold store in Hs. injection Hs as Hf Hsv.
    pose proof (loaded_sound _ Hw1) as Hsound.
    assert (Hrel : sound (release video_id
                            (loaded (snd (process video_url w)))))
      by (apply TranscriberFacts.sound_clear_pending, Hsound).
    split.
    + rewrite Hf. exact Hrel.
    + rewrite Hsv. apply Forall_app. split; [apply Hw1|].
      constructor; [apply Hrel | constructor].
Qed.

(** One turn makes the upstream calls of [process_video], no other. *)
Lemma run_one_requests (video_url : string) (w : World JobStatus) :
  requests (snd (one video_url w)) = requests (snd (process video_url w)).
Proof.
  destruct (run_one_after video_url w) as [-> | (e & _ & ->)]; [reflexivity|].
  apply main_except_run.
Qed.

Lemma run_pool_requests (video_urls : list string) (w : World JobStatus) :
  exists new,
    requests (snd (pool video_urls w)) = (requests w ++ new)%list
    /\ Forall (fun r => exists video_url,
                 video_url ∈ video_urls
                 /\ get_video_id video_url = Some (snd r)) new.
Proof.
  revert w. induction video_urls as [|url rest IH]; intros w.
  - exists []. rewrite run_pool_nil, app_nil_r. split; [reflexivity|constructor].
  - rewrite run_pool_cons.
    destruct (process_video_calls find_all_text json_loads format_timestamp
                env url w) as (new1 & Hr1 & _ & Hf1).
    destruct (IH (snd (one url w))) as (new2 & Hr2 & Hf2).
    exists (new1 ++ new2)%list. split.
    + rewrite Hr2, run_one_requests, Hr1, app_assoc. reflexivity.
    + apply Forall_app. split.
      * eapply Forall_impl; [exact Hf1|]. intros r Hr. cbn beta in Hr.
        exists url. split; [apply list_elem_of_here | now symmetry].
      * eapply Forall_impl; [exact Hf2|]. intros r (u & Hu & Hid).
        exists u. split; [now apply list_elem_of_further | exact Hid].
Qed.

(** The selection of [main] reads the failed-videos file and changes
    nothing; what it selects is a part of the input lines, in their
    order, each with an id that is neither completed nor failed. *)
Lemma select_new_spec (status : JobStatus) (video_urls : list string)
    (w : World JobStatus) :
  exists new_urls,
    select_new status video_urls w = (Ok new_urls, w)
    /\ sublist new_urls video_urls
    /\ Forall (fun video_url => exists video_id,
                 get_video_id video_url = Some video_id
                 /\ (video_id ∉ completed status)
                 /\ fst (is_video_failed video_id w) = Ok false) new_urls.
Proof.
  induction video_urls as [|url rest (more & Hrun & Hsub & Hall)].
  - exists []. repeat split; constructor.
  - assert (Hnew : exists keep : bool,
              is_new status url w = (Ok keep, w)
              /\ (keep = true -> exists video_id,
                    get_video_id url = Some video_id
                    /\ (video_id ∉ completed status)
                    /\ fst (is_video_failed video_id w) = Ok false)).
    { unfold is_new.
      destruct (get_video_id url) as [[|ch tl]|];
        [exists false; split; [reflexivity|discriminate] | |
         exists false; split; [reflexivity|discriminate]].
      destruct (Py.mem _ (completed status)) eqn:Ec;
        [exists false; split; [reflexivity|discriminate]|].
      unfold mbind. rewrite is_video_failed_spec.
      eexists. split; [reflexivity|]. intros Hk.
      eexists. split; [reflexivity|]. split; [now apply mem_false|].
      rewrite is_video_failed_spec. cbn [fst].
      apply negb_true_iff in Hk. now rewrite Hk. }
    destruct Hnew as (keep & Hkeep & Hprop).
    exists (if keep then url :: more else more). split.
    + cbn [select_new]. rewrite (mbind_ok _ _ _ _ _ Hkeep).
      rewrite (mbind_ok _ _ _ _ _ Hrun). reflexivity.
    + destruct keep.
      * split; [now apply sublist_skip | constructor; auto].
      * split; [now apply sublist_cons | exact Hall].
Qed.

Lemma main_run (video_urls : list string) (w : World JobStatus) :
  exists new_urls,
    main find_all_text json_loads format_timestamp env video_urls w
    = pool new_urls (snd (initialize w))
    /\ sublist new_urls video_urls
    /\ Forall (fun video_url => exists video_id,
                 get_video_id video_url = Some video_id
                 /\ (video_id ∉ completed (loaded w))
                 /\ fst (is_video_failed video_id w) = Ok false) new_urls.
Proof.
  unfold main. unfold mbind at 1.
  destruct (initialize w) as [r w0] eqn:Hinit.
  assert (Hr : r = Ok tt) by (unfold initialize in Hinit; congruence).
  assert (Hw0 : w0 = snd (initialize w)) by now rewrite Hinit.
  subst r. cbn [snd].
  destruct video_urls as [|url rest].
  - exists []. split; [reflexivity|]. split; constructor.
  - set (video_urls := url :: rest).
    unfold mbind at 1. rewrite TranscriberFacts.load_status_spec.
    fold (loaded w0).
    destruct (select_new_spec (loaded w0) video_urls w0)
      as (new_urls & Hsel & Hsub & Hall).
    rewrite (mbind_ok _ _ _ _ _ Hsel).
    exists new_urls. split; [reflexivity|]. split; [exact Hsub|].
    rewrite Hw0 in Hall. rewrite initialize_loaded in Hall.
    eapply Forall_impl; [exact Hall|]. intros u (video_id & Hid & Hc & Hf).
    exists video_id. rewrite initialize_failed in Hf. auto.
Qed.

End Runs.

(** X7. In every world the pipeline reaches from a folder without a status
    file, the count of processed items is the number of completed ids,
    no id is completed twice, nothing is left pending between two calls,
    and no batch was ever counted. *)
Theorem reachable_counted {F : Type} `{PyFloat F} (w : World JobStatus) :
  reachable w -> counted (loaded w) /\ pending (loaded w) = [].
Proof.
  induction 1 as [w0 Hf Hs | fa jl ft env url w _ [IHc IHp]].
  - rewrite initialize_loaded. unfold loaded. rewrite Hf.
    split; [apply counted_default | reflexivity].
  - split.
    + now apply process_video_counted.
    + now apply process_video_nothing_pending.
Qed.

Section Main.
Context {F : Type} `{PyFloat F}.
Variable find_all_text : string -> list TextTag.
Variable json_loads : string -> option (json F).
Variable format_timestamp : F -> result string.
Variable env : Env (option Info).

Abbreviation run_main :=
  (main find_all_text json_loads format_timestamp env).

(** X8. [main] ends without an exception, whatever the upstream service
    answers, and leaves a consistent store when it started from one. *)
Theorem main_consistent (video_urls : list string) (w : World JobStatus) :
  consistent w ->
  fst (run_main video_urls w) = Ok tt
  /\ consistent (snd (run_main video_urls w)).
Proof.
  intros Hw.
  destruct (main_run find_all_text json_loads format_timestamp env
              video_urls w) as (new_urls & -> & _).
  apply run_pool_invariant.
  - intros url w' Hw'. now apply run_one_consistent.
  - now apply initialize_keeps_consistent.
Qed.

(** X9. [main] calls the upstream service only for ids of input lines
    that were not completed when it started and that no line of the
    failed-videos file of that moment gives once stripped of the blanks
    at its ends; so an id without such blanks that is a line of the file
    is not requested again. *)
Theorem main_requests (video_urls : list string) (w : World JobStatus) :
  exists new,
    requests (snd (run_main video_urls w)) = (requests w ++ new)%list
    /\ Forall (fun r => exists video_url,
                 video_url ∈ video_urls
                 /\ get_video_id video_url = Some (snd r)
                 /\ (snd r ∉ completed (loaded w))
                 /\ forall lines,
                      failed_file w = Some lines ->
                      (snd r ∉ map Py.strip lines)
                      /\ (Py.strip (snd r) = snd r -> snd r ∉ lines)) new.
Proof.
  destruct (main_run find_all_text json_loads format_timestamp env
              video_urls w) as (new_urls & -> & Hsub & Hall).
  destruct (run_pool_requests find_all_text json_loads format_timestamp env
              new_urls (snd (initialize w))) as (new & Hreq & Hnew).
  exists new. split; [now rewrite Hreq, initialize_requests|].
  eapply Forall_impl; [exact Hnew|].
  intros r (url & Hin & Hid).
  rewrite Forall_forall in Hall.
  destruct (Hall url Hin) as (video_id & Hid' & Hc & Hf).
  assert (video_id = snd r) by congruence. subst video_id.
  exists url. split; [eapply elem_of_sublist; [exact Hin | exact Hsub]|].
  split; [exact Hid|]. split; [exact Hc|].
  intros lines Hlines. rewrite is_video_failed_spec, Hlines in Hf.
  cbn [fst] in Hf. injection Hf as Hf. apply mem_false in Hf.
  split; [exact Hf|]. intros Hstrip Hline. apply Hf.
  rewrite <- Hstrip. apply list_elem_of_fmap. exists (snd r).
  split; [reflexivity | exact Hline].
Qed.

End Main.
End TranscriberRuns.

(** ** [youtube_transcriber.py]: the properties at sample runs *)

Module TranscriberExamples.
Import Transcriber Invariants.T Steps.T Rational Samples Runs.

(** A folder before the first run is consistent. *)
Lemma consistent_fresh (t : Q) : consistent (@fresh_world JobStatus t).
Proof. split; [exact I | constructor]. Qed.


(** The same video asked for twice. *)
Lemma process_video_again_witness :
  let w := snd (process_video no_tags no_json show_seconds with_captions
                  video_a (snd (initialize (fresh_world 1000)))) in
  process_video no_tags no_json show_seconds with_captions video_a w
  = (Ok true, w).
Proof.
  apply (TranscriberProperties.process_video_again no_tags no_json
           show_seconds with_captions video_a).
  reflexivity.
Defined.

(** A video the upstream service does not know, asked for twice. *)
Lemma failed_item_not_fetched_again_witness :
  let unknown : Env (option Info) := always (Ok None) in
  let w' := snd (process_video no_tags no_json show_seconds unknown video_a
                   (snd (initialize (fresh_world 1000)))) in
  fst (is_video_failed video_a w') = Ok true
  /\ requests (snd (process_video no_tags no_json show_seconds unknown
                      video_a w'))
     = requests w'.
Proof.
  apply (TranscriberProperties.failed_item_not_fetched_again no_tags no_json
           show_seconds (always (Ok None)) video_a video_a).
  - reflexivity.
  - discriminate.
  - reflexivity.
  - reflexivity.
Defined.

(** After one video processed from a fresh folder. *)
Lemma reachable_counted_witness :
  let w := snd (process_video no_tags no_json show_seconds with_captions
                  video_a (snd (initialize (fresh_world 1000)))) in
  counted (loaded w) /\ pending (loaded w) = [].
Proof.
  apply (@TranscriberRuns.reachable_counted Q Q_float).
  apply reach_process_video, reach_initialize; reflexivity.
Defined.

(** [main] on a fresh folder and two input lines. *)
Lemma main_consistent_witness :
  let run := main no_tags no_json show_seconds with_captions
               [video_a; video_b] (fresh_world 1000) in
  fst run = Ok tt /\ consistent (snd run).
Proof.
  apply (TranscriberRuns.main_consistent no_tags no_json show_seconds
           with_captions [video_a; video_b]).
  apply consistent_fresh.
Defined.

End TranscriberExamples.

(** ** [main.py]: what one call of [process_video] does *)

Module NotebookSteps.
Import Notebook Invariants.N Steps.N Logic Frame.


Lemma notebook_release_spec (video_id : string) (st : JobStatus) :
  completed (release video_id st) = completed st
  /\ (NoDup (pending st) -> video_id ∉ pending (release video_id st))
  /\ last_request_time (release video_id st) = last_request_time st.
Proof.
  unfold release. destruct (Py.mem video_id (pending st)) eqn:E.
  - cbn. repeat split. intros Hn. now apply remove_first_NoDup.
  - apply mem_false in E. repeat split; auto.
Qed.

Lemma notebook_complete_spec (video_id : string) (st : JobStatus) :
  completed (complete video_id st) = (completed st ++ [video_id])%list
  /\ (NoDup (pending st) -> video_id ∉ pending (complete video_id st))
  /\ last_request_time (complete video_id st) = last_request_time st.
Proof.
  unfold complete.
  set (st' := set_completed _ _).
  destruct (notebook_release_spec video_id st') as (Hc & Hp & Hl).
  rewrite Hc, Hl. repeat split. exact Hp.
Qed.


Lemma notebook_loaded_holds (w : World JobStatus) (st : JobStatus) :
  status_file w = Holds st -> loaded w = st.
Proof. intros Hf. unfold loaded. now rewrite Hf. Qed.

Section Steps.
Context {F : Type}.
Variable env : Env (list (Entry F)).

Lemma notebook_is_video_failed_spec (video_id : string) (w : World JobStatus) :
  is_video_failed video_id w
  = (Ok match failed_file w with
        | Some lines => Py.mem video_id (map Py.strip lines)
        | None => false
        end, w).
Proof. unfold is_video_failed. destruct (failed_file w); reflexivity. Qed.

(** The rate limiter writes the clock, the draws and the status file,
    and nothing else. *)
Lemma notebook_enforce_rate_limit_keeps {X} (proj : World JobStatus -> X)
    (status : JobStatus) :
  (forall t w, proj (set_clock t w) = proj w) ->
  (forall n w, proj (set_draws n w) = proj w) ->
  (forall f w, proj (set_status_file f w) = proj w) ->
  (forall s w, proj (record_save s w) = proj w) ->
  keeps proj (enforce_rate_limit env status).
Proof.
  intros Hc Hd Hf Hs. unfold enforce_rate_limit.
  apply keeps_bind.
  - destruct (has_last_request status); [|eauto with keeps].
    apply keeps_bind; [eauto with keeps|]. intros now.
    destruct (Qlt_bool _ _); [|eauto with keeps].
    apply keeps_bind; eauto with keeps.
  - intros _. apply keeps_bind; [eauto with keeps|]. intros now.
    eauto with keeps.
Qed.

(** One attempt is one upstream call, the next of the run; the attempt
    ends without an exception, and an answer of the service is what it
    returns. *)
Lemma attempt_once_run (max_retries : nat) (video_id : string) (attempt : nat)
    (w : World JobStatus) :
  let run := attempt_once env max_retries video_id attempt w in
  exists outcome t,
    fst run = Ok outcome
    /\ requests (snd run) = (requests w ++ [(t, video_id)])%list
    /\ (forall transcript,
          upstream env (length (requests w)) video_id = Ok transcript ->
          outcome = Some (Some transcript)
          /\ output_files (snd run) = output_files w
          /\ failed_file (snd run) = failed_file w)
    /\ (forall transcript,
          outcome = Some (Some transcript) ->
          upstream env (length (requests w)) video_id = Ok transcript)
    /\ status_file (snd run)
       = Holds (set_last_request_time (last_request_time (loaded (snd run)))
                  (loaded w))
    /\ output_files (snd run) = output_files w.
Proof.
  cbv zeta.
  remember (attempt_once env max_retries video_id attempt w) as run eqn:Hrun.
  unfold attempt_once, try_catch in Hrun. unfold mbind at 1 in Hrun.
  rewrite NotebookFacts.notebook_load_status_spec in Hrun.
  fold (loaded w) in Hrun. unfold mbind at 1 in Hrun.
  destruct (NotebookFacts.notebook_enforce_rate_limit_spec env (loaded w) w)
    as (t0 & Hok & Hstore & Hfail & Hreq & _).
  cbv zeta in Hok, Hstore, Hfail, Hreq.
  pose proof (notebook_enforce_rate_limit_keeps (@output_files JobStatus)
                (loaded w) ltac:(reflexivity) ltac:(reflexivity)
                ltac:(reflexivity) ltac:(reflexivity) w) as Hout.
  destruct (enforce_rate_limit env (loaded w) w) as [r1 w1].
  cbn [fst snd] in Hok, Hstore, Hfail, Hreq, Hout. subst r1.
  assert (Hsf : status_file w1
                = Holds (set_last_request_time (Some t0) (loaded w))).
  { unfold store in Hstore. congruence. }
  unfold mbind at 1 in Hrun. unfold call_upstream in Hrun. rewrite Hreq in Hrun.
  set (w2 := set_clock _ _) in Hrun.
  assert (Hreq2 : requests w2 = (requests w ++ [(clock w1, video_id)])%list)
    by reflexivity.
  assert (Hout2 : output_files w2 = output_files w) by exact Hout.
  assert (Hfail2 : failed_file w2 = failed_file w) by exact Hfail.
  assert (Hsf2 : status_file w2
                 = Holds (set_last_request_time
                            (last_request_time (loaded w2)) (loaded w))).
  { unfold loaded at 1. change (status_file w2) with (status_file w1).
    rewrite Hsf. reflexivity. }
  clearbody w2.
  assert (Hkept : forall (out : option (option (list (Entry F))))
                         (wf : World JobStatus),
    requests wf = requests w2 -> output_files wf = output_files w2 ->
    status_file wf = status_file w2 ->
    (forall transcript, out <> Some (Some transcript)) ->
    (forall transcript,
       upstream env (length (requests w)) video_id <> Ok transcript) ->
    exists outcome t,
      Ok out = Ok outcome
      /\ requests wf = (requests w ++ [(t, video_id)])%list
      /\ (forall transcript,
            upstream env (length (requests w)) video_id = Ok transcript ->
            outcome = Some (Some transcript)
            /\ output_files wf = output_files w
            /\ failed_file wf = failed_file w)
      /\ (forall transcript,
            outcome = Some (Some transcript) ->
            upstream env (length (requests w)) video_id = Ok transcript)
      /\ status_file wf
         = Holds (set_last_request_time (last_request_time (loaded wf))
                    (loaded w))
      /\ output_files wf = output_files w).
  { intros out wf Hr Ho Hs Hno Hup. exists out, (clock w1).
    split; [reflexivity|]. split; [now rewrite Hr|].
    split; [intros tr Htr; now destruct (Hup tr)|].
    split; [intros tr Htr; now destruct (Hno tr)|].
    split; [|congruence].
    unfold loaded at 1. rewrite Hs. exact Hsf2. }
  destruct (upstream env (length (requests w)) video_id) as [transcript|e]
    eqn:Hup; cbn [fst snd] in Hrun.
  - subst run. cbn [fst snd].
    exists (Some (Some transcript)), (clock w1).
    split; [reflexivity|]. split; [exact Hreq2|].
    split; [intros tr Htr; injection Htr as <-; auto|].
    split; [intros tr Htr; congruence|]. split; [exact Hsf2 | exact Hout2].
  - destruct e as [| | | | | | | |code msg| | | | |];
      try destruct (code =? 429)%Z;
      try destruct (attempt =? max_retries - 1)%nat;
      try destruct (attempt <? max_retries - 1)%nat;
      cbn in Hrun; subst run; cbn [fst snd];
      (apply Hkept; [reflexivity | reflexivity | reflexivity
                    | discriminate | discriminate]).
Qed.

(** An attempt that meets a permanent error: one upstream call, the
    error is logged, the id is recorded as failed, and the loop is
    left. *)
Lemma attempt_once_permanent (max_retries : nat) (video_id : string)
    (attempt : nat) (w : World JobStatus) (e : exn) :
  upstream env (length (requests w)) video_id = Raise e -> permanent e ->
  let run := attempt_once env max_retries video_id attempt w in
  fst run = Ok (Some None)
  /\ (exists t, requests (snd run) = (requests w ++ [(t, video_id)])%list)
  /\ failed_file (snd run) = append_line (failed_file w) video_id.
Proof.
  intros Hup Hperm. cbv zeta.
  remember (attempt_once env max_retries video_id attempt w) as run eqn:Hrun.
  unfold attempt_once, try_catch in Hrun. unfold mbind at 1 in Hrun.
  rewrite NotebookFacts.notebook_load_status_spec in Hrun.
  unfold mbind at 1 in Hrun.
  destruct (NotebookFacts.notebook_enforce_rate_limit_spec env
              match status_file w with Holds st => st | _ => default_status end
              w) as (t0 & Hok & _ & Hfail & Hreq & _).
  cbv zeta in Hok, Hfail, Hreq.
  destruct (enforce_rate_limit env _ w) as [r1 w1].
  cbn [fst snd] in Hok, Hfail, Hreq. subst r1.
  unfold mbind at 1 in Hrun. unfold call_upstream in Hrun.
  rewrite Hreq, Hup in Hrun.
  destruct e as [| | | | | | | |code msg| | | | |]; try contradiction;
    cbn [permanent] in Hperm;
    try (apply Z.eqb_neq in Hperm; rewrite Hperm in Hrun);
    subst run; rewrite <- Hfail;
    (split; [reflexivity|]); (split; [exists (clock w1); reflexivity|]);
    reflexivity.
Qed.

(** [extract_transcript] ends without an exception; it calls the
    upstream service at most once per attempt, for its id only, and
    writes no output file. *)
Lemma attempts_run (max_retries : nat) (video_id : string) (todo : list nat)
    (w : World JobStatus) :
  let run := attempts env max_retries video_id todo w in
  exists r new,
    fst run = Ok r
    /\ requests (snd run) = (requests w ++ new)%list
    /\ Forall (fun q => snd q = video_id) new
    /\ (length new <= length todo)%nat
    /\ output_files (snd run) = output_files w
    /\ (status_file (snd run) = status_file w
        \/ status_file (snd run)
           = Holds (set_last_request_time
                      (last_request_time (loaded (snd run))) (loaded w))).
Proof.
  cbv zeta. revert w. induction todo as [|attempt rest IH]; intros w.
  - exists None, []. cbn. rewrite app_nil_r. repeat split; auto.
  - cbn [attempts]. unfold mbind.
    destruct (attempt_once_run max_retries video_id attempt w)
      as (outcome & t & Hok & Hreq & _ & _ & Hsf & Hout).
    cbv zeta in Hok, Hreq, Hsf, Hout.
    destruct (attempt_once env max_retries video_id attempt w) as [r1 w1].
    cbn [fst snd] in Hok, Hreq, Hsf, Hout. subst r1.
    destruct outcome as [returned|].
    + exists returned, [(t, video_id)]. cbn [fst snd length].
      split; [reflexivity|]. split; [exact Hreq|].
      split; [repeat constructor|]. split; [lia|]. split; [exact Hout|].
      right. exact Hsf.
    + destruct (IH w1) as (r & new & Hok' & Hreq' & Hall & Hlen & Hout' & Hsf').
      exists r, ((t, video_id) :: new). split; [exact Hok'|].
      split; [rewrite Hreq', Hreq, <- app_assoc; reflexivity|].
      split; [constructor; [reflexivity | exact Hall]|].
      split; [cbn [length]; lia|]. split; [congruence|].
      right. destruct Hsf' as [Hsame | Hnew].
      * rewrite Hsame. unfold loaded at 1. rewrite Hsame. exact Hsf.
      * rewrite Hnew. f_equal. unfold loaded at 2. rewrite Hsf.
        destruct (loaded w); reflexivity.
Qed.

Lemma extract_transcript_with_run (max_retries : nat) (video_id : string)
    (w : World JobStatus) :
  let run := extract_transcript_with env max_retries video_id w in
  exists r new,
    fst run = Ok r
    /\ requests (snd run) = (requests w ++ new)%list
    /\ Forall (fun q => snd q = video_id) new
    /\ (length new <= max_retries)%nat
    /\ output_files (snd run) = output_files w
    /\ (status_file (snd run) = status_file w
        \/ status_file (snd run)
           = Holds (set_last_request_time
                      (last_request_time (loaded (snd run))) (loaded w))).
Proof.
  cbv zeta. unfold extract_transcript_with. unfold mbind.
  rewrite notebook_is_video_failed_spec.
  destruct (match failed_file w with
            | Some lines => Py.mem video_id (map Py.strip lines)
            | None => false
            end).
  - exists None, []. cbn. rewrite app_nil_r. repeat split; auto. lia.
  - destruct (attempts_run max_retries video_id (seq 0 max_retries) w)
      as (r & new & H1 & H2 & H3 & H4 & H5).
    rewrite length_seq in H4. exists r, new. auto.
Qed.


(** One call of [process_video] on a line with an id that is not
    completed. *)
Lemma notebook_process_video_run (max_retries : nat)
    (video_url video_id : string) (w : World JobStatus) :
  get_video_id video_url = Some video_id -> video_id <> EmptyString ->
  Py.mem video_id (completed (loaded w)) = false ->
  let st1 := claim video_id (loaded w) in
  let w1 := if Py.mem video_id (pending (loaded w)) then w
            else snd (save_status st1 w) in
  exists r w2,
    extract_transcript_with env max_retries video_id w1 = (Ok r, w2)
    /\ process_video_with env max_retries video_url w
       = if falsy r
         then (Ok false, snd (save_status (release video_id st1) w2))
         else (Ok true,
               snd (save_status (complete video_id st1)
                      (snd (save_transcript_to_file (default [] r) video_id
                              w2)))).
Proof.
  intros Hid Hne Hc. cbv zeta.
  remember (process_video_with env max_retries video_url w) as run eqn:Hrun.
  unfold process_video_with in Hrun. rewrite Hid in Hrun.
  destruct video_id as [|ch tl]; [congruence|].
  set (video_id := String ch tl) in *.
  unfold mbind at 1 in Hrun.
  rewrite NotebookFacts.notebook_load_status_spec in Hrun.
  fold (loaded w) in Hrun. rewrite Hc in Hrun.
  assert (Hmark :
    (if negb (Py.mem video_id (pending (loaded w)))
     then save_status (set_pending (pending (loaded w) ++ [video_id]) (loaded w)) ;;;
          ret (set_pending (pending (loaded w) ++ [video_id]) (loaded w))
     else ret (loaded w)) w
    = (Ok (claim video_id (loaded w)),
       if Py.mem video_id (pending (loaded w)) then w
       else snd (save_status (claim video_id (loaded w)) w))).
  { unfold claim. destruct (Py.mem video_id (pending (loaded w)));
      reflexivity. }
  rewrite (mbind_ok _ _ _ _ _ Hmark) in Hrun.
  set (st1 := claim video_id (loaded w)) in *.
  set (w1 := if Py.mem video_id (pending (loaded w)) then w
             else snd (save_status st1 w)) in *.
  destruct (extract_transcript_with_run max_retries video_id w1)
    as (r & new & Hok & _).
  cbv zeta in Hok.
  destruct (extract_transcript_with env max_retries video_id w1) as [r1 w2]
    eqn:Hex.
  cbn [fst] in Hok. subst r1.
  exists r, w2. split; [reflexivity|].
  rewrite (mbind_ok _ _ _ _ _ Hex) in Hrun.
  destruct (falsy r); exact Hrun.
Qed.

End Steps.
End NotebookSteps.

(** ** [main.py]: properties of [process_video] *)

Module NotebookProperties.
Import Notebook Invariants.N Steps.N Logic Frame NotebookSteps.

Section Properties.
Context {F : Type}.
Variable env : Env (list (Entry F)).
Variable max_retries : nat.

Abbreviation process := (process_video_with env max_retries).


(** The cases of one call of [process_video]. *)
Lemma notebook_process_video_cases (video_url : string) (w : World JobStatus) :
  let run := process video_url w in
  let st := loaded w in
  match get_video_id video_url with
  | None | Some EmptyString =>
      fst run = Ok false /\ store (snd run) = store w
      /\ requests (snd run) = requests w
  | Some video_id =>
      if Py.mem video_id (completed st) then run = (Ok true, w)
      else
        (fst run = Ok false
         /\ status_file (snd run) = Holds (release video_id (claim video_id st))
         /\ output_files (snd run) = output_files w)
        \/ (fst run = Ok true
            /\ status_file (snd run)
               = Holds (complete video_id (claim video_id st))
            /\ exists transcript : list (Entry F),
                 transcript <> []
                 /\ output_files (snd run)
                    = (video_id, written_lines transcript) :: output_files w)
  end.
Proof.
  cbv zeta.
  destruct (get_video_id video_url) as [video_id|] eqn:Hid;
    [|unfold process_video_with; rewrite Hid; repeat split].
  destruct (string_dec video_id EmptyString) as [->|Hne];
    [unfold process_video_with; rewrite Hid; repeat split|].
  assert (Hshape : exists ch tl, video_id = String ch tl).
  { destruct video_id; [congruence | eauto]. }
  destruct Hshape as (ch & tl & Hshape). rewrite Hshape. rewrite <- Hshape.
  destruct (Py.mem video_id (completed (loaded w))) eqn:Hc.
  { unfold process_video_with. rewrite Hid, Hshape. rewrite <- Hshape.
    unfold mbind at 1. rewrite NotebookFacts.notebook_load_status_spec.
    fold (loaded w). rewrite Hc. reflexivity. }
  destruct (notebook_process_video_run env max_retries video_url video_id w
              Hid Hne Hc) as (r & w2 & Hex & Hrun).
  cbv zeta in Hex, Hrun.
  set (w1 := if Py.mem video_id (pending (loaded w)) then w
             else snd (save_status (claim video_id (loaded w)) w)) in *.
  assert (Ho1 : output_files w1 = output_files w).
  { unfold w1. destruct (Py.mem video_id (pending (loaded w))); reflexivity. }
  destruct (extract_transcript_with_run env max_retries video_id w1)
    as (r' & new & _ & _ & _ & _ & Ho2 & _).
  cbv zeta in Ho2. rewrite Hex in Ho2. cbn [snd] in Ho2.
  rewrite Hrun. destruct r as [[|entry rest]|]; cbn [falsy].
  - left. repeat split. cbn. congruence.
  - right. split; [reflexivity|]. split; [reflexivity|].
    exists (entry :: rest). split; [discriminate|]. cbn. congruence.
  - left. repeat split. cbn. congruence.
Qed.


(** X11. Processing again an id that was processed with success changes
    nothing: the second call answers True and leaves the world as the
    first call left it. *)
Theorem notebook_process_video_again (video_url : string)
    (w : World JobStatus) :
  fst (process video_url w) = Ok true ->
  process video_url (snd (process video_url w))
  = (Ok true, snd (process video_url w)).
Proof.
  intros Hok.
  pose proof (notebook_process_video_cases video_url w) as Hcases.
  cbv zeta in Hcases.
  pose proof (notebook_process_video_cases video_url
                (snd (process video_url w))) as Hagain.
  cbv zeta in Hagain.
  destruct (get_video_id video_url) as [[|ch tl]|];
    [destruct Hcases as [Hf _]; congruence | |
     destruct Hcases as [Hf _]; congruence].
  set (video_id := String ch tl) in *.
  destruct (Py.mem video_id (completed (loaded w))) eqn:Ec.
  - rewrite Hcases in Hagain |- *. cbn [snd] in Hagain |- *.
    rewrite Ec in Hagain. exact Hagain.
  - destruct Hcases as [(Hr & _)|(_ & Hs & _)]; [congruence|].
    rewrite (notebook_loaded_holds _ _ Hs) in Hagain.
    destruct (notebook_complete_spec video_id (claim video_id (loaded w)))
      as (Hc & _).
    assert (Hin : Py.mem video_id
                    (completed (complete video_id (claim video_id (loaded w))))
                  = true).
    { apply mem_true. rewrite Hc. apply elem_of_app. right.
      apply list_elem_of_here. }
    rewrite Hin in Hagain. exact Hagain.
Qed.


(** X13. One call of [process_video] calls the upstream service at most
    once per attempt of its budget, and only for the id of its line; it
    makes no call for a line without an id and none for a completed id.
    [extract_transcript] lets no exception out, whatever the id and the
    world. *)
Theorem notebook_process_video_requests (video_url : string)
    (w : World JobStatus) :
  (exists new,
     requests (snd (process video_url w)) = (requests w ++ new)%list
     /\ (length new <= max_retries)%nat
     /\ Forall (fun r => Some (snd r) = get_video_id video_url) new
     /\ (get_video_id video_url = None
         \/ get_video_id video_url = Some EmptyString
         \/ (exists video_id, get_video_id video_url = Some video_id
                              /\ video_id ∈ completed (loaded w)) ->
         new = []))
  /\ (forall (video_id : string) (w' : World JobStatus),
        exists r,
          fst (extract_transcript_with env max_retries video_id w') = Ok r).
Proof.
  split.
  2:{ intros video_id w'.
      destruct (extract_transcript_with_run env max_retries video_id w')
        as (r & new & Hr & _).
      exists r. exact Hr. }
  assert (Hnone : requests (snd (process video_url w)) = requests w ->
    exists new,
      requests (snd (process video_url w)) = (requests w ++ new)%list
      /\ (length new <= max_retries)%nat
      /\ Forall (fun r => Some (snd r) = get_video_id video_url) new
      /\ (get_video_id video_url = None
          \/ get_video_id video_url = Some EmptyString
          \/ (exists video_id, get_video_id video_url = Some video_id
                               /\ video_id ∈ completed (loaded w)) ->
          new = [])).
  { intros Hr. exists []. rewrite Hr, app_nil_r. split; [reflexivity|].
    split; [cbn; lia|]. split; [constructor | reflexivity]. }
  destruct (get_video_id video_url) as [video_id|] eqn:Hid;
    [|apply Hnone; unfold process_video_with; rewrite Hid; reflexivity].
  destruct (string_dec video_id EmptyString) as [->|Hne];
    [apply Hnone; unfold process_video_with; rewrite Hid; reflexivity|].
  destruct (Py.mem video_id (completed (loaded w))) eqn:Hc.
  { apply Hnone. pose proof (notebook_process_video_cases video_url w) as Hcases.
    cbv zeta in Hcases. rewrite Hid in Hcases.
    destruct video_id; [congruence|]. rewrite Hc in Hcases.
    now rewrite Hcases. }
  destruct (notebook_process_video_run env max_retries video_url video_id w
              Hid Hne Hc) as (r & w2 & Hex & Hrun).
  cbv zeta in Hex, Hrun.
  set (w1 := if Py.mem video_id (pending (loaded w)) then w
             else snd (save_status (claim video_id (loaded w)) w)) in *.
  assert (Hr1 : requests w1 = requests w).
  { unfold w1. destruct (Py.mem video_id (pending (loaded w))); reflexivity. }
  destruct (extract_transcript_with_run env max_retries video_id w1)
    as (r' & new & _ & Hreq & Hall & Hlen & _).
  cbv zeta in Hreq. rewrite Hex in Hreq. cbn [snd] in Hreq.
  exists new. split; [|split; [exact Hlen|split]].
  - rewrite Hrun. destruct (falsy r); cbn; congruence.
  - eapply Forall_impl; [exact Hall|]. intros q Hq. cbn beta in Hq.
    now rewrite Hq.
  - apply mem_false in Hc.
    intros [Hn | [Hn | (id & Hi & Hin)]]; congruence.
Qed.


(** X15. A permanent error ends the retry loop at once: for an id that
    is not on the failed list, when the next upstream call raises an
    HTTP error other than 429, or says that the transcripts are
    disabled, not found or the video unavailable, [extract_transcript]
    returns None after that one call, whatever its budget, and the id
    is written to the failed-videos file. *)
Theorem notebook_permanent_error_recorded (video_id : string)
    (w : World JobStatus) (e : exn) :
  (0 < max_retries)%nat ->
  fst (is_video_failed video_id w) = Ok false ->
  upstream env (length (requests w)) video_id = Raise e -> permanent e ->
  let run := extract_transcript_with env max_retries video_id w in
  fst run = Ok None
  /\ (exists t, requests (snd run) = (requests w ++ [(t, video_id)])%list)
  /\ failed_file (snd run) = append_line (failed_file w) video_id.
Proof.
  intros Hmax Hnf Hup Hperm. cbv zeta.
  remember (extract_transcript_with env max_retries video_id w) as run eqn:Hrun.
  unfold extract_transcript_with in Hrun. unfold mbind at 1 in Hrun.
  rewrite notebook_is_video_failed_spec in Hnf, Hrun. cbn [fst] in Hnf.
  injection Hnf as Hnf. rewrite Hnf in Hrun.
  destruct max_retries as [|n]; [lia|].
  cbn [seq attempts] in Hrun. unfold mbind at 1 in Hrun.
  destruct (attempt_once_permanent env (S n) video_id 0 w e Hup Hperm)
    as (Hok & (t & Hreq) & Hfail).
  cbv zeta in Hok, Hreq, Hfail.
  destruct (attempt_once env (S n) video_id 0 w) as [r1 w1].
  cbn [fst snd] in Hok, Hreq, Hfail. subst r1. subst run. unfold ret.
  cbn [fst snd].
  split; [reflexivity|]. split; [exists t; exact Hreq | exact Hfail].
Qed.

End Properties.

Section Limiter.
Context {F : Type}.
Variable env : Env (list (Entry F)).

(** X16. The rate limiter of [main.py], taken alone: against a request time
    in the dict it is given, and with a draw that is not negative, the
    clock is at least [BASE_DELAY] past that time when it returns; the
    dict it saves carries the time of its return. *)
Theorem notebook_enforce_rate_limit_waits (status : JobStatus)
    (w : World JobStatus) (last : Q) :
  has_last_request status = Some last ->
  (0 <= uniform env (draws w) 0 5)%Q ->
  let run := enforce_rate_limit env status w in
  (last + BASE_DELAY <= clock (snd run))%Q
  /\ fst run = Ok (set_last_request_time (Some (clock (snd run))) status)
  /\ status_file (snd run)
     = Holds (set_last_request_time (Some (clock (snd run))) status).
Proof.
  intros Hl Hdraw. cbv zeta.
  unfold enforce_rate_limit, mbind, time, random_uniform, ret, sleep.
  rewrite Hl. cbn [fst snd].
  match goal with |- context [Qlt_bool ?a ?b] => destruct (Qlt_bool a b) eqn:E end;
    cbn [fst snd]; (split; [|split; reflexivity]); cbn.
  - rewrite Qred_correct. unfold BASE_DELAY in *. lra.
  - unfold Qlt_bool in E. apply negb_false_iff, Qle_bool_iff in E.
    unfold BASE_DELAY in *. lra.
Qed.

End Limiter.
End NotebookProperties.

(** ** The three readers of an input line *)

Module LineFacts.
Import Py.

Lemma take_chars_all (n : nat) (s : string) :
  (String.length s <= n)%nat -> take_chars n s = s.
Proof.
  revert n. induction s as [|c s IH]; intros [|n] Hn; cbn in *;
    try reflexivity; try lia.
  f_equal. apply IH. lia.
Qed.

Lemma take_chars_length (n : nat) (s : string) :
  (String.length (take_chars n s) <= n)%nat.
Proof.
  revert s. induction n as [|n IH]; intros [|c s]; cbn; try lia.
  specialize (IH s). lia.
Qed.

(** Where [p] starts [s], or is in [s], what holds of every character
    of [s] holds of every character of [p]. *)
Lemma starts_with_all_chars (q : ascii -> bool) (p s : string) :
  starts_with p s = true -> all_chars q s = true -> all_chars q p = true.
Proof.
  revert s. induction p as [|a p IH]; intros [|b s]; cbn;
    try reflexivity; try discriminate.
  intros Hs Hq. apply andb_true_iff in Hs as [Hab Hs].
  apply andb_true_iff in Hq as [Hb Hq].
  apply Ascii.eqb_eq in Hab. subst b. rewrite Hb. exact (IH s Hs Hq).
Qed.

Lemma contains_all_chars (q : ascii -> bool) (p s : string) :
  contains p s = true -> all_chars q s = true -> all_chars q p = true.
Proof.
  induction s as [|c s IH]; cbn [contains]; intros Hc Hq.
  - rewrite orb_false_r in Hc. exact (starts_with_all_chars q p _ Hc Hq).
  - apply orb_true_iff in Hc as [Hc|Hc].
    + exact (starts_with_all_chars q p _ Hc Hq).
    + cbn in Hq. apply andb_true_iff in Hq as [_ Hq]. exact (IH Hc Hq).
Qed.

Lemma contains_absent (q : ascii -> bool) (p s : string) :
  all_chars q s = true -> all_chars q p = false -> contains p s = false.
Proof.
  intros Hs Hp. destruct (contains p s) eqn:E; [|reflexivity].
  rewrite (contains_all_chars q p s E Hs) in Hp. discriminate.
Qed.

(** A text without the separator is the one part of its split. *)
Lemma split_absent (sep s : string) :
  contains sep s = false -> split_go sep 0 s = [s].
Proof.
  induction s as [|c s IH]; cbn [contains split_go]; intros Hc;
    [reflexivity|].
  apply orb_false_iff in Hc as [Hs Hc]. rewrite Hs, (IH Hc). reflexivity.
Qed.

Lemma rstrip_no_space (s : string) :
  all_chars (fun c => negb (is_space c)) s = true -> rstrip s = s.
Proof.
  induction s as [|c s IH]; cbn; [reflexivity|]. intros Hq.
  apply andb_true_iff in Hq as [Hc Hq]. rewrite (IH Hq).
  apply negb_true_iff in Hc. rewrite Hc. reflexivity.
Qed.

Lemma strip_no_space (s : string) :
  all_chars (fun c => negb (is_space c)) s = true -> strip s = s.
Proof.
  intros Hq. unfold strip.
  assert (Hl : lstrip s = s).
  { destruct s as [|c s]; [reflexivity|]. cbn in Hq |- *.
    apply andb_true_iff in Hq as [Hc _]. apply negb_true_iff in Hc.
    now rewrite Hc. }
  rewrite Hl. now apply rstrip_no_space.
Qed.

Lemma all_chars_impl (q q' : ascii -> bool) (s : string) :
  (forall c, q c = true -> q' c = true) ->
  all_chars q s = true -> all_chars q' s = true.
Proof.
  intros Hqq'. induction s as [|c s IH]; cbn; [reflexivity|]. intros Hq.
  apply andb_true_iff in Hq as [Hc Hq]. now rewrite (Hqq' c Hc), IH.
Qed.

Lemma all_chars_app (q : ascii -> bool) (a b : string) :
  all_chars q (a ++ b) = all_chars q a && all_chars q b.
Proof.
  induction a as [|c a IH]; simpl; [reflexivity|].
  now rewrite IH, andb_assoc.
Qed.

(** The characters of an id, in the alphabet of the planner's patterns,
    pass the test of a bare id and are no blanks. *)
Lemma id_class_id_char (c : ascii) : Planner.id_class c = true -> id_char c = true.
Proof.
  destruct c as [[] [] [] [] [] [] [] []]; vm_compute; congruence.
Qed.

Lemma id_char_no_space (c : ascii) : id_char c = true -> negb (is_space c) = true.
Proof.
  destruct c as [[] [] [] [] [] [] [] []]; vm_compute; congruence.
Qed.

(** [re.search] for the patterns of the planner. *)
Lemma search_step (before after : string) (c : ascii) (s : string) :
  Planner.match_here before after (String c s) = None ->
  Planner.search before after (String c s) = Planner.search before after s.
Proof.
  intros Hm.
  change (Planner.search before after (String c s))
    with (match Planner.match_here before after (String c s) with
          | Some group => Some group
          | None => Planner.search before after s
          end).
  now rewrite Hm.
Qed.

Lemma search_here (before after s group : string) :
  Planner.match_here before after s = Some group ->
  Planner.search before after s = Some group.
Proof. intros Hm. destruct s; cbn [Planner.search]; now rewrite Hm. Qed.

Lemma search_absent (before after s : string) :
  contains before s = false -> Planner.search before after s = None.
Proof.
  induction s as [|c s IH]; cbn [contains Planner.search]; intros Hc.
  - rewrite orb_false_r in Hc. unfold Planner.match_here. now rewrite Hc.
  - apply orb_false_iff in Hc as [Hs Hc]. unfold Planner.match_here.
    rewrite Hs. exact (IH Hc).
Qed.

(** A line of eleven characters that pass the test of a bare id is read
    as itself. *)
Lemma bare_line (s : string) :
  String.length s = 11%nat -> all_chars id_char s = true ->
  get_video_id s = Some s /\ Planner.get_video_id s = Some s.
Proof.
  intros Hlen Hid.
  pose proof (all_chars_impl _ _ s id_char_no_space Hid) as Hns.
  split.
  - unfold get_video_id. rewrite (strip_no_space s Hns).
    rewrite (contains_absent id_char "youtube.com/watch" s Hid eq_refl).
    rewrite (contains_absent id_char "youtu.be/" s Hid eq_refl).
    rewrite Hlen, Hid. reflexivity.
  - unfold Planner.get_video_id. rewrite Hlen, Hid.
    destruct s; [discriminate | reflexivity].
Qed.

Lemma search_class (before after s group : string) :
  Planner.search before after s = Some group ->
  String.length group = 11%nat /\ all_chars Planner.id_class group = true.
Proof.
  assert (Hhere : forall t,
    Planner.match_here before after t = Some group ->
    String.length group = 11%nat /\ all_chars Planner.id_class group = true).
  { intros t. unfold Planner.match_here.
    destruct (starts_with before t); [|discriminate].
    destruct (_ && _) eqn:E; [|discriminate].
    intros Hg. injection Hg as <-.
    apply andb_true_iff in E as [E _]. apply andb_true_iff in E as [El Ec].
    split; [now apply Nat.eqb_eq in El | exact Ec]. }
  induction s as [|c s IH]; cbn [Planner.search].
  - destruct (Planner.match_here before after EmptyString) eqn:E;
      [|discriminate].
    intros Hg. injection Hg as <-. exact (Hhere _ E).
  - destruct (Planner.match_here before after (String c s)) eqn:E;
      [|exact IH].
    intros Hg. injection Hg as <-. exact (Hhere _ E).
Qed.

(** X17. An id the planner reads from a line is read as itself by the three
    scripts: it has eleven characters, each of them one a bare id may
    have. *)
Theorem planner_id_is_bare (line id : string) :
  Planner.get_video_id line = Some id ->
  String.length id = 11%nat
  /\ get_video_id id = Some id /\ Planner.get_video_id id = Some id.
Proof.
  intros Hg.
  assert (Hid : String.length id = 11%nat /\ all_chars id_char id = true).
  { revert Hg. unfold Planner.get_video_id.
    destruct (negb (nonempty line)); [discriminate|].
    destruct (_ && _) eqn:E.
    - intros Hg. injection Hg as <-.
      apply andb_true_iff in E as [El Ec]. now apply Nat.eqb_eq in El.
    - clear E. generalize Planner.patterns. intros ps.
      induction ps as [|p ps IH]; simpl; [discriminate|].
      destruct (Planner.search p EmptyString line) eqn:Es; [|exact IH].
      intros Hg. injection Hg as <-.
      destruct (search_class _ _ _ _ Es) as [Hl Hc].
      split; [exact Hl | exact (all_chars_impl _ _ _ id_class_id_char Hc)]. }
  destruct Hid as [Hl Hc]. split; [exact Hl | exact (bare_line id Hl Hc)].
Qed.

(** The id of a short link. *)
Lemma planner_id_is_bare_witness :
  String.length Runs.video_b = 11%nat
  /\ get_video_id Runs.video_b = Some Runs.video_b
  /\ Planner.get_video_id Runs.video_b = Some Runs.video_b.
Proof.
  apply (planner_id_is_bare "https://youtu.be/BBBBBBBBBBB" Runs.video_b).
  reflexivity.
Defined.

Section Forms.
Variable id : string.
Hypothesis Hlen : String.length id = 11%nat.
Hypothesis Hcls : all_chars Planner.id_class id = true.

Lemma id_chars : all_chars id_char id = true.
Proof. exact (all_chars_impl _ _ id id_class_id_char Hcls). Qed.

Lemma id_no_space : all_chars (fun c => negb (is_space c)) id = true.
Proof. exact (all_chars_impl _ _ id id_char_no_space id_chars). Qed.

Lemma id_without (p : string) :
  all_chars id_char p = false -> contains p id = false.
Proof. apply (contains_absent id_char), id_chars. Qed.

Lemma match_here_id (before : string) :
  Planner.match_here before EmptyString (before ++ id) = Some id.
Proof.
  unfold Planner.match_here.
  assert (Hs : starts_with before (before ++ id) = true).
  { induction before as [|c p IH]; [reflexivity|]. simpl.
    now rewrite Ascii.eqb_refl, IH. }
  assert (Hd : Planner.drop_chars (String.length before) (before ++ id) = id).
  { clear Hs. induction before as [|c p IH]; [reflexivity | exact IH]. }
  rewrite Hs, Hd, take_chars_all by lia. rewrite Hlen, Hcls.
  destruct id; reflexivity.
Qed.

Lemma bare_id :
  get_video_id id = Some id /\ Planner.get_video_id id = Some id.
Proof. exact (bare_line id Hlen id_chars). Qed.

Lemma watch_url :
  let line := "https://www.youtube.com/watch?v=" ++ id in
  get_video_id line = Some id /\ Planner.get_video_id line = Some id.
Proof.
  cbv zeta. split.
  - unfold get_video_id. rewrite strip_no_space
      by (rewrite all_chars_app, id_no_space; reflexivity).
    cbv [String.append]. unfold split. simpl contains. simpl split_go.
    rewrite (split_absent _ _ (id_without "v=" eq_refl)). cbn [nth].
    rewrite (split_absent _ _ (id_without "&" eq_refl)). cbn [hd andb].
    rewrite take_chars_all by lia. reflexivity.
  - assert (Hs : Planner.search "youtube.com/watch?v=" ""
                   ("https://www.youtube.com/watch?v=" ++ id) = Some id).
    { cbv [String.append].
      do 12 (rewrite search_step by reflexivity).
      apply search_here. exact (match_here_id "youtube.com/watch?v="). }
    unfold Planner.get_video_id, Planner.patterns. cbn [Planner.first_match].
    rewrite Hs. cbv [String.append].
    cbn [nonempty negb String.length]. rewrite Hlen. reflexivity.
Qed.

Lemma short_url :
  let line := "https://youtu.be/" ++ id in
  get_video_id line = Some id /\ Planner.get_video_id line = Some id.
Proof.
  cbv zeta. split.
  - unfold get_video_id. rewrite strip_no_space
      by (rewrite all_chars_app, id_no_space; reflexivity).
    cbv [String.append]. unfold split. simpl contains.
    rewrite (id_without "youtube.com/watch" eq_refl). cbn [andb orb].
    simpl split_go.
    rewrite (split_absent _ _ (id_without "youtu.be/" eq_refl)). cbn [nth].
    rewrite (split_absent _ _ (id_without "?" eq_refl)). cbn [hd].
    rewrite take_chars_all by lia. reflexivity.
  - assert (Hw : Planner.search "youtube.com/watch?v=" ""
                   ("https://youtu.be/" ++ id) = None).
    { apply search_absent. cbv [String.append]. simpl contains.
      exact (id_without "youtube.com/watch?v=" eq_refl). }
    assert (Hs : Planner.search "youtu.be/" "" ("https://youtu.be/" ++ id)
                 = Some id).
    { cbv [String.append].
      do 8 (rewrite search_step by reflexivity).
      apply search_here. exact (match_here_id "youtu.be/"). }
    unfold Planner.get_video_id, Planner.patterns. cbn [Planner.first_match].
    rewrite Hw, Hs. cbv [String.append].
    cbn [nonempty negb String.length]. rewrite Hlen. reflexivity.
Qed.

End Forms.

(** X18. The three scripts read a line alike when it is a well-formed id,
    bare or in a watch or short link: [get_video_id] of
    [youtube_transcriber.py] and [main.py] and that of
    [process_failed_videos.py] all answer the id. *)
Theorem well_formed_lines_agree (id : string) :
  String.length id = 11%nat -> all_chars Planner.id_class id = true ->
  Forall (fun line =>
            get_video_id line = Some id /\ Planner.get_video_id line = Some id)
    [id; "https://www.youtube.com/watch?v=" ++ id; "https://youtu.be/" ++ id].
Proof.
  intros Hlen Hcls. repeat apply Forall_cons_2; [| | |apply Forall_nil_2].
  - now apply bare_id.
  - now apply watch_url.
  - now apply short_url.
Qed.

(** The forms of the line for the id [AAAAAAAAAAA]. *)
Lemma well_formed_lines_agree_witness :
  Forall (fun line =>
            get_video_id line = Some Runs.video_a
            /\ Planner.get_video_id line = Some Runs.video_a)
    [Runs.video_a; "https://www.youtube.com/watch?v=" ++ Runs.video_a;
     "https://youtu.be/" ++ Runs.video_a].
Proof. apply (well_formed_lines_agree Runs.video_a); reflexivity. Defined.

End LineFacts.

(** ** [process_failed_videos.py]: what counts as downloaded *)

Module FolderFacts.
Import Py Planner.

Lemma append_cons (c : ascii) (a b : string) :
  (String c a ++ b)%string = String c (a ++ b).
Proof. reflexivity. Qed.

Lemma append_assoc (a b c : string) : ((a ++ b) ++ c = a ++ (b ++ c))%string.
Proof.
  induction a as [|x a IH]; [reflexivity|].
  now rewrite !append_cons, IH.
Qed.

Lemma append_nil_r (a : string) : (a ++ "")%string = a.
Proof.
  induction a as [|x a IH]; [reflexivity|]. now rewrite append_cons, IH.
Qed.

Lemma length_append (a b : string) :
  String.length (a ++ b) = (String.length a + String.length b)%nat.
Proof.
  induction a as [|x a IH]; [reflexivity|].
  rewrite append_cons. simpl. now rewrite IH.
Qed.

Lemma rev_app_spec (s acc : string) :
  String.rev_app s acc = (String.rev s ++ acc)%string.
Proof.
  unfold String.rev. revert acc. induction s as [|c s IH]; intros acc; simpl.
  - reflexivity.
  - rewrite (IH (String c acc)), (IH (String c EmptyString)), append_assoc.
    reflexivity.
Qed.

Lemma rev_cons (c : ascii) (s : string) :
  String.rev (String c s) = (String.rev s ++ String c EmptyString)%string.
Proof. unfold String.rev at 1. simpl. apply rev_app_spec. Qed.

Lemma rev_append (a b : string) :
  String.rev (a ++ b) = (String.rev b ++ String.rev a)%string.
Proof.
  induction a as [|c a IH].
  - change (String.rev EmptyString) with EmptyString. now rewrite append_nil_r.
  - rewrite append_cons, !rev_cons, IH, append_assoc. reflexivity.
Qed.

Lemma rev_involutive (s : string) : String.rev (String.rev s) = s.
Proof.
  induction s as [|c s IH]; [reflexivity|].
  rewrite rev_cons, rev_append, IH. reflexivity.
Qed.

Lemma append_inj_l (a b c : string) :
  (a ++ c)%string = (b ++ c)%string -> a = b.
Proof.
  intros Heq. apply (f_equal String.rev) in Heq. rewrite !rev_append in Heq.
  apply String.app_inj in Heq.
  rewrite <- (rev_involutive a), Heq. apply rev_involutive.
Qed.

Lemma starts_with_app (p s : string) :
  starts_with p s = true <-> exists r, s = (p ++ r)%string.
Proof.
  revert s. induction p as [|a p IH]; intros s.
  - split; [intros _; exists s; reflexivity | destruct s; reflexivity].
  - destruct s as [|b s].
    + split; [discriminate | intros [r Hr]; discriminate].
    + cbn [starts_with]. rewrite andb_true_iff, IH. split.
      * intros [Hab [r ->]]. apply Ascii.eqb_eq in Hab. subst b.
        exists r. reflexivity.
      * intros [r Hr]. rewrite append_cons in Hr. injection Hr as -> ->.
        split; [apply Ascii.eqb_refl | eauto].
Qed.

(** [s.endswith(suffix)] *)
Lemma ends_with_app (suffix s : string) :
  ends_with suffix s = true <-> exists stem, s = (stem ++ suffix)%string.
Proof.
  unfold ends_with. rewrite starts_with_app. split.
  - intros [r Hr]. exists (String.rev r).
    rewrite <- (rev_involutive s), Hr, rev_append, rev_involutive.
    reflexivity.
  - intros [stem ->]. exists (String.rev stem). apply rev_append.
Qed.

(** [s[:-4]] of a name with an extension of four characters. *)
Lemma take_chars_stem (stem ext : string) :
  take_chars (String.length (stem ++ ext) - String.length ext) (stem ++ ext)
  = stem.
Proof.
  rewrite length_append.
  replace (String.length stem + String.length ext - String.length ext)%nat
    with (String.length stem) by lia.
  induction stem as [|c stem IH].
  - destruct ext; reflexivity.
  - rewrite append_cons. simpl. now rewrite IH.
Qed.

Lemma downloaded_fold (names : list string) (acc : gset string) (id : string) :
  id ∈ fold_left
         (fun downloaded filename =>
            if ends_with ".txt" filename
               && negb (String.eqb filename "error_log.txt")
            then
              let video_id :=
                take_chars (String.length filename - 4) filename in
              if (String.length video_id =? 11)%nat
              then downloaded ∪ {[video_id]}
              else downloaded
            else downloaded) names acc
  <-> id ∈ acc
      \/ (String.length id = 11%nat /\ (id ++ ".txt")%string ∈ names).
Proof.
  revert acc. induction names as [|name names IH]; intros acc; simpl.
  - split; [tauto|]. intros [?|[_ Hin]]; [assumption|].
    now apply not_elem_of_nil in Hin.
  - rewrite IH. clear IH.
    destruct (ends_with ".txt" name && negb (String.eqb name "error_log.txt"))
      eqn:E.
    + apply andb_true_iff in E as [Hend _].
      apply ends_with_app in Hend as [stem ->].
      rewrite (take_chars_stem stem ".txt" : take_chars
                 (String.length (stem ++ ".txt") - 4) (stem ++ ".txt") = stem).
      destruct (String.length stem =? 11)%nat eqn:El.
      * apply Nat.eqb_eq in El. rewrite elem_of_union, elem_of_singleton.
        split.
        -- intros [[?| ->]|[Hl Hin]]; [tauto | |].
           ++ right. split; [exact El | apply list_elem_of_here].
           ++ right. split; [exact Hl | now apply list_elem_of_further].
        -- intros [?|[Hl Hin]]; [tauto|].
           apply elem_of_cons in Hin as [Heq|Hin]; [|tauto].
           apply append_inj_l in Heq. tauto.
      * apply Nat.eqb_neq in El. split; [intros [?|[Hl Hin]]|].
        -- tauto.
        -- right. split; [exact Hl | now apply list_elem_of_further].
        -- intros [?|[Hl Hin]]; [tauto|].
           apply elem_of_cons in Hin as [Heq|Hin]; [|tauto].
           exfalso. apply El. rewrite <- Hl.
           apply (f_equal String.length) in Heq.
           rewrite !length_append in Heq. simpl in Heq. lia.
    + split; [intros [?|[Hl Hin]]|].
      * tauto.
      * right. split; [exact Hl | now apply list_elem_of_further].
      * intros [?|[Hl Hin]]; [tauto|].
        apply elem_of_cons in Hin as [Heq|Hin]; [|tauto].
        exfalso. subst name. apply andb_false_iff in E as [E|E].
        -- assert (Hend : ends_with ".txt" (id ++ ".txt") = true)
             by (apply ends_with_app; eauto).
           congruence.
        -- apply negb_false_iff, String.eqb_eq in E.
           apply (f_equal String.length) in E.
           rewrite length_append in E. simpl in E. lia.
Qed.

(** X19. An id counts as downloaded exactly when it has eleven characters and
    the output folder has the file of its name with the extension
    [.txt]. *)
Theorem downloaded_spec (fs : Files) (names : list string) (id : string) :
  output_folder fs = Some names ->
  id ∈ get_downloaded_videos fs
  <-> String.length id = 11%nat /\ (id ++ ".txt")%string ∈ names.
Proof.
  intros Hf. unfold get_downloaded_videos. rewrite Hf, downloaded_fold.
  split; [intros [Hin|?]; [now apply not_elem_of_empty in Hin | assumption]|].
  now right.
Qed.

(** The folder of the example holds the transcript of [AAAAAAAAAAA]. *)
Lemma downloaded_spec_witness :
  Runs.video_a ∈ get_downloaded_videos Runs.abcd
  <-> String.length Runs.video_a = 11%nat
      /\ (Runs.video_a ++ ".txt")%string
         ∈ ["AAAAAAAAAAA.txt"; "error_log.txt"; "failed_videos.txt";
            "processing_status.json"].
Proof. apply (downloaded_spec Runs.abcd). reflexivity. Defined.

End FolderFacts.

(** ** The iteration planner against its plan *)

Module PlannerTheorems.
Import Planner PlannerFacts.

Lemma stripped_lines_spec (lines : list string) (line : string) :
  line ∈ stripped_lines lines
  <-> exists source, source ∈ lines /\ line = Py.strip source
                     /\ Py.nonempty line = true.
Proof.
  unfold stripped_lines. rewrite list_elem_of_filter, list_elem_of_fmap.
  split.
  - intros [Hn (source & -> & Hin)]. exists source. auto.
  - intros (source & Hin & -> & Hn). split; [exact Hn|]. exists source. auto.
Qed.

Lemma get_video_id_of_nonempty (url id : string) :
  get_video_id url = Some id -> Py.nonempty url = true.
Proof. destruct url; [discriminate | reflexivity]. Qed.

(** The originals are the ids asked for. *)
Lemma asked_spec (fs : Files) (id : string) :
  id ∈ get_all_original_videos fs <-> Plan.asked fs id.
Proof.
  unfold Plan.asked. destruct (yt_file fs) as [lines|] eqn:Hy.
  - rewrite (originals_spec fs lines id Hy). split.
    + intros (line & Hin & Hg).
      apply stripped_lines_spec in Hin as (source & Hin & -> & _).
      exists lines, source. auto.
    + intros (lines' & source & Heq & Hin & Hg). injection Heq as <-.
      exists (Py.strip source). split; [|exact Hg].
      apply stripped_lines_spec. exists source.
      split; [exact Hin|]. split; [reflexivity|].
      eapply get_video_id_of_nonempty, Hg.
  - unfold get_all_original_videos. rewrite Hy. split.
    + intros Hin. now apply not_elem_of_empty in Hin.
    + intros (lines & _ & Heq & _). discriminate.
Qed.

(** The downloaded are the ids whose transcript file is in the folder. *)
Lemma downloaded_plan (fs : Files) (id : string) :
  id ∈ get_downloaded_videos fs <-> Plan.downloaded fs id.
Proof.
  unfold Plan.downloaded, get_downloaded_videos.
  destruct (output_folder fs) as [names|].
  - rewrite FolderFacts.downloaded_fold. split.
    + intros [Hin|Hd]; [now apply not_elem_of_empty in Hin|].
      exists names. tauto.
    + intros (names' & Heq & Hd). injection Heq as <-. now right.
  - split.
    + intros Hin. now apply not_elem_of_empty in Hin.
    + intros (names & Heq & _). discriminate.
Qed.

(** The failed are the ids of eleven characters on the failed-videos
    file. *)
Lemma failed_plan (fs : Files) (id : string) :
  id ∈ get_failed_videos fs <-> Plan.failed fs id.
Proof.
  unfold Plan.failed, get_failed_videos.
  destruct (failed_file fs) as [lines|].
  - rewrite elem_of_list_to_set, list_elem_of_filter, stripped_lines_spec.
    split.
    + intros [Hl (source & Hin & -> & _)]. apply Nat.eqb_eq in Hl.
      exists lines, source. auto.
    + intros (lines' & source & Heq & Hin & <- & Hl). injection Heq as <-.
      split; [now apply Nat.eqb_eq|]. exists source.
      split; [exact Hin|]. split; [reflexivity|].
      destruct (Py.strip source); [discriminate | reflexivity].
  - split.
    + intros Hin. now apply not_elem_of_empty in Hin.
    + intros (lines & source & Heq & _). discriminate.
Qed.

(** One line of the error log adds its id to one category: the first
    whose words the line has. *)
Lemma classify_line (cats : Categories) (line id : string) :
  (id ∈ no_subtitles (classify cats line)
   <-> id ∈ no_subtitles cats
       \/ (search "[" "]" line = Some id
           /\ Plan.says_no_subtitles line = true))
  /\ (id ∈ unavailable (classify cats line)
      <-> id ∈ unavailable cats
          \/ (search "[" "]" line = Some id
              /\ Plan.says_no_subtitles line = false
              /\ Plan.says_rate_limited line = false
              /\ Plan.says_unavailable line = true)).
Proof.
  unfold classify.
  fold (Plan.says_no_subtitles line). fold (Plan.says_rate_limited line).
  fold (Plan.says_unavailable line).
  destruct (search "[" "]" line) as [video_id|].
  2:{ split; split; try tauto.
      - intros [?|[Hs _]]; [assumption | discriminate].
      - intros [?|[Hs _]]; [assumption | discriminate]. }
  destruct (Plan.says_no_subtitles line); cbn [no_subtitles unavailable].
  { rewrite elem_of_union, elem_of_singleton. split; split.
    - intros [? | ->]; auto.
    - intros [?|[Heq _]]; [auto|]. right. congruence.
    - tauto.
    - intros [?|(_ & Hf & _)]; [assumption | discriminate]. }
  destruct (Plan.says_rate_limited line); cbn [no_subtitles unavailable].
  { split; split; try tauto.
    - intros [?|[_ Hf]]; [assumption | discriminate].
    - intros [?|(_ & _ & Hf & _)]; [assumption | discriminate]. }
  destruct (Plan.says_unavailable line); cbn [no_subtitles unavailable].
  { rewrite elem_of_union, elem_of_singleton. split; split.
    - tauto.
    - intros [?|[_ Hf]]; [assumption | discriminate].
    - intros [? | ->]; auto.
    - intros [?|(Heq & _)]; [auto|]. right. congruence. }
  split; split; try tauto.
  - intros [?|[_ Hf]]; [assumption | discriminate].
  - intros [?|(_ & _ & _ & Hf)]; [assumption | discriminate].
Qed.

Lemma classify_fold (lines : list string) (id : string) :
  forall cats,
    (id ∈ no_subtitles (fold_left classify lines cats)
     <-> id ∈ no_subtitles cats
         \/ exists line, line ∈ lines /\ search "[" "]" line = Some id
                         /\ Plan.says_no_subtitles line = true)
    /\ (id ∈ unavailable (fold_left classify lines cats)
        <-> id ∈ unavailable cats
            \/ exists line, line ∈ lines /\ search "[" "]" line = Some id
                            /\ Plan.says_no_subtitles line = false
                            /\ Plan.says_rate_limited line = false
                            /\ Plan.says_unavailable line = true).
Proof.
  induction lines as [|x lines IH]; intros cats; cbn [fold_left].
  - split; (split; [tauto|]); intros [?|(line & Hin & _)];
      try assumption; now apply not_elem_of_nil in Hin.
  - destruct (IH (classify cats x)) as [IHn IHu].
    destruct (classify_line cats x id) as [Hn Hu].
    rewrite IHn, IHu, Hn, Hu. clear. split; split.
    + intros [[?|[Hs Hw]]|(line & Hin & Hl)]; [tauto | |].
      * right. exists x. split; [apply list_elem_of_here | tauto].
      * right. exists line. split; [now apply list_elem_of_further | tauto].
    + intros [?|(line & Hin & Hl)]; [tauto|].
      apply elem_of_cons in Hin as [->|Hin]; [tauto|].
      right. exists line. tauto.
    + intros [[?|Hl]|(line & Hin & Hl)]; [tauto | |].
      * right. exists x. split; [apply list_elem_of_here | tauto].
      * right. exists line. split; [now apply list_elem_of_further | tauto].
    + intros [?|(line & Hin & Hl)]; [tauto|].
      apply elem_of_cons in Hin as [->|Hin]; [tauto|].
      right. exists line. tauto.
Qed.

(** The categories of [analyze_errors] are those of the plan. *)
Lemma categories_plan (fs : Files) (id : string) :
  (id ∈ no_subtitles (analyze_errors fs) <-> Plan.classified_no_subtitles fs id)
  /\ (id ∈ unavailable (analyze_errors fs)
      <-> Plan.classified_unavailable fs id).
Proof.
  unfold Plan.classified_no_subtitles, Plan.classified_unavailable,
    Plan.logged, analyze_errors.
  destruct (error_log fs) as [lines|].
  - destruct (classify_fold lines id (mkCategories ∅ ∅ ∅ ∅)) as [Hn Hu].
    rewrite Hn, Hu. cbn [no_subtitles unavailable]. split; split.
    + intros [Hin|(line & Hin & Hs & Hw)];
        [now apply not_elem_of_empty in Hin|].
      exists line. split; [exists lines; auto | exact Hw].
    + intros (line & (lines' & Heq & Hin & Hs) & Hw). injection Heq as <-.
      right. exists line. auto.
    + intros [Hin|(line & Hin & Hs & Hw)];
        [now apply not_elem_of_empty in Hin|].
      exists line. split; [exists lines; auto | exact Hw].
    + intros (line & (lines' & Heq & Hin & Hs) & Hw). injection Heq as <-.
      right. exists line. auto.
  - cbn [no_subtitles unavailable]. split; split;
      try (intros Hin; now apply not_elem_of_empty in Hin);
      intros (line & (lines & Heq & _) & _); discriminate.
Qed.

Lemma missing_plan (fs : Files) (id : string) :
  id ∈ get_all_original_videos fs ∖ get_downloaded_videos fs
  <-> Plan.missing fs id.
Proof.
  unfold Plan.missing.
  rewrite elem_of_difference, asked_spec, downloaded_plan. reflexivity.
Qed.

Lemma skip_plan (fs : Files) (id : string) :
  id ∈ no_subtitles (analyze_errors fs) ∪ unavailable (analyze_errors fs)
  <-> Plan.skip fs id.
Proof.
  unfold Plan.skip. destruct (categories_plan fs id) as [Hn Hu].
  rewrite elem_of_union, Hn, Hu. reflexivity.
Qed.

Lemma retry_plan (fs : Files) (id : string) :
  id ∈ (get_all_original_videos fs ∖ get_downloaded_videos fs)
       ∖ (no_subtitles (analyze_errors fs) ∪ unavailable (analyze_errors fs))
  <-> Plan.retry fs id.
Proof.
  unfold Plan.retry.
  rewrite elem_of_difference, missing_plan, skip_plan. reflexivity.
Qed.

(** The size of a set counts the ids of its description. *)
Lemma count_of_set (ids : gset string) (P : string -> Prop) :
  (forall id, id ∈ ids <-> P id) -> Plan.count P (size ids).
Proof.
  intros HP. exists (elements ids). split; [apply NoDup_elements|].
  split; [|reflexivity].
  intros id. rewrite elem_of_elements. apply HP.
Qed.

(** C9. With the input file and the output folder in place,
    [create_new_iteration_file] writes the new file and returns.  Its
    report counts the ids asked for, the ids downloaded, the ids of
    missing = original − downloaded, the ids of
    retry = missing − (no-subtitles ∪ unavailable), the ids of each of
    the two skipped categories and the ids of the failed list, each said
    of the files themselves.  The new file has one line for each id to
    retry: a line of the input, stripped, that bears this id.  In the
    folder of the example (A, B, C, D asked for, A downloaded, B logged
    without subtitles, C rate limited, B and C on the failed list) the
    ids to retry are C and D, written with their source lines, the count
    of skipped ids without subtitles is 1, that of unavailable ids is 0
    and that of failed ids is 2. *)
Theorem create_new_iteration_file_plan :
  (forall (iteration : nat) (fs : Files) (lines names : list string),
     yt_file fs = Some lines ->
     output_folder fs = Some names ->
     exists out,
       create_new_iteration_file iteration fs
       = (Some (iteration_lines out), Ok out)
       /\ Plan.count (Plan.asked fs) (original_video_count (report out))
       /\ Plan.count (Plan.downloaded fs) (downloaded_count (report out))
       /\ Plan.count (Plan.missing fs) (missing_count (report out))
       /\ Plan.count (Plan.retry fs) (retrying_count (report out))
       /\ Plan.count (Plan.classified_no_subtitles fs)
            (skipped_no_subtitles (report out))
       /\ Plan.count (Plan.classified_unavailable fs)
            (skipped_unavailable (report out))
       /\ Plan.count (Plan.failed fs) (skipped_failed (report out))
       /\ length (iteration_lines out) = retrying_count (report out)
       /\ (forall line, line ∈ iteration_lines out ->
             exists source id,
               source ∈ lines /\ line = Py.strip source
               /\ get_video_id line = Some id /\ Plan.retry fs id)
       /\ (forall id, Plan.retry fs id ->
             exists line, line ∈ iteration_lines out
                          /\ get_video_id line = Some id))
  /\ ((forall id, Plan.asked Runs.abcd id
                  <-> id ∈ [Runs.video_a; Runs.video_b; Runs.video_c;
                            Runs.video_d])
      /\ (forall id, Plan.downloaded Runs.abcd id <-> id = Runs.video_a)
      /\ (forall id, Plan.classified_no_subtitles Runs.abcd id
                     <-> id = Runs.video_b)
      /\ exists out,
           create_new_iteration_file 1 Runs.abcd
           = (Some (iteration_lines out), Ok out)
           /\ iteration_lines out
              ≡ₚ ["CCCCCCCCCCC";
                  "https://www.youtube.com/watch?v=DDDDDDDDDDD&t=10s"]
           /\ map get_video_id (iteration_lines out)
              ≡ₚ [Some Runs.video_c; Some Runs.video_d]
           /\ (forall id, Plan.retry Runs.abcd id
                          <-> id = Runs.video_c \/ id = Runs.video_d)
           /\ original_video_count (report out) = 4%nat
           /\ downloaded_count (report out) = 1%nat
           /\ missing_count (report out) = 3%nat
           /\ retrying_count (report out) = 2%nat
           /\ skipped_no_subtitles (report out) = 1%nat
           /\ skipped_unavailable (report out) = 0%nat
           /\ skipped_failed (report out) = 2%nat).
Proof.
  split.
  - intros iteration fs lines names Hy Ho.
    unfold create_new_iteration_file. rewrite Hy, Ho.
    eexists (mkIteration _ _). split; [reflexivity|].
    cbn [report iteration_lines original_video_count downloaded_count
         missing_count retrying_count skipped_no_subtitles
         skipped_unavailable skipped_failed].
    split; [apply count_of_set; intros id; apply asked_spec|].
    split; [apply count_of_set; intros id; apply downloaded_plan|].
    split; [apply count_of_set; intros id; apply missing_plan|].
    split; [apply count_of_set; intros id; apply retry_plan|].
    split; [apply count_of_set; intros id; apply categories_plan|].
    split; [apply count_of_set; intros id; apply categories_plan|].
    split; [apply count_of_set; intros id; apply failed_plan|].
    set (retry := (get_all_original_videos fs ∖ get_downloaded_videos fs)
                  ∖ (no_subtitles (analyze_errors fs)
                     ∪ unavailable (analyze_errors fs))).
    destruct (written_lines_spec lines (elements retry)) as (Hlen & Hsub & Hall).
    { intros id Hin. apply elem_of_elements in Hin.
      apply elem_of_difference in Hin as [Hin _].
      apply elem_of_difference in Hin as [Hin _].
      apply (originals_spec fs lines id Hy) in Hin as (line & Hin' & Hg).
      exists line. split; [exact Hin'|]. split; [exact Hg|].
      eapply get_video_id_nonempty, Hg. }
    split; [exact Hlen|]. split.
    + intros line Hin. destruct (Hsub line Hin) as (Hs & id & Hid & Hg).
      apply stripped_lines_spec in Hs as (source & Hsrc & -> & _).
      exists source, id. split; [exact Hsrc|]. split; [reflexivity|].
      split; [exact Hg|]. apply retry_plan. now apply elem_of_elements.
    + intros id Hid. apply Hall. apply elem_of_elements.
      now apply retry_plan.
  - assert (Hasked : get_all_original_videos Runs.abcd
                     = {[Runs.video_a; Runs.video_b; Runs.video_c;
                         Runs.video_d]}) by (vm_compute; reflexivity).
    assert (Hdown : get_downloaded_videos Runs.abcd = {[Runs.video_a]})
      by (vm_compute; reflexivity).
    assert (Hnosub : no_subtitles (analyze_errors Runs.abcd)
                     = {[Runs.video_b]}) by (vm_compute; reflexivity).
    assert (Hretry : (get_all_original_videos Runs.abcd
                      ∖ get_downloaded_videos Runs.abcd)
                     ∖ (no_subtitles (analyze_errors Runs.abcd)
                        ∪ unavailable (analyze_errors Runs.abcd))
                     = {[Runs.video_c; Runs.video_d]})
      by (vm_compute; reflexivity).
    split.
    { intros id. rewrite <- asked_spec, Hasked.
      rewrite !elem_of_union, !elem_of_singleton, !elem_of_cons,
        elem_of_nil. tauto. }
    split.
    { intros id. rewrite <- downloaded_plan, Hdown.
      apply elem_of_singleton. }
    split.
    { intros id. rewrite <- (proj1 (categories_plan Runs.abcd id)), Hnosub.
      apply elem_of_singleton. }
    eexists (mkIteration _ (mkReport _ _ _ _ _ _ _ _)).
    split; [vm_compute; reflexivity|].
    cbn [iteration_lines report original_video_count downloaded_count
         missing_count retrying_count skipped_no_subtitles
         skipped_unavailable skipped_failed].
    split; [reflexivity|]. split; [reflexivity|]. split.
    { intros id. rewrite <- retry_plan, Hretry.
      rewrite elem_of_union, !elem_of_singleton. reflexivity. }
    repeat split; reflexivity.
Qed.

(** The general part of C9 at the folder of the example. *)
Lemma create_new_iteration_file_plan_witness :
  exists out,
    create_new_iteration_file 1 Runs.abcd
    = (Some (iteration_lines out), Ok out)
    /\ Plan.count (Plan.retry Runs.abcd) (retrying_count (report out))
    /\ Plan.count (Plan.failed Runs.abcd) (skipped_failed (report out))
    /\ length (iteration_lines out) = retrying_count (report out).
Proof.
  destruct (proj1 create_new_iteration_file_plan 1%nat Runs.abcd _ _
              eq_refl eq_refl)
    as (out & Hrun & _ & _ & _ & Hretry & _ & _ & Hfailed & Hlen & _).
  exists out. auto.
Defined.

(** Without the input file nothing is written; without the output
    folder the new file is written and the report is not. *)
Lemma create_new_iteration_file_raises (iteration : nat) (fs : Files) :
  (yt_file fs = None ->
   create_new_iteration_file iteration fs = (None, Raise FileNotFoundError))
  /\ (output_folder fs = None ->
      snd (create_new_iteration_file iteration fs) = Raise FileNotFoundError).
Proof.
  unfold create_new_iteration_file. split.
  - intros ->. reflexivity.
  - intros ->. destruct (yt_file fs); reflexivity.
Qed.

End PlannerTheorems.

(** ** [youtube_transcriber.py]: what is written, and what the planner
    sees of it *)

Module TranscriberOutput.
Import Py Spec Transcriber Invariants.T Steps Steps.T TranscriberProperties.

Section Writer.
Context {F : Type}.
Variable format_timestamp : F -> string.

Lemma written_records_sublist (transcript : list (Entry F)) :
  forall previous_text,
    written_records format_timestamp previous_text transcript
    `sublist_of` map (fun e => (format_timestamp (start e), strip (text e)))
                   transcript.
Proof.
  induction transcript as [|entry rest IH]; intros previous_text; simpl;
    [constructor|].
  destruct (match previous_text with
            | Some p => negb (String.eqb (strip (text entry)) p)
            | None => true
            end).
  - apply sublist_skip, IH.
  - apply sublist_cons, IH.
Qed.

Lemma written_records_cover (transcript : list (Entry F)) :
  forall previous_text e,
    e ∈ transcript ->
    strip (text e)
    ∈ map snd (written_records format_timestamp previous_text transcript)
    \/ previous_text = Some (strip (text e)).
Proof.
  induction transcript as [|entry rest IH]; intros previous_text e He.
  - now apply not_elem_of_nil in He.
  - simpl.
    destruct (match previous_text with
              | Some p => negb (String.eqb (strip (text entry)) p)
              | None => true
              end) eqn:Hw.
    + left. simpl. apply elem_of_cons in He as [->|He].
      * apply list_elem_of_here.
      * destruct (IH (Some (strip (text entry))) e He) as [Hin|Heq].
        -- now apply list_elem_of_further.
        -- injection Heq as ->. apply list_elem_of_here.
    + destruct previous_text as [p|]; [|discriminate].
      apply negb_false_iff, String.eqb_eq in Hw.
      apply elem_of_cons in He as [->|He].
      * right. now rewrite Hw.
      * exact (IH (Some p) e He).
Qed.

(** X20. The collapse of [save_individual_transcript] loses no caption: the
    records written are entries of the transcript, in their order, and
    the trimmed text of every entry is among them. *)
Theorem written_records_complete (transcript : list (Entry F)) :
  let records := written_records format_timestamp None transcript in
  records `sublist_of` map (fun e => (format_timestamp (start e),
                                      strip (text e))) transcript
  /\ forall e, e ∈ transcript -> strip (text e) ∈ map snd records.
Proof.
  cbv zeta. split; [apply written_records_sublist|].
  intros e He.
  destruct (written_records_cover transcript None e He) as [Hin|Heq];
    [exact Hin | discriminate].
Qed.

End Writer.

Section Output.
Context {F : Type} `{PyFloat F}.
Variable find_all_text : string -> list TextTag.
Variable json_loads : string -> option (json F).
Variable format_timestamp : F -> result string.
Variable env : Env (option Info).

Abbreviation process :=
  (process_video find_all_text json_loads format_timestamp env).

(** What [parse_subtitles] returns has trimmed, non-empty texts. *)
Lemma parse_subtitles_trimmed (sub_data : string) (out : list (Entry F)) :
  Subtitles.parse_subtitles find_all_text json_loads sub_data = Ok out ->
  Forall trimmed out.
Proof.
  unfold Subtitles.parse_subtitles, try_except. intros Hrun.
  destruct (Subtitles.parsed_entries find_all_text json_loads sub_data)
    as [parsed|e] eqn:Ep; simpl in Hrun; [|discriminate].
  assert (Hout : out = Subtitles.unique_loop [] parsed).
  { destruct parsed; simpl in Hrun; [discriminate|].
    injection Hrun as <-. reflexivity. }
  subst out.
  pose proof (SubtitleFacts.parsed_entries_trimmed _ _ _ _ Ep) as Hp.
  rewrite Forall_forall in Hp. apply Forall_forall. intros e He.
  apply Hp. eapply elem_of_sublist; [exact He|].
  apply DedupFacts.unique_loop_sublist.
Qed.

(** X21. The transcript file of a video processed with success: it is the
    file of the id, written record by record; there is at least one
    record; each is a timestamp that [format_timestamp] made, between
    brackets, and a caption that is trimmed and not empty; no two records
    in a row carry the same caption.  When no timestamp and no caption
    holds a line break, the lines of the file are these records, one line
    each. *)
Theorem process_video_writes (video_url video_id : string)
    (w : World JobStatus) :
  get_video_id video_url = Some video_id ->
  video_id ∉ completed (loaded w) ->
  fst (process video_url w) = Ok true ->
  exists (records : list (string * string)) (items : list string),
    output_files (snd (process video_url w))
    = (video_id, items) :: output_files w
    /\ items = map (fun r => "[" ++ fst r ++ "] " ++ snd r) records
    /\ records <> []
    /\ Forall (fun r => snd r <> EmptyString /\ strip (snd r) = snd r
                        /\ exists seconds : F,
                             format_timestamp seconds = Ok (fst r)) records
    /\ (forall (i : nat) (a b : string * string),
          records !! i = Some a -> records !! (S i) = Some b ->
          snd a <> snd b)
    /\ (Forall (fun r => has_line_break (fst r) = false
                         /\ has_line_break (snd r) = false) records ->
        read_lines (file_text items) = items).
Proof.
  intros Hid Hnc Hok.
  pose proof (TranscriberSteps.process_video_cases find_all_text json_loads
                format_timestamp env video_url w) as Hcases.
  cbv zeta in Hcases. rewrite Hid in Hcases.
  destruct video_id as [|ch tl];
    [destruct Hcases as [Hf _]; congruence|].
  set (video_id := String ch tl) in *.
  apply mem_false in Hnc. rewrite Hnc in Hcases.
  destruct Hcases
    as [(Hf & _)|(_ & transcript & Hne & (sub_data & Hp) & Ho & Hr)];
    [congruence|].
  rewrite Hok in Hr.
  assert (Hend : snd (write_records format_timestamp None transcript) = Ok tt).
  { destruct (snd (write_records format_timestamp None transcript)) as [[]|e];
      [reflexivity | discriminate]. }
  clear Hr.
  set (records := fst (write_records format_timestamp None transcript)) in *.
  exists records, (map record_line records).
  split; [exact Ho|]. split; [reflexivity|].
  pose proof (parse_subtitles_trimmed sub_data transcript Hp) as Ht.
  rewrite Forall_forall in Ht.
  pose proof (WriterFacts.write_records_from format_timestamp transcript None)
    as Hfrom.
  fold records in Hfrom. rewrite Forall_forall in Hfrom.
  split; [|split; [|split]].
  - destruct transcript as [|entry rest]; [congruence|].
    destruct (WriterFacts.write_records_cover format_timestamp (entry :: rest)
                None entry Hend (list_elem_of_here _ _)) as [Hin|Heq];
      [|discriminate].
    fold records in Hin. intros Hnil. rewrite Hnil in Hin.
    now apply not_elem_of_nil in Hin.
  - apply Forall_forall. intros r Hr.
    destruct (Hfrom r Hr) as (e & He & Hstamp & Hcap).
    destruct (Ht e He) as [Hn Hs]. rewrite Hcap, Hs.
    split; [|split; [exact Hs | exists (start e); exact Hstamp]].
    intros Hempty. rewrite Hempty in Hn. discriminate.
  - intros i a b Ha Hb.
    eapply (WriterFacts.each_differs_neighbours (map snd records) None
              (WriterFacts.write_records_differ format_timestamp
                 transcript None) i).
    + rewrite list_lookup_fmap, Ha. reflexivity.
    + rewrite list_lookup_fmap, Hb. reflexivity.
  - intros Hb. apply WriterFacts.read_lines_file_text.
    apply Forall_forall. intros item Hin.
    apply list_elem_of_fmap in Hin as (r & -> & Hr).
    rewrite Forall_forall in Hb. destruct (Hb r Hr) as [Hbt Hbc].
    now apply WriterFacts.record_line_unbroken.
Qed.



End Output.



End TranscriberOutput.

(** ** [youtube_transcriber.py]: the timecodes of SRT captions *)

Module TimecodeFacts.
Import Py Subtitles Rational FolderFacts.

Lemma starts_with_one (c x : ascii) (s : string) :
  starts_with (String c EmptyString) (String x s) = Ascii.eqb c x.
Proof. cbn [starts_with]. apply andb_true_r. Qed.

(** A separator of one character is in a text put together from two
    parts when it is in one of them. *)
Lemma contains_one_app (c : ascii) (a b : string) :
  contains (String c EmptyString) (a ++ b) = contains (String c EmptyString) a || contains (String c EmptyString) b.
Proof.
  induction a as [|x a IH].
  - change (EmptyString ++ b)%string with b. reflexivity.
  - rewrite append_cons. cbn [contains]. rewrite !starts_with_one, IH.
    now rewrite orb_assoc.
Qed.

(** The split at a separator of one character: the text before its
    first occurrence is the first part. *)
Lemma split_one (c : ascii) (a b : string) :
  contains (String c EmptyString) a = false ->
  split (String c EmptyString) (a ++ String c b) = a :: split (String c EmptyString) b.
Proof.
  unfold split. induction a as [|x a IH]; intros Hc.
  - change (EmptyString ++ String c b)%string with (String c b).
    cbn [split_go]. rewrite starts_with_one, Ascii.eqb_refl. reflexivity.
  - cbn [contains] in Hc. apply orb_false_iff in Hc as [Hx Hc].
    rewrite append_cons. cbn [split_go].
    rewrite starts_with_one in Hx |- *. rewrite Hx, (IH Hc). reflexivity.
Qed.

Section Timecode.
Context {F : Type} `{PyFloat F}.

(** X24. A timecode [HH:MM:SS,mmm] is the seconds it denotes: the parts are
    read as numbers and put together as hours, minutes, seconds and
    thousandths. *)
Theorem srt_time_to_seconds_timecode (h m s ms : string) (fh fm fs fms : F) :
  Forall (fun part => contains "," part = false /\ contains ":" part = false)
    [h; m; s] ->
  contains "," ms = false ->
  float_of_str h = Some fh -> float_of_str m = Some fm ->
  float_of_str s = Some fs -> float_of_str ms = Some fms ->
  srt_time_to_seconds (h ++ ":" ++ m ++ ":" ++ s ++ "," ++ ms)
  = fadd (fadd (fadd (fmul fh (float_of_int 3600)) (fmul fm (float_of_int 60)))
            fs)
      (fdiv fms (float_of_int 1000)).
Proof.
  intros Hparts Hms Hfh Hfm Hfs Hfms.
  apply Forall_cons_1 in Hparts as [[Hh1 Hh2] Hparts].
  apply Forall_cons_1 in Hparts as [[Hm1 Hm2] Hparts].
  apply Forall_cons_1 in Hparts as [[Hs1 Hs2] _].
  set (time_part := (h ++ ":" ++ m ++ ":" ++ s)%string).
  assert (Hstr : (h ++ ":" ++ m ++ ":" ++ s ++ "," ++ ms)%string
                 = (time_part ++ String "," ms)%string).
  { unfold time_part. rewrite !append_assoc. reflexivity. }
  assert (Hcomma : contains "," time_part = false).
  { unfold time_part. rewrite !(contains_one_app ",").
    rewrite Hh1, Hm1, Hs1. reflexivity. }
  assert (Hsplit1 : split "," (time_part ++ String "," ms) = [time_part; ms]).
  { rewrite (split_one "," time_part ms Hcomma). unfold split.
    now rewrite (LineFacts.split_absent "," ms Hms). }
  assert (Hsplit2 : split ":" time_part = [h; m; s]).
  { unfold time_part.
    change (":" ++ m ++ ":" ++ s)%string with (String ":" (m ++ String ":" s)).
    rewrite (split_one ":" h _ Hh2), (split_one ":" m s Hm2). unfold split.
    now rewrite (LineFacts.split_absent ":" s Hs2). }
  assert (Hhas : contains "," (time_part ++ String "," ms) = true).
  { rewrite (contains_one_app ","). apply orb_true_iff. right.
    cbn [contains]. rewrite starts_with_one. reflexivity. }
  unfold srt_time_to_seconds, srt_time_body. rewrite Hstr, Hhas, Hsplit1.
  cbn [unpack2 bind]. unfold float at 1. rewrite Hfms. cbn [bind].
  rewrite Hsplit2. cbn [PyObj.map_result]. unfold float.
  rewrite Hfh, Hfm, Hfs. reflexivity.
Qed.

End Timecode.

(** One minute, two seconds and a half. *)
Lemma srt_time_to_seconds_timecode_witness :
  srt_time_to_seconds ("00" ++ ":" ++ "01" ++ ":" ++ "02" ++ "," ++ "500")
  = fadd (fadd (fadd (fmul 0%Q (float_of_int 3600))
                  (fmul 1%Q (float_of_int 60))) 2%Q)
      (fdiv 500%Q (float_of_int 1000)).
Proof.
  apply (srt_time_to_seconds_timecode (F := Q) "00" "01" "02" "500").
  - repeat constructor.
  - reflexivity.
  - reflexivity.
  - reflexivity.
  - reflexivity.
  - reflexivity.
Defined.

End TimecodeFacts.

(** ** The properties at sample runs *)

Module OutputExamples.
Import Transcriber Invariants.T Steps Steps.T Rational Samples Runs.

(** The limiter called twenty seconds after a request at 1000. *)
Lemma enforce_rate_limit_gap_witness :
  let status := mkStatus [] [] (Some 1000%Q) 0 0 in
  let run := enforce_rate_limit with_captions status (fresh_world 1020) in
  (1000 + (BASE_DELAY + uniform with_captions 0 10 20)
   <= clock (snd run))%Q
  /\ fst run = Ok (set_last_request_time (Some (clock (snd run))) status)
  /\ status_file (snd run)
     = Holds (set_last_request_time (Some (clock (snd run))) status).
Proof.
  apply (TranscriberProperties.enforce_rate_limit_gap with_captions
           (mkStatus [] [] (Some 1000%Q) 0 0) (fresh_world 1020) 1000%Q).
  reflexivity.
Defined.

(** The transcript file of the first video of a fresh folder: the two
    captions of the sample say the same, and one line is written. *)
Lemma process_video_writes_witness :
  let w := snd (initialize (fresh_world 1000)) in
  let run := process_video no_tags no_json show_seconds with_captions
               video_a w in
  output_files (snd run) = [(video_a, ["[] hello"])]
  /\ exists (records : list (string * string)) (items : list string),
       output_files (snd run) = (video_a, items) :: output_files w
       /\ items = map (fun r => "[" ++ fst r ++ "] " ++ snd r) records
       /\ records <> []
       /\ Forall (fun r => snd r <> EmptyString /\ Py.strip (snd r) = snd r
                           /\ exists seconds : Q,
                                show_seconds seconds = Ok (fst r)) records
       /\ (forall (i : nat) (a b : string * string),
             records !! i = Some a -> records !! (S i) = Some b ->
             snd a <> snd b)
       /\ (Forall (fun r => has_line_break (fst r) = false
                            /\ has_line_break (snd r) = false) records ->
           read_lines (file_text items) = items).
Proof.
  split; [vm_compute; reflexivity|].
  apply (TranscriberOutput.process_video_writes no_tags no_json show_seconds
           with_captions video_a video_a).
  - reflexivity.
  - apply not_elem_of_nil.
  - reflexivity.
Defined.



End OutputExamples.

Module NotebookExamples.
Import Notebook Invariants.N Steps.N Rational Samples Runs.


(** The same video asked for twice, one caption found. *)
Lemma notebook_process_video_again_witness :
  let found : Env (list (Entry Q)) := always (Ok [mkEntry "hello" 0%Q 1%Q]) in
  let w := snd (process_video_with found 1 video_a
                  (snd (initialize (fresh_world 1000)))) in
  process_video_with found 1 video_a w = (Ok true, w).
Proof.
  apply (NotebookProperties.notebook_process_video_again
           (always (Ok [mkEntry "hello" 0%Q 1%Q])) 1 video_a).
  reflexivity.
Defined.


(** A video whose transcripts are disabled, with a budget of three. *)
Lemma notebook_permanent_error_recorded_witness :
  let disabled : Env (list (Entry Q)) :=
    always (Raise (TranscriptsDisabled "Subtitles are disabled")) in
  let w := snd (initialize (fresh_world 1000)) in
  let run := extract_transcript_with disabled 3 video_a w in
  fst run = Ok None
  /\ (exists t, requests (snd run) = (requests w ++ [(t, video_a)])%list)
  /\ failed_file (snd run) = append_line (failed_file w) video_a.
Proof.
  apply (NotebookProperties.notebook_permanent_error_recorded
           (always (Raise (TranscriptsDisabled "Subtitles are disabled"))) 3
           video_a _ (TranscriptsDisabled "Subtitles are disabled")).
  - lia.
  - reflexivity.
  - reflexivity.
  - exact I.
Defined.

(** The limiter called five seconds after a request at 1000. *)
Lemma notebook_enforce_rate_limit_waits_witness :
  let status := mkStatus [] [] (Some 1000%Q) in
  let run := enforce_rate_limit rate_limited status (fresh_world 1005) in
  (1000 + BASE_DELAY <= clock (snd run))%Q
  /\ fst run = Ok (set_last_request_time (Some (clock (snd run))) status)
  /\ status_file (snd run)
     = Holds (set_last_request_time (Some (clock (snd run))) status).
Proof.
  apply (NotebookProperties.notebook_enforce_rate_limit_waits rate_limited
           (mkStatus [] [] (Some 1000%Q)) (fresh_world 1005) 1000%Q).
  - reflexivity.
  - discriminate.
Defined.

End NotebookExamples.
